(** * Stripe Go bindings: request building, list iteration and event lookup

    A shallow embedding of the [plan] and [sub] resource clients
    (src/plan/client.go, src/sub/client.go) and of the event value lookup of
    the root package, together with the properties the specification states
    about them.

    Go values are modelled as follows.
    - [url.Values] (a [map[string][]string]) is a [gmap string (list string)].
    - [uint64] fields are [N], [int64] fields are [Z]; the clients never do
      arithmetic on them, so no wrap-around arises.
    - [float64] is [spec_float], the IEEE-754 datatype of the standard library.
    - A pointer that may be nil is an [option].
    - A call either returns or panics ([outcome]); calls of the backend are
      threaded through a state monad that also records each request. *)

From Stdlib Require Import ZArith NArith String Ascii List Lia.
From Stdlib Require Import Floats.SpecFloat.
From Stdlib Require Import DecimalString DecimalN DecimalZ.
From stdpp Require Import base option gmap strings list.

Set Warnings "-register-all".

Local Open Scope string_scope.
Local Open Scope list_scope.
Local Open Scope Z_scope.

(** [url.Values] of the Go standard library. *)
Abbreviation Values := (gmap string (list string)).

(** ** Package [net/url]: the methods of [Values] the clients use *)
Module url.

(** [v.Add(key, value)] appends the value to the list stored under the key. *)
Definition Add (key value : string) (v : Values) : Values :=
  <[key := default [] (v !! key) ++ [value]]> v.

(** [v.Set(key, value)] replaces whatever is stored under the key. *)
Definition Set_ (key value : string) (v : Values) : Values :=
  <[key := [value]]> v.

(** [v.Get(key)] is the first value stored under the key, or the empty string. *)
Definition Get (key : string) (v : Values) : string :=
  match v !! key with
  | Some (x :: _) => x
  | _ => ""
  end.

End url.

(** ** Package [strconv]: the formatting functions the clients use *)
Module strconv.

(** [strconv.FormatUint(i, 10)]. The clients only ever pass base 10. *)
Definition FormatUint (i : N) : string :=
  NilZero.string_of_uint (N.to_uint i).

(** [strconv.FormatInt(i, 10)]. *)
Definition FormatInt (i : Z) : string :=
  NilZero.string_of_int (Z.to_int i).

(** [strconv.FormatBool(b)]. *)
Definition FormatBool (b : bool) : string :=
  if b then "true" else "false".

(** The integer nearest to [num / den] ([den > 0]), ties going to the even
    neighbour: the rounding of [strconv]'s exact decimal conversion. *)
Definition round_half_even (num den : Z) : Z :=
  let q := num / den in
  let r := num mod den in
  if 2 * r <? den then q
  else if den <? 2 * r then q + 1
  else if Z.even q then q else q + 1.

(** The integer nearest to [m * 2^e * 10^prec]. *)
Definition scaled (m : positive) (e : Z) (prec : nat) : Z :=
  if 0 <=? e then Z.pos m * 2 ^ e * 10 ^ Z.of_nat prec
  else round_half_even (Z.pos m * 10 ^ Z.of_nat prec) (2 ^ (- e)).

Definition digit (d : Z) : ascii :=
  ascii_of_nat (48 + Z.to_nat (d mod 10)).

(** The last [prec] decimal digits of [n], zero padded. *)
Fixpoint frac_digits (prec : nat) (n : Z) : string :=
  match prec with
  | O => ""
  | S p => frac_digits p (n / 10) +:+ String (digit n) ""
  end.

(** [n / 10^prec] written with [prec] digits after the point. *)
Definition fixed (n : Z) (prec : nat) : string :=
  let ip := NilZero.string_of_uint (N.to_uint (Z.to_N (n / 10 ^ Z.of_nat prec))) in
  match prec with
  | O => ip
  | S _ => ip +:+ "." +:+ frac_digits prec n
  end.

(** [strconv.FormatFloat(f, 'f', prec, 64)]: no exponent, [prec] digits after
    the decimal point; infinities and NaN have fixed spellings. The clients
    only ever pass format ['f'] and bit size 64. *)
Definition FormatFloat (f : spec_float) (prec : nat) : string :=
  match f with
  | S754_nan => "NaN"
  | S754_infinity false => "+Inf"
  | S754_infinity true => "-Inf"
  | S754_zero s => (if s then "-" else "") +:+ fixed 0 prec
  | S754_finite s m e => (if s then "-" else "") +:+ fixed (scaled m e prec) prec
  end.

End strconv.

(** ** Package [stripe]: what the clients take from the root package *)

(** The declarations of the root package that the files under study use but
    do not contain, and the state of the world behind the network boundary.
    [Params] is the struct every params type embeds; [CardParams] is the card
    bundle of [SubParams]; [Plan] and [Sub] are the decoded resources. *)
Class Core := {
  World : Type;
  error : Type;
  Params : Type;
  Params_AppendTo : Params -> Values -> Values;
  CardParams : Type;
  CardParams_Token : CardParams -> string;
  CardParams_AppendDetails : CardParams -> Values -> bool -> Values;
  Plan : Type;
  Plan_zero : Plan;
  Plan_ID : Plan -> string;
  Sub : Type;
  Sub_zero : Sub;
  Sub_ID : Sub -> string
}.

(** *** Panics, outcomes and the call monad *)

Inductive panic : Type :=
| NilDereference
| IndexOutOfRange
| TypeAssertion.

Inductive outcome (A : Type) : Type :=
| Ret (a : A)
| Panic (p : panic).

Arguments Ret {A} a.
Arguments Panic {A} p.

(** One request handed to [Backend.Call], with the error it came back with. *)
Record CallRec `{Core} := {
  c_method : string;
  c_path : string;
  c_key : string;
  c_body : option Values;
  c_err : option error
}.

(** The world behind the backend and the requests made so far. *)
Record St `{Core} := {
  world : World;
  calls : list CallRec
}.

Definition M `{Core} (A : Type) : Type := St -> outcome A * St.

Definition ret `{Core} {A : Type} (a : A) : M A :=
  fun st => (Ret a, st).

Definition raise `{Core} {A : Type} (p : panic) : M A :=
  fun st => (Panic p, st).

Definition bind `{Core} {A B : Type} (m : M A) (k : A -> M B) : M B :=
  fun st =>
    match m st with
    | (Ret a, st') => k a st'
    | (Panic p, st') => (Panic p, st')
    end.

Notation "x <- m ;; k" := (bind m (fun x => k))
  (at level 100, m at next level, right associativity).

Module stripe.

(** *** List parameters and metadata *)

(** Modelled from the spec: the [ListParams] declaration is not among the
    sources. Common paging controls: the two cursor bounds, the page size
    limit and an optional set of filters. *)
Record ListParams := {
  After : string;
  Before : string;
  Limit : N;
  Filters : list (string * string)
}.

(** Modelled from the spec: the [ListMeta] declaration is not among the
    sources. Per-page result metadata: the total count and the has-more
    flag. *)
Record ListMeta := {
  TotalCount : N;
  HasMore : bool
}.

Definition ListParams_zero : ListParams :=
  {| After := ""; Before := ""; Limit := 0%N; Filters := [] |}.

Definition ListMeta_zero : ListMeta :=
  {| TotalCount := 0%N; HasMore := false |}.

Definition nonempty (s : string) : bool :=
  negb (String.eqb s "").

(** Modelled from the spec: the encoder of [ListParams] is not among the
    sources. Only the fields that differ from their zero value are encoded,
    the limit as a decimal string. *)
Definition ListParams_AppendTo (p : ListParams) (body : Values) : Values :=
  let body :=
    if nonempty (After p) then url.Add "starting_after" (After p) body else body in
  let body :=
    if nonempty (Before p) then url.Add "ending_before" (Before p) body else body in
  let body :=
    if (0 <? Limit p)%N then url.Add "limit" (strconv.FormatUint (Limit p)) body else body in
  fold_left (fun b kv => url.Add (fst kv) (snd kv) b) (Filters p) body.

(** *** The backend *)

(** The list envelopes the two [List] operations decode into:
    [stripe.SubList] and the local [planList]. *)
Record SubList `{Core} := {
  sl_ListMeta : ListMeta;
  sl_Values : list Sub
}.

Record planList `{Core} := {
  pl_ListMeta : ListMeta;
  pl_Values : list Plan
}.

Definition SubList_zero `{Core} : SubList :=
  {| sl_ListMeta := ListMeta_zero; sl_Values := [] |}.

Definition planList_zero `{Core} : planList :=
  {| pl_ListMeta := ListMeta_zero; pl_Values := [] |}.

(** What the destination argument of [Backend.Call] points to. *)
Inductive destKind : Type :=
| KNil
| KPlan
| KSub
| KPlanList
| KSubList.

Definition destT `{Core} (k : destKind) : Type :=
  match k with
  | KNil => unit
  | KPlan => Plan
  | KSub => Sub
  | KPlanList => planList
  | KSubList => SubList
  end.

(** [Backend.Call(method, path, key, body, v) error]: the body may be nil, the
    destination is decoded into, and the world moves on. *)
Record Backend `{Core} := {
  Call : string -> string -> string -> option Values ->
         forall k : destKind, destT k -> World -> (destT k * option error) * World
}.

(** A call of the backend inside the monad: it is recorded in the log. *)
Definition call `{Core} (b : Backend) (method path key : string)
    (body : option Values) (k : destKind) (v : destT k) : M (destT k * option error) :=
  fun st =>
    let '(r, w) := Call b method path key body k v (world st) in
    (Ret r,
     {| world := w;
        calls := calls st ++ [{| c_method := method; c_path := path; c_key := key;
                                 c_body := body; c_err := snd r |}] |}).

(** *** Untyped list items *)

(** An [interface{}] holding one item of a list page: nil, or a pointer to a
    decoded plan or subscription. *)
Inductive iface `{Core} : Type :=
| INil
| IPlan (p : Plan)
| ISub (s : Sub).

(** The identifier of an item, which the iterator uses as its cursor. *)
Definition iface_ID `{Core} (x : iface) : string :=
  match x with
  | INil => ""
  | IPlan p => Plan_ID p
  | ISub s => Sub_ID s
  end.

(** The page-fetch function: from an encoded body to the items of one page,
    the metadata of the page and an error. *)
Definition Query `{Core} : Type :=
  Values -> M (list iface * ListMeta * option error).

(** *** The list iterator *)
Module Iter.

(** Modelled from the spec: the iterator of the root package is not among the
    sources. It owns the page-fetch function and the encoded body, and holds
    the item buffer of the current page, the index into it, the metadata last
    seen (none before the first fetch) and a pending error. *)
Record t `{Core} := {
  query : Query;
  qs : Values;
  params : ListParams;
  values : list iface;
  cur : nat;
  meta : option ListMeta;
  err : option error
}.

(** Whether a further page may exist: nothing was fetched yet, or the last
    page said so. *)
Definition more `{Core} (it : t) : bool :=
  match meta it with
  | None => true
  | Some m => HasMore m
  end.

(** The body of the next page request: the identifier of the last item of the
    current page becomes the new after-cursor. *)
Definition next_qs `{Core} (it : t) : Values :=
  match last (values it) with
  | Some x => url.Set_ "starting_after" (iface_ID x) (qs it)
  | None => qs it
  end.

(** Modelled from the spec: [Next()]. A pending error is returned again. An
    item left in the buffer is returned. With the buffer exhausted and more
    pages to come, the next page is fetched: a failed fetch makes the iterator
    terminal, a successful one yields the first item of the new page. With
    the buffer exhausted and no more pages, the end-of-sequence signal (a nil
    item and a nil error) is returned. *)
Definition Next `{Core} (it : t) : M ((iface * option error) * t) :=
  match err it with
  | Some e => ret ((INil, Some e), it)
  | None =>
    match values it !! cur it with
    | Some x =>
      ret ((x, None),
           {| query := query it; qs := qs it; params := params it; values := values it;
              cur := S (cur it); meta := meta it; err := None |})
    | None =>
      if more it then
        let q := next_qs it in
        r <- query it q ;;
        let '(items, m, e) := r in
        match e with
        | Some e =>
          ret ((INil, Some e),
               {| query := query it; qs := q; params := params it; values := values it;
                  cur := cur it; meta := meta it; err := Some e |})
        | None =>
          let it' := {| query := query it; qs := q; params := params it; values := items;
                        cur := 1; meta := Some m; err := None |} in
          match items with
          | x :: _ => ret ((x, None), it')
          | [] => ret ((INil, None), it')
          end
        end
      else ret ((INil, None), it)
    end
  end.

(** Modelled from the spec: [Stop()] is true if no more items are obtainable:
    the iterator is in its terminal error state, or the buffer is exhausted
    and no more pages exist. *)
Definition Stop `{Core} (it : t) : bool :=
  match err it with
  | Some _ => true
  | None => (length (values it) <=? cur it)%nat && negb (more it)
  end.

(** Modelled from the spec: [Meta()] is the metadata of the most recently
    fetched page, nil before the first fetch. *)
Definition Meta `{Core} (it : t) : option ListMeta :=
  meta it.

End Iter.

(** Modelled from the spec: [GetIter(params, qs, query)]. Nil list parameters
    and a nil body stand for the server defaults; nothing is fetched yet. *)
Definition GetIter `{Core} (params : option ListParams) (qs : option Values)
    (query : Query) : Iter.t :=
  {| Iter.query := query;
     Iter.qs := default ∅ qs;
     Iter.params := default ListParams_zero params;
     Iter.values := [];
     Iter.cur := 0;
     Iter.meta := None;
     Iter.err := None |}.

(** *** Parameter structs of the two clients *)

(** [stripe.PlanParams], with the fields [plan.Client] reads. *)
Module PlanParams.
Record t `{Core} := {
  Params_ : Params;
  ID : string;
  Name : string;
  Currency : string;
  Amount : N;
  Interval : string;
  IntervalCount : N;
  TrialPeriod : N;
  Statement : string
}.
End PlanParams.

(** [stripe.PlanListParams]. *)
Module PlanListParams.
Record t := {
  ListParams_ : ListParams
}.
End PlanListParams.

(** [stripe.SubParams], with the fields [sub.Client] reads. *)
Module SubParams.
Record t `{Core} := {
  Params_ : Params;
  Customer : string;
  Plan : string;
  Coupon : string;
  Token : string;
  TrialEnd : Z;
  Card : option CardParams;
  Quantity : N;
  FeePercent : spec_float;
  NoProrate : bool;
  EndCancel : bool
}.
End SubParams.

(** [stripe.SubListParams]. *)
Module SubListParams.
Record t := {
  ListParams_ : ListParams;
  Customer : string
}.
End SubListParams.

(** *** Events *)

(** A value decoded from JSON into an [interface{}]: nil, a boolean, a
    number, a string, an array or a string-keyed map. *)
Inductive value : Type :=
| VNil
| VBool (b : bool)
| VNumber (f : spec_float)
| VString (s : string)
| VArray (l : list value)
| VMap (m : gmap string value).

(** [m[k]] on a Go map: the zero value, nil, when the key is absent. *)
Definition index (m : gmap string value) (k : string) : value :=
  default VNil (m !! k).

(** [EventData]: the unmarshalled object and the previous attributes. *)
Record EventData := {
  Obj : gmap string value;
  Prev : gmap string value
}.

(** [Event]: the resource representing a Stripe event. *)
Record Event := {
  ID : string;
  Live : bool;
  Created : Z;
  Data : option EventData;
  Webhooks : N;
  Type_ : string;
  Req : string
}.

(** The loop of [getValue]: each further key indexes into the node, which
    must then be a string-keyed map. *)
Fixpoint descend (node : value) (keys : list string) : outcome value :=
  match keys with
  | [] => Ret node
  | k :: keys' =>
    match node with
    | VMap m => descend (index m k) keys'
    | _ => Panic TypeAssertion
    end
  end.

(** [getValue(m, keys)]: the value from the map based on the keys. *)
Definition getValue (m : gmap string value) (keys : list string) : outcome string :=
  match keys with
  | [] => Panic IndexOutOfRange
  | k :: keys' =>
    match descend (index m k) keys' with
    | Panic p => Panic p
    | Ret VNil => Ret ""
    | Ret (VString s) => Ret s
    | Ret _ => Panic TypeAssertion
    end
  end.

(** [e.GetObjValue(keys...)]: [e.Data] is dereferenced first. *)
Definition GetObjValue (e : Event) (keys : list string) : outcome string :=
  match Data e with
  | None => Panic NilDereference
  | Some d => getValue (Obj d) keys
  end.

(** [e.GetPrevValue(keys...)]. *)
Definition GetPrevValue (e : Event) (keys : list string) : outcome string :=
  match Data e with
  | None => Panic NilDereference
  | Some d => getValue (Prev d) keys
  end.

(** *** Process-wide configuration *)

(** The package variable [stripe.Key] and the backend [stripe.GetBackend()]
    returns, which the default clients read at each call. Their declarations
    are not among the sources; they are handed to the package-level functions
    as an argument. *)
Record Globals `{Core} := {
  GetBackend : Backend;
  Key : string
}.

End stripe.

(** ** Package [plan]: the /plans APIs *)
Module plan.

Definition Day : string := "day".
Definition Week : string := "week".
Definition Month : string := "month".
Definition Year : string := "year".

Module Iter.

(** [Iter] is an iterator for list responses. *)
Record t `{Core} := {
  Iter : stripe.Iter.t
}.

(** [Next] returns the next value in the list, downcast to a plan. *)
Definition Next `{Core} (i : t) : M ((option Plan * option error) * t) :=
  r <- stripe.Iter.Next (Iter i) ;;
  let '((p, err), it) := r in
  match err with
  | Some e => ret ((None, Some e), {| Iter := it |})
  | None =>
    match p with
    | stripe.IPlan x => ret ((Some x, None), {| Iter := it |})
    | _ => raise TypeAssertion
    end
  end.

(** [Stop] returns true if there are no more iterations to be performed. *)
Definition Stop `{Core} (i : t) : bool :=
  stripe.Iter.Stop (Iter i).

(** [Meta] returns the list metadata. *)
Definition Meta `{Core} (i : t) : option stripe.ListMeta :=
  stripe.Iter.Meta (Iter i).

End Iter.

Module Client.

(** [Client] is used to invoke /plans APIs. *)
Record t `{Core} := {
  B : stripe.Backend;
  Key : string
}.

(** The part of the body of [New] built before the shared params. *)
Definition New_body `{Core} (p : stripe.PlanParams.t) : Values :=
  let body : Values :=
    <["id" := [stripe.PlanParams.ID p]]>
    (<["name" := [stripe.PlanParams.Name p]]>
    (<["amount" := [strconv.FormatUint (stripe.PlanParams.Amount p)]]>
    (<["currency" := [stripe.PlanParams.Currency p]]>
    (<["interval" := [stripe.PlanParams.Interval p]]> ∅)))) in
  let body :=
    if (0 <? stripe.PlanParams.IntervalCount p)%N
    then url.Add "interval_count" (strconv.FormatUint (stripe.PlanParams.IntervalCount p)) body
    else body in
  let body :=
    if (0 <? stripe.PlanParams.TrialPeriod p)%N
    then url.Add "trial_period_days" (strconv.FormatUint (stripe.PlanParams.TrialPeriod p)) body
    else body in
  if stripe.nonempty (stripe.PlanParams.Statement p)
  then url.Add "statement_description" (stripe.PlanParams.Statement p) body
  else body.

(** [New] POSTs a new plan. The params are read unconditionally. *)
Definition New `{Core} (c : t) (params : option stripe.PlanParams.t)
    : M (option Plan * option error) :=
  match params with
  | None => raise NilDereference
  | Some p =>
    let body := Params_AppendTo (stripe.PlanParams.Params_ p) (New_body p) in
    r <- stripe.call (B c) "POST" "/plans" (Key c) (Some body) stripe.KPlan Plan_zero ;;
    ret (Some (fst r), snd r)
  end.

(** [Get] returns the details of a plan. Nil params give a nil body. *)
Definition Get `{Core} (c : t) (id : string) (params : option stripe.PlanParams.t)
    : M (option Plan * option error) :=
  let body : option Values :=
    match params with
    | Some p => Some (Params_AppendTo (stripe.PlanParams.Params_ p) ∅)
    | None => None
    end in
  r <- stripe.call (B c) "GET" ("/plans/" +:+ id) (Key c) body stripe.KPlan Plan_zero ;;
  ret (Some (fst r), snd r).

(** The part of the body of [Update] built before the shared params. *)
Definition Update_body `{Core} (p : stripe.PlanParams.t) : Values :=
  let body : Values := ∅ in
  let body :=
    if stripe.nonempty (stripe.PlanParams.Name p)
    then url.Add "name" (stripe.PlanParams.Name p) body
    else body in
  if stripe.nonempty (stripe.PlanParams.Statement p)
  then url.Add "statement_description" (stripe.PlanParams.Statement p) body
  else body.

(** [Update] updates a plan's properties. Nil params give a nil body. *)
Definition Update `{Core} (c : t) (id : string) (params : option stripe.PlanParams.t)
    : M (option Plan * option error) :=
  let body : option Values :=
    match params with
    | Some p => Some (Params_AppendTo (stripe.PlanParams.Params_ p) (Update_body p))
    | None => None
    end in
  r <- stripe.call (B c) "POST" ("/plans/" +:+ id) (Key c) body stripe.KPlan Plan_zero ;;
  ret (Some (fst r), snd r).

(** [Del] removes a plan: no body and no destination. *)
Definition Del `{Core} (c : t) (id : string) : M (option error) :=
  r <- stripe.call (B c) "DELETE" ("/plans/" +:+ id) (Key c) None stripe.KNil tt ;;
  ret (snd r).

(** The page-fetch closure of [List]. *)
Definition list_query `{Core} (c : t) : stripe.Query :=
  fun b =>
    r <- stripe.call (B c) "GET" "/plans" (Key c) (Some b) stripe.KPlanList
           stripe.planList_zero ;;
    ret (map stripe.IPlan (stripe.pl_Values (fst r)), stripe.pl_ListMeta (fst r), snd r).

(** [List] returns a list of plans. Nil params give a nil body and nil list
    parameters. *)
Definition List `{Core} (c : t) (params : option stripe.PlanListParams.t) : Iter.t :=
  let body : option Values :=
    match params with
    | Some p => Some (stripe.ListParams_AppendTo (stripe.PlanListParams.ListParams_ p) ∅)
    | None => None
    end in
  let lp : option stripe.ListParams :=
    match params with
    | Some p => Some (stripe.PlanListParams.ListParams_ p)
    | None => None
    end in
  {| Iter.Iter := stripe.GetIter lp body (list_query c) |}.

End Client.

(** [getC]: the client made of the process-wide backend and key. *)
Definition getC `{Core} (g : stripe.Globals) : Client.t :=
  {| Client.B := stripe.GetBackend g; Client.Key := stripe.Key g |}.

(** The package-level functions run the method of the default client. *)
Definition New `{Core} (g : stripe.Globals) (params : option stripe.PlanParams.t)
    : M (option Plan * option error) :=
  Client.New (getC g) params.

Definition Get `{Core} (g : stripe.Globals) (id : string)
    (params : option stripe.PlanParams.t) : M (option Plan * option error) :=
  Client.Get (getC g) id params.

Definition Update `{Core} (g : stripe.Globals) (id : string)
    (params : option stripe.PlanParams.t) : M (option Plan * option error) :=
  Client.Update (getC g) id params.

Definition Del `{Core} (g : stripe.Globals) (id : string) : M (option error) :=
  Client.Del (getC g) id.

Definition List `{Core} (g : stripe.Globals) (params : option stripe.PlanListParams.t)
    : Iter.t :=
  Client.List (getC g) params.

End plan.

(** ** Package [sub]: the /subscriptions APIs *)
Module sub.

Definition Trialing : string := "trialing".
Definition Active : string := "active".
Definition PastDue : string := "past_due".
Definition Canceled : string := "canceled".
Definition Unpaid : string := "unpaid".

Module Iter.

(** [Iter] is an iterator for list responses. *)
Record t `{Core} := {
  Iter : stripe.Iter.t
}.

(** [Next] returns the next value in the list, downcast to a subscription. *)
Definition Next `{Core} (i : t) : M ((option Sub * option error) * t) :=
  r <- stripe.Iter.Next (Iter i) ;;
  let '((s, err), it) := r in
  match err with
  | Some e => ret ((None, Some e), {| Iter := it |})
  | None =>
    match s with
    | stripe.ISub x => ret ((Some x, None), {| Iter := it |})
    | _ => raise TypeAssertion
    end
  end.

(** [Stop] returns true if there are no more iterations to be performed. *)
Definition Stop `{Core} (i : t) : bool :=
  stripe.Iter.Stop (Iter i).

(** [Meta] returns the list metadata. *)
Definition Meta `{Core} (i : t) : option stripe.ListMeta :=
  stripe.Iter.Meta (Iter i).

End Iter.

Module Client.

(** [Client] is used to invoke /subscriptions APIs. *)
Record t `{Core} := {
  B : stripe.Backend;
  Key : string
}.

(** The part of the body of [New] built before the shared params. *)
Definition New_body `{Core} (p : stripe.SubParams.t) : Values :=
  let body : Values := {[ "plan" := [stripe.SubParams.Plan p] ]} in
  let body :=
    if stripe.nonempty (stripe.SubParams.Token p)
    then url.Add "card" (stripe.SubParams.Token p) body
    else
      match stripe.SubParams.Card p with
      | Some card => CardParams_AppendDetails card body true
      | None => body
      end in
  let body :=
    if stripe.nonempty (stripe.SubParams.Coupon p)
    then url.Add "coupon" (stripe.SubParams.Coupon p) body
    else body in
  let body :=
    if 0 <? stripe.SubParams.TrialEnd p
    then url.Add "trial_end" (strconv.FormatInt (stripe.SubParams.TrialEnd p)) body
    else body in
  let body :=
    if (0 <? stripe.SubParams.Quantity p)%N
    then url.Add "quantity" (strconv.FormatUint (stripe.SubParams.Quantity p)) body
    else body in
  if SFltb (S754_zero false) (stripe.SubParams.FeePercent p)
  then url.Add "application_fee_percent"
         (strconv.FormatFloat (stripe.SubParams.FeePercent p) 2) body
  else body.

(** [New] POSTs a new subscription for a customer. The params are read
    unconditionally. *)
Definition New `{Core} (c : t) (params : option stripe.SubParams.t)
    : M (option Sub * option error) :=
  match params with
  | None => raise NilDereference
  | Some p =>
    let body := Params_AppendTo (stripe.SubParams.Params_ p) (New_body p) in
    let token := Key c in
    r <- stripe.call (B c) "POST"
           ("/customers/" +:+ stripe.SubParams.Customer p +:+ "/subscriptions")
           token (Some body) stripe.KSub Sub_zero ;;
    ret (Some (fst r), snd r)
  end.

(** [Get] returns the details of a subscription. The params are read
    unconditionally. *)
Definition Get `{Core} (c : t) (id : string) (params : option stripe.SubParams.t)
    : M (option Sub * option error) :=
  match params with
  | None => raise NilDereference
  | Some p =>
    let body := Params_AppendTo (stripe.SubParams.Params_ p) ∅ in
    r <- stripe.call (B c) "GET"
           ("/customers/" +:+ stripe.SubParams.Customer p +:+ "/subscriptions/" +:+ id)
           (Key c) (Some body) stripe.KSub Sub_zero ;;
    ret (Some (fst r), snd r)
  end.

(** The part of the body of [Update] built before the shared params. *)
Definition Update_body `{Core} (p : stripe.SubParams.t) : Values :=
  let body : Values := ∅ in
  let body :=
    if stripe.nonempty (stripe.SubParams.Plan p)
    then url.Add "plan" (stripe.SubParams.Plan p) body
    else body in
  let body :=
    if stripe.SubParams.NoProrate p
    then url.Add "prorate" (strconv.FormatBool false) body
    else body in
  let body :=
    if stripe.nonempty (stripe.SubParams.Token p)
    then url.Add "card" (stripe.SubParams.Token p) body
    else
      match stripe.SubParams.Card p with
      | Some card =>
        if stripe.nonempty (CardParams_Token card)
        then url.Add "card" (CardParams_Token card) body
        else CardParams_AppendDetails card body true
      | None => body
      end in
  let body :=
    if stripe.nonempty (stripe.SubParams.Coupon p)
    then url.Add "coupon" (stripe.SubParams.Coupon p) body
    else body in
  let body :=
    if 0 <? stripe.SubParams.TrialEnd p
    then url.Add "trial_end" (strconv.FormatInt (stripe.SubParams.TrialEnd p)) body
    else body in
  let body :=
    if (0 <? stripe.SubParams.Quantity p)%N
    then url.Add "quantity" (strconv.FormatUint (stripe.SubParams.Quantity p)) body
    else body in
  if SFltb (S754_zero false) (stripe.SubParams.FeePercent p)
  then url.Add "application_fee_percent"
         (strconv.FormatFloat (stripe.SubParams.FeePercent p) 2) body
  else body.

(** [Update] updates a subscription's properties. The params are read
    unconditionally. *)
Definition Update `{Core} (c : t) (id : string) (params : option stripe.SubParams.t)
    : M (option Sub * option error) :=
  match params with
  | None => raise NilDereference
  | Some p =>
    let body := Params_AppendTo (stripe.SubParams.Params_ p) (Update_body p) in
    let token := Key c in
    r <- stripe.call (B c) "POST"
           ("/customers/" +:+ stripe.SubParams.Customer p +:+ "/subscriptions/" +:+ id)
           token (Some body) stripe.KSub Sub_zero ;;
    ret (Some (fst r), snd r)
  end.

(** The part of the body of [Cancel] built before the shared params. *)
Definition Cancel_body `{Core} (p : stripe.SubParams.t) : Values :=
  if stripe.SubParams.EndCancel p
  then url.Add "at_period_end" (strconv.FormatBool true) ∅
  else ∅.

(** [Cancel] removes a subscription. The params are read unconditionally;
    there is no destination. *)
Definition Cancel `{Core} (c : t) (id : string) (params : option stripe.SubParams.t)
    : M (option error) :=
  match params with
  | None => raise NilDereference
  | Some p =>
    let body := Params_AppendTo (stripe.SubParams.Params_ p) (Cancel_body p) in
    r <- stripe.call (B c) "DELETE"
           ("/customers/" +:+ stripe.SubParams.Customer p +:+ "/subscriptions/" +:+ id)
           (Key c) (Some body) stripe.KNil tt ;;
    ret (snd r)
  end.

(** The page-fetch closure of [List]. *)
Definition list_query `{Core} (c : t) (p : stripe.SubListParams.t) : stripe.Query :=
  fun b =>
    r <- stripe.call (B c) "GET"
           ("/customers/" +:+ stripe.SubListParams.Customer p +:+ "/subscriptions")
           (Key c) (Some b) stripe.KSubList
           stripe.SubList_zero ;;
    ret (map stripe.ISub (stripe.sl_Values (fst r)), stripe.sl_ListMeta (fst r), snd r).

(** [List] returns a list of subscriptions. The params are read
    unconditionally. *)
Definition List `{Core} (c : t) (params : option stripe.SubListParams.t) : outcome Iter.t :=
  match params with
  | None => Panic NilDereference
  | Some p =>
    let body := stripe.ListParams_AppendTo (stripe.SubListParams.ListParams_ p) ∅ in
    let lp := stripe.SubListParams.ListParams_ p in
    Ret {| Iter.Iter := stripe.GetIter (Some lp) (Some body) (list_query c p) |}
  end.

End Client.

(** [getC]: the client made of the process-wide backend and key. *)
Definition getC `{Core} (g : stripe.Globals) : Client.t :=
  {| Client.B := stripe.GetBackend g; Client.Key := stripe.Key g |}.

(** The package-level functions run the method of the default client. *)
Definition New `{Core} (g : stripe.Globals) (params : option stripe.SubParams.t)
    : M (option Sub * option error) :=
  Client.New (getC g) params.

Definition Get `{Core} (g : stripe.Globals) (id : string)
    (params : option stripe.SubParams.t) : M (option Sub * option error) :=
  Client.Get (getC g) id params.

Definition Update `{Core} (g : stripe.Globals) (id : string)
    (params : option stripe.SubParams.t) : M (option Sub * option error) :=
  Client.Update (getC g) id params.

Definition Cancel `{Core} (g : stripe.Globals) (id : string)
    (params : option stripe.SubParams.t) : M (option error) :=
  Client.Cancel (getC g) id params.

Definition List `{Core} (g : stripe.Globals) (params : option stripe.SubListParams.t)
    : outcome Iter.t :=
  Client.List (getC g) params.

End sub.

(** ** Vocabulary of the properties *)

(** The requests a computation hands to the backend when run from [st]. *)
Definition requests_of `{Core} {A : Type} (m : M A) (st : St) : list CallRec :=
  drop (length (calls st)) (calls (snd (m st))).

(** The computation returns a value (it does not panic), whatever the state. *)
Definition returns `{Core} {A : Type} (m : M A) : Prop :=
  forall st, exists a st', m st = (Ret a, st').

(** A path is resource-relative: it begins with a slash. *)
Definition leading_slash (path : string) : bool :=
  match path with
  | String c _ => Ascii.eqb c "/"
  | EmptyString => false
  end.

(** The kinds of operation of a resource client. *)
Inductive opkind : Type :=
| OpNew
| OpGet
| OpUpdate
| OpDel
| OpList.

Definition verb (op : opkind) : string :=
  match op with
  | OpNew | OpUpdate => "POST"
  | OpGet | OpList => "GET"
  | OpDel => "DELETE"
  end.

(** A request is well formed for an operation kind. *)
Definition request_ok `{Core} (op : opkind) (rq : CallRec) : Prop :=
  c_method rq = verb op /\
  c_method rq ∈ ["GET"; "POST"; "DELETE"] /\
  leading_slash (c_path rq) = true.

(** Whenever the computation returns, it has made exactly one request, and
    the error it returns is the error [Backend.Call] gave for that request. *)
Definition propagates `{Core} {A : Type} (b : stripe.Backend) (m : M A)
    (errof : A -> option error) : Prop :=
  forall st a st', m st = (Ret a, st') ->
    exists method path key body k v r,
      stripe.Call b method path key body k v (world st) = ((r, errof a), world st') /\
      calls st' = calls st ++ [{| c_method := method; c_path := path; c_key := key;
                                  c_body := body; c_err := errof a |}].

(** Whenever the computation returns, the pointer it returns is not nil. *)
Definition never_nil `{Core} {A : Type} (m : M (option A * option error)) : Prop :=
  forall st ptr e st', m st = (Ret (ptr, e), st') -> is_Some ptr.

(** Whenever the computation returns, it has handed the freshly allocated
    struct [zero] to [Backend.Call] as the destination, and what it returns is
    the pointer to that struct as the call left it, together with the error
    of the call. *)
Definition returns_destination `{Core} (b : stripe.Backend) (k : stripe.destKind)
    (zero : stripe.destT k) (m : M (option (stripe.destT k) * option error)) : Prop :=
  forall st ptr e st', m st = (Ret (ptr, e), st') ->
    exists method path key body d,
      stripe.Call b method path key body k zero (world st) = ((d, e), world st') /\
      ptr = Some d.

(** A body transformer leaves the given keys alone. *)
Definition preserves (keys : list string) (f : Values -> Values) : Prop :=
  forall b k, k ∈ keys -> f b !! k = b !! k.

(** The keys under which the clients encode numbers and booleans: in New
    and in Update of the subscription client, and in New of the plan
    client. *)
Definition sub_New_keys : list string :=
  ["trial_end"; "quantity"; "application_fee_percent"].

Definition sub_Update_keys : list string :=
  "prorate" :: sub_New_keys.

Definition plan_New_keys : list string :=
  ["amount"; "interval_count"; "trial_period_days"].

(** The key holds the one value [v] when [present], and nothing otherwise. *)
Definition encodes (body : Values) (k : string) (present : bool) (v : string) : Prop :=
  body !! k = if present then Some [v] else None.

(** The value [v] is the last one added under the key. *)
Definition adds_last (body : Values) (k v : string) : Prop :=
  exists prev, body !! k = Some (prev ++ [v]).

Definition is_digit (c : ascii) : bool :=
  let n := nat_of_ascii c in (48 <=? n)%nat && (n <=? 57)%nat.

(** One or more digits (at least one once [seen]), a point, two digits. *)
Fixpoint digits_point_two (s : string) (seen : bool) : bool :=
  match s with
  | EmptyString => false
  | String c r =>
    if is_digit c then digits_point_two r true
    else if Ascii.eqb c "." then
      seen &&
      match r with
      | String d1 (String d2 EmptyString) => is_digit d1 && is_digit d2
      | _ => false
      end
    else false
  end.

(** The string is a decimal numeral with exactly two digits after the point,
    with an optional minus sign. *)
Definition two_decimals (s : string) : bool :=
  match s with
  | String "-" r => digits_point_two r false
  | _ => digits_point_two s false
  end.

(** The float is a finite number: not an infinity and not NaN. *)
Definition finite (f : spec_float) : bool :=
  match f with
  | S754_zero _ | S754_finite _ _ _ => true
  | S754_infinity _ | S754_nan => false
  end.

(** The value reached in a bag by a non-empty key path: every key but the
    last must lead to a string-keyed map. *)
Inductive Reaches : gmap string stripe.value -> list string -> stripe.value -> Prop :=
| Reaches_last m k :
    Reaches m [k] (stripe.index m k)
| Reaches_step m k m' keys v :
    stripe.index m k = stripe.VMap m' ->
    Reaches m' keys v ->
    Reaches m (k :: keys) v.

(** The path is blocked: a key that is not the last one is absent or leads to
    something that is not a string-keyed map. *)
Inductive Blocked : gmap string stripe.value -> list string -> Prop :=
| Blocked_here m k k' keys :
    (forall m', stripe.index m k <> stripe.VMap m') ->
    Blocked m (k :: k' :: keys)
| Blocked_below m k m' keys :
    stripe.index m k = stripe.VMap m' ->
    Blocked m' keys ->
    Blocked m (k :: keys).

Definition is_string (v : stripe.value) : bool :=
  match v with
  | stripe.VString _ => true
  | _ => false
  end.

Definition is_panic {A : Type} (o : outcome A) : bool :=
  match o with
  | Panic _ => true
  | Ret _ => false
  end.

(** The bodies of the requests a computation makes when run from [st]. *)
Definition sent `{Core} {A : Type} (m : M A) (st : St) : list (option Values) :=
  c_body <$> requests_of m st.

(** [n] successive calls of a [Next] method, each on the iterator the
    previous one left: the results in order and the final iterator. *)
Fixpoint repeat_next `{Core} {I R : Type} (next : I -> M (R * I)) (n : nat) (i : I)
    : M (list R * I) :=
  match n with
  | O => ret ([], i)
  | S n' =>
    r <- next i ;;
    rs <- repeat_next next n' (snd r) ;;
    ret (fst r :: fst rs, snd rs)
  end.

(** The params with the card bundle replaced. *)
Definition set_Card `{Core} (card : option CardParams) (p : stripe.SubParams.t)
    : stripe.SubParams.t :=
  {| stripe.SubParams.Params_ := stripe.SubParams.Params_ p;
     stripe.SubParams.Customer := stripe.SubParams.Customer p;
     stripe.SubParams.Plan := stripe.SubParams.Plan p;
     stripe.SubParams.Coupon := stripe.SubParams.Coupon p;
     stripe.SubParams.Token := stripe.SubParams.Token p;
     stripe.SubParams.TrialEnd := stripe.SubParams.TrialEnd p;
     stripe.SubParams.Card := card;
     stripe.SubParams.Quantity := stripe.SubParams.Quantity p;
     stripe.SubParams.FeePercent := stripe.SubParams.FeePercent p;
     stripe.SubParams.NoProrate := stripe.SubParams.NoProrate p;
     stripe.SubParams.EndCancel := stripe.SubParams.EndCancel p |}.

(** The optional fields of subscription params are all at their zero value,
    and the shared params add nothing. *)
Definition optional_unset `{Core} (p : stripe.SubParams.t) : Prop :=
  stripe.SubParams.Token p = "" /\
  stripe.SubParams.Card p = None /\
  stripe.SubParams.Coupon p = "" /\
  stripe.SubParams.TrialEnd p = 0 /\
  stripe.SubParams.Quantity p = 0%N /\
  stripe.SubParams.FeePercent p = S754_zero false /\
  (forall body, Params_AppendTo (stripe.SubParams.Params_ p) body = body).

(** Only the plan is set. *)
Definition only_plan_set `{Core} (p : stripe.SubParams.t) : Prop :=
  stripe.SubParams.Plan p <> "" /\
  stripe.SubParams.NoProrate p = false /\
  optional_unset p.

(** When New of the subscription client expands the card bundle of [p]
    (no token in the params, a card given), the expansion leaves the keys
    alone. *)
Definition New_expansion_leaves `{Core} (keys : list string) (p : stripe.SubParams.t)
    : Prop :=
  forall card,
    stripe.nonempty (stripe.SubParams.Token p) = false ->
    stripe.SubParams.Card p = Some card ->
    preserves keys (fun body => CardParams_AppendDetails card body true).

(** When Update of the subscription client expands the card bundle of [p]
    (no token in the params, a card given, no token in the card), the
    expansion leaves the keys alone. *)
Definition Update_expansion_leaves `{Core} (keys : list string) (p : stripe.SubParams.t)
    : Prop :=
  forall card,
    stripe.nonempty (stripe.SubParams.Token p) = false ->
    stripe.SubParams.Card p = Some card ->
    stripe.nonempty (CardParams_Token card) = false ->
    preserves keys (fun body => CardParams_AppendDetails card body true).

(** The computation only ever appends to the log, and every request it
    appends satisfies [P]. *)
Definition appends `{Core} {A : Type} (P : CallRec -> Prop) (m : M A) : Prop :=
  forall st, exists l, calls (snd (m st)) = calls st ++ l /\ Forall P l.

(** [SubListParams{ListParams{Limit: 2}, Customer: cust}]. *)
Definition limit_two (cust : string) : stripe.SubListParams.t :=
  {| stripe.SubListParams.ListParams_ :=
       {| stripe.After := ""; stripe.Before := ""; stripe.Limit := 2; stripe.Filters := [] |};
     stripe.SubListParams.Customer := cust |}.

(** A page of subscriptions as the backend decodes it. *)
Definition sub_page `{Core} (m : stripe.ListMeta) (l : list Sub) : stripe.SubList :=
  {| stripe.sl_ListMeta := m; stripe.sl_Values := l |}.

(** Reading a string as a base-10 numeral. *)
Definition parse_uint (s : string) : option N :=
  N.of_uint <$> NilZero.uint_of_string s.

Definition parse_int (s : string) : option Z :=
  Z.of_int <$> NilZero.int_of_string s.

Fixpoint all_digits (s : string) : bool :=
  match s with
  | EmptyString => true
  | String c r => is_digit c && all_digits r
  end.

(** Where a request goes and under which key. *)
Definition endpoint `{Core} (rq : CallRec) : string * string * string :=
  (c_method rq, c_path rq, c_key rq).

(** One key with one value, when present. *)
Definition entry (present : bool) (k v : string) : list (string * list string) :=
  if present then [(k, [v])] else [].

(** The token Update sends as the card: the token of the params, or else the
    token of the card bundle. *)
Definition card_token `{Core} (p : stripe.SubParams.t) : string :=
  if stripe.nonempty (stripe.SubParams.Token p) then stripe.SubParams.Token p
  else match stripe.SubParams.Card p with
       | Some card => CardParams_Token card
       | None => ""
       end.

(** The tail every subscription body shares: coupon, trial end, quantity and
    fee, each only when set. *)
Definition sub_common_entries `{Core} (p : stripe.SubParams.t)
    : list (string * list string) :=
  entry (stripe.nonempty (stripe.SubParams.Coupon p)) "coupon" (stripe.SubParams.Coupon p) ++
  entry (0 <? stripe.SubParams.TrialEnd p) "trial_end"
    (strconv.FormatInt (stripe.SubParams.TrialEnd p)) ++
  entry (0 <? stripe.SubParams.Quantity p)%N "quantity"
    (strconv.FormatUint (stripe.SubParams.Quantity p)) ++
  entry (SFltb (S754_zero false) (stripe.SubParams.FeePercent p)) "application_fee_percent"
    (strconv.FormatFloat (stripe.SubParams.FeePercent p) 2).

(** The keys and values New of the subscription client encodes when no card
    bundle is expanded. *)
Definition sub_New_entries `{Core} (p : stripe.SubParams.t)
    : list (string * list string) :=
  [("plan", [stripe.SubParams.Plan p])] ++
  entry (stripe.nonempty (stripe.SubParams.Token p)) "card" (stripe.SubParams.Token p) ++
  sub_common_entries p.

(** The keys and values Update of the subscription client encodes when no
    card bundle is expanded. *)
Definition sub_Update_entries `{Core} (p : stripe.SubParams.t)
    : list (string * list string) :=
  entry (stripe.nonempty (stripe.SubParams.Plan p)) "plan" (stripe.SubParams.Plan p) ++
  entry (stripe.SubParams.NoProrate p) "prorate" "false" ++
  entry (stripe.nonempty (card_token p)) "card" (card_token p) ++
  sub_common_entries p.

(** The keys and values New of the plan client encodes. *)
Definition plan_New_entries `{Core} (p : stripe.PlanParams.t)
    : list (string * list string) :=
  [("id", [stripe.PlanParams.ID p]);
   ("name", [stripe.PlanParams.Name p]);
   ("amount", [strconv.FormatUint (stripe.PlanParams.Amount p)]);
   ("currency", [stripe.PlanParams.Currency p]);
   ("interval", [stripe.PlanParams.Interval p])] ++
  entry (0 <? stripe.PlanParams.IntervalCount p)%N "interval_count"
    (strconv.FormatUint (stripe.PlanParams.IntervalCount p)) ++
  entry (0 <? stripe.PlanParams.TrialPeriod p)%N "trial_period_days"
    (strconv.FormatUint (stripe.PlanParams.TrialPeriod p)) ++
  entry (stripe.nonempty (stripe.PlanParams.Statement p)) "statement_description"
    (stripe.PlanParams.Statement p).

(** The keys and values Update of the plan client encodes. *)
Definition plan_Update_entries `{Core} (p : stripe.PlanParams.t)
    : list (string * list string) :=
  entry (stripe.nonempty (stripe.PlanParams.Name p)) "name" (stripe.PlanParams.Name p) ++
  entry (stripe.nonempty (stripe.PlanParams.Statement p)) "statement_description"
    (stripe.PlanParams.Statement p).

(** The key does not occur in the list of entries. *)
Definition fresh (k : string) (l : list (string * list string)) : Prop :=
  k ∉ l.*1.

(** ** A concrete setting

    One reading of the declarations the clients depend on, and scripted
    backends, on which the operations can be run. *)
Module fixture.

(** A card bundle: a token and a number. *)
Record Card := {
  card_token : string;
  card_number : string
}.

(** Shared params are metadata pairs; a card expands to its token when it
    has one and to its number otherwise; plans and subscriptions are known
    by their identifier; the world counts the requests served. *)
Definition core : Core :=
  {| World := nat;
     error := string;
     Params := list (string * string);
     Params_AppendTo := fun ps body =>
       fold_left (fun b kv => url.Add ("metadata[" +:+ fst kv +:+ "]") (snd kv) b) ps body;
     CardParams := Card;
     CardParams_Token := card_token;
     CardParams_AppendDetails := fun card body creating =>
       if stripe.nonempty (card_token card)
       then url.Add "card" (card_token card) body
       else url.Add "card[number]" (card_number card) body;
     Plan := string;
     Plan_zero := "";
     Plan_ID := fun p => p;
     Sub := string;
     Sub_zero := "";
     Sub_ID := fun s => s |}.

#[local] Existing Instance core.

(** The pages of a scripted list of three subscriptions, two per page: the
    first page when no cursor is given, the second after ["sub_2"]. When
    [broken], the second page fails. *)
Definition page (broken : bool) (body : option Values)
    : stripe.SubList * option error :=
  let cursor := url.Get "starting_after" (default ∅ body) in
  if String.eqb cursor "" then
    ({| stripe.sl_ListMeta := {| stripe.TotalCount := 3; stripe.HasMore := true |};
        stripe.sl_Values := ["sub_1"; "sub_2"] |}, None)
  else if broken then
    ({| stripe.sl_ListMeta := stripe.ListMeta_zero; stripe.sl_Values := [] |},
     Some "connection reset")
  else if String.eqb cursor "sub_2" then
    ({| stripe.sl_ListMeta := {| stripe.TotalCount := 3; stripe.HasMore := false |};
        stripe.sl_Values := ["sub_3"] |}, None)
  else
    ({| stripe.sl_ListMeta := {| stripe.TotalCount := 3; stripe.HasMore := false |};
        stripe.sl_Values := [] |}, None).

(** A backend serving the scripted list; any other destination is left as it
    is. *)
Definition paging (broken : bool) : stripe.Backend :=
  {| stripe.Call := fun method path key body k =>
       match k return stripe.destT k -> World -> (stripe.destT k * option error) * World with
       | stripe.KSubList => fun _ w => (page broken body, S w)
       | _ => fun v w => ((v, None), S w)
       end |}.

(** A backend that decodes a plan or a subscription into the destination
    and then fails on the rest of the response. *)
Definition truncating : stripe.Backend :=
  {| stripe.Call := fun method path key body k =>
       match k return stripe.destT k -> World -> (stripe.destT k * option error) * World with
       | stripe.KPlan => fun _ w => (("gold", Some "unexpected end of JSON input"), S w)
       | stripe.KSub => fun _ w => (("sub_1", Some "unexpected end of JSON input"), S w)
       | _ => fun v w => ((v, None), S w)
       end |}.

(** A backend that refuses every request. *)
Definition refusing : stripe.Backend :=
  {| stripe.Call := fun method path key body k v w => ((v, Some "card_declined"), S w) |}.

Definition st0 : St := {| world := O; calls := [] |}.

Definition sub_client (b : stripe.Backend) : sub.Client.t :=
  {| sub.Client.B := b; sub.Client.Key := "sk_test" |}.

Definition plan_client (b : stripe.Backend) : plan.Client.t :=
  {| plan.Client.B := b; plan.Client.Key := "sk_test" |}.

(** [SubListParams{ListParams{Limit: 2}, Customer: "cus_1"}]. *)
Definition two_per_page : stripe.SubListParams.t :=
  {| stripe.SubListParams.ListParams_ :=
       {| stripe.After := ""; stripe.Before := ""; stripe.Limit := 2; stripe.Filters := [] |};
     stripe.SubListParams.Customer := "cus_1" |}.

(** Subscription params with only the plan set. *)
Definition only_plan : stripe.SubParams.t :=
  {| stripe.SubParams.Params_ := [];
     stripe.SubParams.Customer := "cus_1";
     stripe.SubParams.Plan := "gold";
     stripe.SubParams.Coupon := "";
     stripe.SubParams.Token := "";
     stripe.SubParams.TrialEnd := 0;
     stripe.SubParams.Card := None;
     stripe.SubParams.Quantity := 0;
     stripe.SubParams.FeePercent := S754_zero false;
     stripe.SubParams.NoProrate := false;
     stripe.SubParams.EndCancel := false |}.

(** Subscription params with a token, a populated card and every optional
    field set; the fee is 12.5 percent. *)
Definition full : stripe.SubParams.t :=
  {| stripe.SubParams.Params_ := [("order", "42")];
     stripe.SubParams.Customer := "cus_1";
     stripe.SubParams.Plan := "gold";
     stripe.SubParams.Coupon := "SPRING";
     stripe.SubParams.Token := "tok_123";
     stripe.SubParams.TrialEnd := 1400000000;
     stripe.SubParams.Card := Some {| card_token := "tok_999"; card_number := "4242424242424242" |};
     stripe.SubParams.Quantity := 3;
     stripe.SubParams.FeePercent := S754_finite false 25 (-1);
     stripe.SubParams.NoProrate := true;
     stripe.SubParams.EndCancel := true |}.

(** As [full], with an infinite fee. *)
Definition infinite_fee : stripe.SubParams.t :=
  {| stripe.SubParams.Params_ := [];
     stripe.SubParams.Customer := "cus_1";
     stripe.SubParams.Plan := "gold";
     stripe.SubParams.Coupon := "";
     stripe.SubParams.Token := "";
     stripe.SubParams.TrialEnd := 0;
     stripe.SubParams.Card := None;
     stripe.SubParams.Quantity := 0;
     stripe.SubParams.FeePercent := S754_infinity false;
     stripe.SubParams.NoProrate := false;
     stripe.SubParams.EndCancel := false |}.

(** Plan params for a monthly plan. *)
Definition monthly : stripe.PlanParams.t :=
  {| stripe.PlanParams.Params_ := [];
     stripe.PlanParams.ID := "gold";
     stripe.PlanParams.Name := "Gold";
     stripe.PlanParams.Currency := "usd";
     stripe.PlanParams.Amount := 2000;
     stripe.PlanParams.Interval := plan.Month;
     stripe.PlanParams.IntervalCount := 3;
     stripe.PlanParams.TrialPeriod := 14;
     stripe.PlanParams.Statement := "" |}.

(** An event whose object bag nests a card under a customer. *)
Definition charge_event : stripe.Event :=
  {| stripe.ID := "evt_1";
     stripe.Live := false;
     stripe.Created := 1400000000;
     stripe.Data := Some
       {| stripe.Obj :=
            {[ "id" := stripe.VString "ch_1";
               "paid" := stripe.VBool true;
               "refund" := stripe.VNil;
               "card" := stripe.VMap {[ "last4" := stripe.VString "4242" ]} ]};
          stripe.Prev := ∅ |};
     stripe.Webhooks := 0;
     stripe.Type_ := "charge.succeeded";
     stripe.Req := "" |}.

(** The iterator over the broken list once the first page was fetched and
    its first item handed out. *)
Definition after_first : stripe.Iter.t :=
  {| stripe.Iter.query := sub.Client.list_query (sub_client (paging true)) two_per_page;
     stripe.Iter.qs := {[ "limit" := ["2"] ]};
     stripe.Iter.params := stripe.SubListParams.ListParams_ two_per_page;
     stripe.Iter.values := [stripe.ISub "sub_1"; stripe.ISub "sub_2"];
     stripe.Iter.cur := 1;
     stripe.Iter.meta := Some {| stripe.TotalCount := 3; stripe.HasMore := true |};
     stripe.Iter.err := None |}.

(** The process-wide configuration: the refusing backend and a test key. *)
Definition globals : stripe.Globals :=
  {| stripe.GetBackend := refusing; stripe.Key := "sk_global" |}.

(** Subscription params with no token of their own and a card bundle that
    carries one. *)
Definition card_with_token : stripe.SubParams.t :=
  {| stripe.SubParams.Params_ := [];
     stripe.SubParams.Customer := "cus_1";
     stripe.SubParams.Plan := "";
     stripe.SubParams.Coupon := "";
     stripe.SubParams.Token := "";
     stripe.SubParams.TrialEnd := -5;
     stripe.SubParams.Card := Some {| card_token := "tok_999"; card_number := "" |};
     stripe.SubParams.Quantity := 2;
     stripe.SubParams.FeePercent := S754_zero false;
     stripe.SubParams.NoProrate := true;
     stripe.SubParams.EndCancel := false |}.

(** As [only_plan], with a trial end in the past. *)
Definition past_trial : stripe.SubParams.t :=
  {| stripe.SubParams.Params_ := [];
     stripe.SubParams.Customer := "cus_1";
     stripe.SubParams.Plan := "gold";
     stripe.SubParams.Coupon := "";
     stripe.SubParams.Token := "";
     stripe.SubParams.TrialEnd := -3;
     stripe.SubParams.Card := None;
     stripe.SubParams.Quantity := 0;
     stripe.SubParams.FeePercent := S754_zero true;
     stripe.SubParams.NoProrate := true;
     stripe.SubParams.EndCancel := false |}.

(** As [only_plan], with a customer that carries a path of its own. *)
Definition spliced : stripe.SubParams.t :=
  {| stripe.SubParams.Params_ := [];
     stripe.SubParams.Customer := "cus_1/subscriptions/sub_7";
     stripe.SubParams.Plan := "gold";
     stripe.SubParams.Coupon := "";
     stripe.SubParams.Token := "";
     stripe.SubParams.TrialEnd := 0;
     stripe.SubParams.Card := None;
     stripe.SubParams.Quantity := 0;
     stripe.SubParams.FeePercent := S754_zero false;
     stripe.SubParams.NoProrate := false;
     stripe.SubParams.EndCancel := false |}.

(** Plan params with nothing to update. *)
Definition untouched : stripe.PlanParams.t :=
  {| stripe.PlanParams.Params_ := [];
     stripe.PlanParams.ID := "gold";
     stripe.PlanParams.Name := "";
     stripe.PlanParams.Currency := "usd";
     stripe.PlanParams.Amount := 2000;
     stripe.PlanParams.Interval := plan.Month;
     stripe.PlanParams.IntervalCount := 0;
     stripe.PlanParams.TrialPeriod := 0;
     stripe.PlanParams.Statement := "" |}.

End fixture.

(** * Properties *)

(** ** Formatting *)

Lemma FormatUint_parse (n : N) : parse_uint (strconv.FormatUint n) = Some n.
Proof.
  unfold parse_uint, strconv.FormatUint.
  rewrite NilZero.usu.
  - simpl. by rewrite DecimalN.Unsigned.of_to.
  - destruct n as [|q]; simpl; [discriminate | apply DecimalPos.Unsigned.to_uint_nonnil].
Qed.

Lemma FormatInt_parse (z : Z) : parse_int (strconv.FormatInt z) = Some z.
Proof.
  unfold parse_int, strconv.FormatInt.
  rewrite NilZero.isi.
  - simpl. by rewrite DecimalZ.of_to.
  - destruct z as [|q|q]; simpl; try discriminate.
    intros [= E]. by apply DecimalPos.Unsigned.to_uint_nonnil in E.
  - destruct z as [|q|q]; simpl; try discriminate.
    intros [= E]. by apply DecimalPos.Unsigned.to_uint_nonnil in E.
Qed.

Lemma FormatBool_literal (b : bool) :
  strconv.FormatBool b = (if b then "true" else "false").
Proof. reflexivity. Qed.

Lemma string_of_uint_digits (d : Decimal.uint) :
  all_digits (NilEmpty.string_of_uint d) = true.
Proof. induction d; simpl; auto. Qed.

Lemma FormatUint_digits (n : N) :
  all_digits (strconv.FormatUint n) = true /\ strconv.FormatUint n <> "".
Proof.
  unfold strconv.FormatUint, NilZero.string_of_uint.
  destruct (N.to_uint n) eqn:E; simpl; try (split; [|discriminate]);
    try apply string_of_uint_digits; reflexivity.
Qed.

Lemma digit_is_digit (d : Z) : is_digit (strconv.digit d) = true.
Proof.
  unfold strconv.digit, is_digit.
  assert (Hd : 0 <= d mod 10 < 10) by (apply Z.mod_pos_bound; lia).
  rewrite nat_ascii_embedding by lia.
  apply andb_true_iff; split; apply Nat.leb_le; lia.
Qed.

Lemma point_not_digit : is_digit "." = false.
Proof. reflexivity. Qed.

Lemma digits_point_two_app (ds : string) (d1 d2 : ascii) (seen : bool) :
  all_digits ds = true ->
  (seen = true \/ ds <> "") ->
  is_digit d1 = true -> is_digit d2 = true ->
  digits_point_two (ds +:+ String "." (String d1 (String d2 ""))) seen = true.
Proof.
  revert seen. induction ds as [|c r IH]; intros seen Hds Hne H1 H2; simpl.
  - destruct Hne as [-> | Hne]; [|done]. by rewrite H1, H2.
  - simpl in Hds. apply andb_true_iff in Hds as [Hc Hr].
    rewrite Hc. apply IH; auto.
Qed.

Lemma two_decimals_app (ds : string) (d1 d2 : ascii) :
  all_digits ds = true -> ds <> "" ->
  is_digit d1 = true -> is_digit d2 = true ->
  two_decimals (ds +:+ String "." (String d1 (String d2 ""))) = true.
Proof.
  intros Hds Hne H1 H2.
  assert (Hgo := digits_point_two_app ds d1 d2 false Hds (or_intror Hne) H1 H2).
  destruct ds as [|c r]; [done|].
  simpl in Hds. apply andb_true_iff in Hds as [Hc _].
  unfold two_decimals. simpl String.append in *.
  destruct (Ascii.eqb_spec c "-") as [-> | Hc']; [discriminate Hc|].
  destruct c as [[] [] [] [] [] [] [] []]; try exact Hgo; done.
Qed.

Lemma fixed_two (n : Z) : two_decimals (strconv.fixed n 2) = true.
Proof.
  destruct (FormatUint_digits (Z.to_N (n / 10 ^ Z.of_nat 2))) as [Hd Hne].
  unfold strconv.fixed. simpl strconv.frac_digits.
  apply two_decimals_app; auto using digit_is_digit.
Qed.

Lemma sign_two_decimals (s : bool) (n : Z) :
  two_decimals ((if s then "-" else "") +:+ strconv.fixed n 2) = true.
Proof.
  destruct s; [|apply fixed_two].
  pose proof (fixed_two n) as Hf.
  destruct (FormatUint_digits (Z.to_N (n / 10 ^ Z.of_nat 2))) as [Hd Hne].
  unfold strconv.fixed in *. simpl strconv.frac_digits in *.
  unfold strconv.FormatUint in Hd, Hne.
  set (ip := NilZero.string_of_uint _) in *.
  destruct ip as [|c r]; [done|].
  simpl in Hd. apply andb_true_iff in Hd as [Hc _].
  change (two_decimals (String "-" (String c r +:+ "." +:+
            ("" +:+ String (strconv.digit (n / 10)) "") +:+ String (strconv.digit n) "")) = true).
  unfold two_decimals in *. simpl String.append in *.
  destruct c as [[] [] [] [] [] [] [] []]; try exact Hf; done.
Qed.

(** A finite float is printed with exactly two digits after the point. *)
Lemma FormatFloat_two_decimals (f : spec_float) :
  finite f = true -> two_decimals (strconv.FormatFloat f 2) = true.
Proof.
  destruct f as [s|s| |s m e]; cbn [finite]; try discriminate; intros _;
    unfold strconv.FormatFloat; apply sign_two_decimals.
Qed.

(** ** Bodies *)

Lemma nonempty_true (s : string) : s <> "" -> stripe.nonempty s = true.
Proof.
  intros Hs. unfold stripe.nonempty. destruct (String.eqb_spec s ""); [done | reflexivity].
Qed.

Lemma nonempty_false (s : string) : stripe.nonempty s = true -> s <> "".
Proof.
  unfold stripe.nonempty. destruct (String.eqb_spec s ""); [discriminate | done].
Qed.

Lemma lookup_Add_eq (k v : string) (b : Values) :
  url.Add k v b !! k = Some (default [] (b !! k) ++ [v]).
Proof. unfold url.Add. by rewrite lookup_insert_eq. Qed.

Lemma lookup_Add_ne (k k' v : string) (b : Values) :
  k <> k' -> url.Add k v b !! k' = b !! k'.
Proof. intros Hk. unfold url.Add. by rewrite lookup_insert_ne. Qed.

Lemma Add_empty (k v : string) : url.Add k v ∅ = {[ k := [v] ]}.
Proof. unfold url.Add. rewrite lookup_empty. simpl. apply insert_empty. Qed.

(** ** Running the call monad *)

Section Running.
Context `{Core}.

Lemma call_ret {A : Type} (b : stripe.Backend) (method path key : string)
    (body : option Values) (k : stripe.destKind) (v : stripe.destT k)
    (f : stripe.destT k * option error -> A) (st : St) :
  (r <- stripe.call b method path key body k v ;; ret (f r)) st =
  (Ret (f (fst (stripe.Call b method path key body k v (world st)))),
   {| world := snd (stripe.Call b method path key body k v (world st));
      calls := calls st ++
        [{| c_method := method; c_path := path; c_key := key; c_body := body;
            c_err := snd (fst (stripe.Call b method path key body k v (world st))) |}] |}).
Proof.
  unfold bind, stripe.call, ret.
  destruct (stripe.Call b method path key body k v (world st)) as [r w]. reflexivity.
Qed.

Lemma requests_of_call_ret {A : Type} (b : stripe.Backend) (method path key : string)
    (body : option Values) (k : stripe.destKind) (v : stripe.destT k)
    (f : stripe.destT k * option error -> A) (st : St) :
  requests_of (r <- stripe.call b method path key body k v ;; ret (f r)) st =
  [{| c_method := method; c_path := path; c_key := key; c_body := body;
      c_err := snd (fst (stripe.Call b method path key body k v (world st))) |}].
Proof.
  unfold requests_of. rewrite call_ret. simpl. by rewrite drop_app_length.
Qed.

Lemma requests_of_raise {A : Type} (p : panic) (st : St) :
  requests_of (raise p : M A) st = [].
Proof. unfold requests_of, raise. simpl. by rewrite drop_all. Qed.

Lemma requests_of_ret {A : Type} (a : A) (st : St) :
  requests_of (ret a) st = [].
Proof. unfold requests_of, ret. simpl. by rewrite drop_all. Qed.

Lemma call_ret_returns {A : Type} (b : stripe.Backend) (method path key : string)
    (body : option Values) (k : stripe.destKind) (v : stripe.destT k)
    (f : stripe.destT k * option error -> A) :
  returns (r <- stripe.call b method path key body k v ;; ret (f r)).
Proof. intros st. rewrite call_ret. eauto. Qed.

Lemma call_ret_propagates {A : Type} (b : stripe.Backend) (method path key : string)
    (body : option Values) (k : stripe.destKind) (v : stripe.destT k)
    (f : stripe.destT k * option error -> A) (errof : A -> option error) :
  (forall r, errof (f r) = snd r) ->
  propagates b (r <- stripe.call b method path key body k v ;; ret (f r)) errof.
Proof.
  intros Hf st a st'. rewrite call_ret. intros [= <- <-].
  exists method, path, key, body, k, v.
  exists (fst (fst (stripe.Call b method path key body k v (world st)))).
  rewrite Hf. simpl.
  split; [|reflexivity].
  by destruct (stripe.Call b method path key body k v (world st)) as [[r e] w].
Qed.

Lemma raise_propagates {A : Type} (b : stripe.Backend) (p : panic)
    (errof : A -> option error) :
  propagates b (raise p) errof.
Proof. intros st a st'. unfold raise. discriminate. Qed.

End Running.

(** ** What the operations hand to the backend *)

Section Operations.
Context `{Core}.

Lemma appends_ret {A : Type} (P : CallRec -> Prop) (a : A) : appends P (ret a).
Proof. intros st. exists []. simpl. by rewrite app_nil_r. Qed.

Lemma appends_raise {A : Type} (P : CallRec -> Prop) (p : panic) :
  appends P (raise p : M A).
Proof. intros st. exists []. simpl. by rewrite app_nil_r. Qed.

Lemma appends_bind {A B : Type} (P : CallRec -> Prop) (m : M A) (k : A -> M B) :
  appends P m -> (forall a, appends P (k a)) -> appends P (bind m k).
Proof.
  intros Hm Hk st. unfold bind.
  destruct (Hm st) as (l1 & E1 & F1).
  destruct (m st) as [[a|p] st1]; simpl in *.
  - destruct (Hk a st1) as (l2 & E2 & F2).
    exists (l1 ++ l2). rewrite E2, E1, app_assoc. split; [done | by apply Forall_app].
  - by exists l1.
Qed.

Lemma appends_call (P : CallRec -> Prop) (b : stripe.Backend) (method path key : string)
    (body : option Values) (k : stripe.destKind) (v : stripe.destT k) :
  (forall e, P {| c_method := method; c_path := path; c_key := key;
                  c_body := body; c_err := e |}) ->
  appends P (stripe.call b method path key body k v).
Proof.
  intros HP st. unfold stripe.call.
  destruct (stripe.Call b method path key body k v (world st)) as [r w]. simpl.
  eexists. split; [reflexivity|]. by constructor.
Qed.

Lemma appends_requests_of {A : Type} (P : CallRec -> Prop) (m : M A) (st : St) :
  appends P m -> Forall P (requests_of m st).
Proof.
  intros Hm. destruct (Hm st) as (l & E & F).
  unfold requests_of. by rewrite E, drop_app_length.
Qed.

Lemma request_ok_intro (op : opkind) (path key : string) (body : option Values)
    (e : option error) :
  leading_slash path = true ->
  request_ok op {| c_method := verb op; c_path := path; c_key := key;
                   c_body := body; c_err := e |}.
Proof.
  intros Hp. repeat split; simpl; [|done].
  destruct op; simpl; set_solver.
Qed.

Lemma appends_Iter_Next (P : CallRec -> Prop) (it : stripe.Iter.t) :
  (forall b, appends P (stripe.Iter.query it b)) ->
  appends P (stripe.Iter.Next it).
Proof.
  intros Hq. unfold stripe.Iter.Next.
  destruct (stripe.Iter.err it); [apply appends_ret|].
  destruct (stripe.Iter.values it !! stripe.Iter.cur it); [apply appends_ret|].
  destruct (stripe.Iter.more it); [|apply appends_ret].
  apply appends_bind; [apply Hq|].
  intros [[items m] [e|]]; [apply appends_ret|].
  destruct items; apply appends_ret.
Qed.

Lemma Iter_Next_query (it it' : stripe.Iter.t) (r : stripe.iface * option error)
    (st st' : St) :
  stripe.Iter.Next it st = (Ret (r, it'), st') ->
  stripe.Iter.query it' = stripe.Iter.query it.
Proof.
  unfold stripe.Iter.Next.
  destruct (stripe.Iter.err it); [by intros [= <- <- <-]|].
  destruct (stripe.Iter.values it !! stripe.Iter.cur it); [by intros [= <- <- <-]|].
  destruct (stripe.Iter.more it); [|by intros [= <- <- <-]].
  unfold bind.
  destruct (stripe.Iter.query it (stripe.Iter.next_qs it) st) as [[[[items m] [e|]]|p] st1];
    [by intros [= <- <- <-]| |discriminate].
  destruct items; by intros [= <- <- <-].
Qed.

Lemma appends_sub_Next (P : CallRec -> Prop) (i : sub.Iter.t) :
  (forall b, appends P (stripe.Iter.query (sub.Iter.Iter i) b)) ->
  appends P (sub.Iter.Next i).
Proof.
  intros Hq. unfold sub.Iter.Next.
  apply appends_bind; [by apply appends_Iter_Next|].
  intros [[s [e|]] it]; [apply appends_ret|].
  destruct s; first [apply appends_ret | apply appends_raise].
Qed.

Lemma appends_plan_Next (P : CallRec -> Prop) (i : plan.Iter.t) :
  (forall b, appends P (stripe.Iter.query (plan.Iter.Iter i) b)) ->
  appends P (plan.Iter.Next i).
Proof.
  intros Hq. unfold plan.Iter.Next.
  apply appends_bind; [by apply appends_Iter_Next|].
  intros [[s [e|]] it]; [apply appends_ret|].
  destruct s; first [apply appends_ret | apply appends_raise].
Qed.

Lemma sub_Next_query (i i' : sub.Iter.t) (r : option Sub * option error) (st st' : St) :
  sub.Iter.Next i st = (Ret (r, i'), st') ->
  stripe.Iter.query (sub.Iter.Iter i') = stripe.Iter.query (sub.Iter.Iter i).
Proof.
  unfold sub.Iter.Next, bind.
  destruct (stripe.Iter.Next (sub.Iter.Iter i) st) as [[[[s e] it]|p] st1] eqn:E;
    [|discriminate].
  apply Iter_Next_query in E.
  destruct e; [by intros [= <- <- <-]|].
  destruct s; try discriminate. by intros [= <- <- <-].
Qed.

Lemma plan_Next_query (i i' : plan.Iter.t) (r : option Plan * option error) (st st' : St) :
  plan.Iter.Next i st = (Ret (r, i'), st') ->
  stripe.Iter.query (plan.Iter.Iter i') = stripe.Iter.query (plan.Iter.Iter i).
Proof.
  unfold plan.Iter.Next, bind.
  destruct (stripe.Iter.Next (plan.Iter.Iter i) st) as [[[[s e] it]|p] st1] eqn:E;
    [|discriminate].
  apply Iter_Next_query in E.
  destruct e; [by intros [= <- <- <-]|].
  destruct s; try discriminate. by intros [= <- <- <-].
Qed.

Lemma appends_repeat_next {I R : Type} (P : CallRec -> Prop) (Q : I -> Prop)
    (next : I -> M (R * I)) (n : nat) (i : I) :
  (forall i, Q i -> appends P (next i)) ->
  (forall i r i' st st', Q i -> next i st = (Ret (r, i'), st') -> Q i') ->
  Q i -> appends P (repeat_next next n i).
Proof.
  intros Hnext Hinv. revert i.
  induction n as [|n IH]; intros i Hi; simpl; [apply appends_ret|].
  intros st. unfold bind at 1.
  destruct (Hnext i Hi st) as (l1 & E1 & F1).
  destruct (next i st) as [[[r i']|p] st1] eqn:E; simpl in *.
  - assert (Hi' : Q i') by eauto.
    assert (Hk : appends P (rs <- repeat_next next n i' ;; ret (r :: fst rs, snd rs))).
    { apply appends_bind; [by apply IH | intros; apply appends_ret]. }
    destruct (Hk st1) as (l2 & E2 & F2).
    exists (l1 ++ l2). rewrite E2, E1, app_assoc. split; [done | by apply Forall_app].
  - by exists l1.
Qed.

Lemma appends_plan_query (pc : plan.Client.t) (b : Values) :
  appends (request_ok OpList) (plan.Client.list_query pc b).
Proof.
  unfold plan.Client.list_query.
  apply appends_bind; [|intros; apply appends_ret].
  apply appends_call. intros e. by apply (request_ok_intro OpList).
Qed.

Lemma appends_sub_query (sc : sub.Client.t) (p : stripe.SubListParams.t) (b : Values) :
  appends (request_ok OpList) (sub.Client.list_query sc p b).
Proof.
  unfold sub.Client.list_query.
  apply appends_bind; [|intros; apply appends_ret].
  apply appends_call. intros e. by apply (request_ok_intro OpList).
Qed.

Ltac one_request op :=
  apply appends_requests_of;
  apply appends_bind; [|intros; apply appends_ret];
  apply appends_call; intros; by apply (request_ok_intro op).

(** C8. Every request an operation of the plan or subscription client hands
    to [Backend.Call] has a method among GET, POST and DELETE and a path with
    a leading slash, and the method is fixed by the kind of operation: POST
    for New and Update, GET for Get and List (whose requests are made by the
    Next calls on the iterator), DELETE for Del and Cancel. *)
Theorem verbs_and_paths
    (pc : plan.Client.t) (sc : sub.Client.t) (id : string)
    (pp : option stripe.PlanParams.t) (sp : option stripe.SubParams.t)
    (plp : option stripe.PlanListParams.t) (slp : option stripe.SubListParams.t)
    (n : nat) (st : St) :
  Forall (request_ok OpNew) (requests_of (plan.Client.New pc pp) st) /\
  Forall (request_ok OpGet) (requests_of (plan.Client.Get pc id pp) st) /\
  Forall (request_ok OpUpdate) (requests_of (plan.Client.Update pc id pp) st) /\
  Forall (request_ok OpDel) (requests_of (plan.Client.Del pc id) st) /\
  Forall (request_ok OpList)
    (requests_of (repeat_next plan.Iter.Next n (plan.Client.List pc plp)) st) /\
  Forall (request_ok OpNew) (requests_of (sub.Client.New sc sp) st) /\
  Forall (request_ok OpGet) (requests_of (sub.Client.Get sc id sp) st) /\
  Forall (request_ok OpUpdate) (requests_of (sub.Client.Update sc id sp) st) /\
  Forall (request_ok OpDel) (requests_of (sub.Client.Cancel sc id sp) st) /\
  match sub.Client.List sc slp with
  | Ret it => Forall (request_ok OpList) (requests_of (repeat_next sub.Iter.Next n it) st)
  | Panic _ => True
  end.
Proof.
  repeat split.
  - destruct pp; unfold plan.Client.New; [one_request OpNew|].
    rewrite requests_of_raise. constructor.
  - unfold plan.Client.Get. one_request OpGet.
  - unfold plan.Client.Update. one_request OpUpdate.
  - unfold plan.Client.Del. one_request OpDel.
  - apply appends_requests_of.
    apply (appends_repeat_next _
             (fun i => stripe.Iter.query (plan.Iter.Iter i) = plan.Client.list_query pc)).
    + intros i Hi. apply appends_plan_Next. intros b. rewrite Hi.
      apply appends_plan_query.
    + intros i r i' st1 st2 Hi E. apply plan_Next_query in E. congruence.
    + reflexivity.
  - destruct sp; unfold sub.Client.New; [one_request OpNew|].
    rewrite requests_of_raise. constructor.
  - destruct sp; unfold sub.Client.Get; [one_request OpGet|].
    rewrite requests_of_raise. constructor.
  - destruct sp; unfold sub.Client.Update; [one_request OpUpdate|].
    rewrite requests_of_raise. constructor.
  - destruct sp; unfold sub.Client.Cancel; [one_request OpDel|].
    rewrite requests_of_raise. constructor.
  - destruct slp as [p|]; simpl; [|done].
    apply appends_requests_of.
    apply (appends_repeat_next _
             (fun i => stripe.Iter.query (sub.Iter.Iter i) = sub.Client.list_query sc p)).
    + intros i Hi. apply appends_sub_Next. intros b. rewrite Hi.
      apply appends_sub_query.
    + intros i r i' st1 st2 Hi E. apply sub_Next_query in E. congruence.
    + reflexivity.
Qed.

End Operations.

(** ** Errors, pointers and nil params *)

Section Results.
Context `{Core}.

Ltac from_call :=
  first [ apply call_ret_propagates; by intros [] | apply raise_propagates ].

(** C6. The error an operation returns is exactly the error [Backend.Call]
    returned for the one request the operation made: whenever New, Get,
    Update, Del or Cancel returns, it has made one request, and its error
    (nil or not) is the one that request came back with. *)
Theorem backend_error_verbatim
    (pc : plan.Client.t) (sc : sub.Client.t) (id : string)
    (pp : option stripe.PlanParams.t) (sp : option stripe.SubParams.t) :
  propagates (plan.Client.B pc) (plan.Client.New pc pp) snd /\
  propagates (plan.Client.B pc) (plan.Client.Get pc id pp) snd /\
  propagates (plan.Client.B pc) (plan.Client.Update pc id pp) snd /\
  propagates (plan.Client.B pc) (plan.Client.Del pc id) (fun e => e) /\
  propagates (sub.Client.B sc) (sub.Client.New sc sp) snd /\
  propagates (sub.Client.B sc) (sub.Client.Get sc id sp) snd /\
  propagates (sub.Client.B sc) (sub.Client.Update sc id sp) snd /\
  propagates (sub.Client.B sc) (sub.Client.Cancel sc id sp) (fun e => e).
Proof.
  unfold plan.Client.New, plan.Client.Get, plan.Client.Update, plan.Client.Del,
    sub.Client.New, sub.Client.Get, sub.Client.Update, sub.Client.Cancel.
  destruct pp, sp; cbv zeta; repeat split; from_call.
Qed.

Lemma call_ret_never_nil {A : Type} (b : stripe.Backend) (method path key : string)
    (body : option Values) (k : stripe.destKind) (v : stripe.destT k)
    (g : stripe.destT k * option error -> A)
    (h : stripe.destT k * option error -> option error) :
  never_nil (r <- stripe.call b method path key body k v ;; ret (Some (g r), h r)).
Proof. intros st ptr e st'. rewrite call_ret. intros [= <- _ _]. eauto. Qed.

Lemma raise_never_nil {A : Type} (p : panic) :
  never_nil (raise p : M (option A * option error)).
Proof. intros st ptr e st'. unfold raise. discriminate. Qed.

Lemma call_ret_destination (b : stripe.Backend) (method path key : string)
    (body : option Values) (k : stripe.destKind) (zero : stripe.destT k) :
  returns_destination b k zero
    (r <- stripe.call b method path key body k zero ;; ret (Some (fst r), snd r)).
Proof.
  intros st ptr e st'. rewrite call_ret. intros [= <- <- <-].
  exists method, path, key, body.
  exists (fst (fst (stripe.Call b method path key body k zero (world st)))).
  split; [|reflexivity]. simpl.
  by destruct (stripe.Call b method path key body k zero (world st)) as [[d e] w].
Qed.

Lemma raise_destination (b : stripe.Backend) (k : stripe.destKind)
    (zero : stripe.destT k) (p : panic) :
  returns_destination b k zero (raise p).
Proof. intros st ptr e st'. unfold raise. discriminate. Qed.

(** C10. The resource pointer New, Get and Update return is never nil, even
    when they also return an error: whenever one of them returns, it has
    handed a freshly allocated zero struct to [Backend.Call] as the
    destination, and the pointer it returns is the pointer to that struct as
    the call left it (zero-valued, partially or fully decoded), next to the
    error of that call; and given non-nil params each of them does
    return. *)
Theorem resource_pointer_never_nil
    (pc : plan.Client.t) (sc : sub.Client.t) (id : string) :
  (forall pp : option stripe.PlanParams.t,
     never_nil (plan.Client.New pc pp) /\
     never_nil (plan.Client.Get pc id pp) /\
     never_nil (plan.Client.Update pc id pp)) /\
  (forall sp : option stripe.SubParams.t,
     never_nil (sub.Client.New sc sp) /\
     never_nil (sub.Client.Get sc id sp) /\
     never_nil (sub.Client.Update sc id sp)) /\
  (forall p : stripe.PlanParams.t,
     returns (plan.Client.New pc (Some p)) /\
     returns (plan.Client.Get pc id (Some p)) /\
     returns (plan.Client.Update pc id (Some p))) /\
  (forall p : stripe.SubParams.t,
     returns (sub.Client.New sc (Some p)) /\
     returns (sub.Client.Get sc id (Some p)) /\
     returns (sub.Client.Update sc id (Some p))) /\
  (forall pp : option stripe.PlanParams.t,
     returns_destination (plan.Client.B pc) stripe.KPlan Plan_zero
       (plan.Client.New pc pp) /\
     returns_destination (plan.Client.B pc) stripe.KPlan Plan_zero
       (plan.Client.Get pc id pp) /\
     returns_destination (plan.Client.B pc) stripe.KPlan Plan_zero
       (plan.Client.Update pc id pp)) /\
  (forall sp : option stripe.SubParams.t,
     returns_destination (sub.Client.B sc) stripe.KSub Sub_zero
       (sub.Client.New sc sp) /\
     returns_destination (sub.Client.B sc) stripe.KSub Sub_zero
       (sub.Client.Get sc id sp) /\
     returns_destination (sub.Client.B sc) stripe.KSub Sub_zero
       (sub.Client.Update sc id sp)).
Proof.
  unfold plan.Client.New, plan.Client.Get, plan.Client.Update,
    sub.Client.New, sub.Client.Get, sub.Client.Update.
  repeat split; try destruct pp; try destruct sp; cbv zeta;
    first [ apply call_ret_never_nil | apply raise_never_nil | apply call_ret_returns
          | apply call_ret_destination | apply raise_destination ].
Qed.

(** C4, as amended. The plan client's Get, Update and List accept nil
    params: Get and Update then make their one request with a nil body, and
    List hands nil list parameters and a nil body to the iterator, which
    start from the server defaults; Del takes no params and sends no body.
    With non-nil params every operation of both clients returns. *)
Theorem nil_params_plan_reads
    (pc : plan.Client.t) (sc : sub.Client.t) (id : string) (st : St) :
  (returns (plan.Client.Get pc id None) /\
   sent (plan.Client.Get pc id None) st = [None]) /\
  (returns (plan.Client.Update pc id None) /\
   sent (plan.Client.Update pc id None) st = [None]) /\
  (returns (plan.Client.Del pc id) /\
   sent (plan.Client.Del pc id) st = [None]) /\
  (plan.Client.List pc None =
     {| plan.Iter.Iter := stripe.GetIter None None (plan.Client.list_query pc) |} /\
   stripe.Iter.qs (plan.Iter.Iter (plan.Client.List pc None)) = ∅ /\
   stripe.Iter.params (plan.Iter.Iter (plan.Client.List pc None)) = stripe.ListParams_zero) /\
  (forall p : stripe.PlanParams.t,
     returns (plan.Client.New pc (Some p)) /\
     returns (plan.Client.Get pc id (Some p)) /\
     returns (plan.Client.Update pc id (Some p))) /\
  (forall p : stripe.SubParams.t,
     returns (sub.Client.New sc (Some p)) /\
     returns (sub.Client.Get sc id (Some p)) /\
     returns (sub.Client.Update sc id (Some p)) /\
     returns (sub.Client.Cancel sc id (Some p))) /\
  (forall p : stripe.SubListParams.t,
     exists it, sub.Client.List sc (Some p) = Ret it).
Proof.
  unfold sent, plan.Client.New, plan.Client.Get, plan.Client.Update, plan.Client.Del,
    sub.Client.New, sub.Client.Get, sub.Client.Update, sub.Client.Cancel.
  repeat split; cbv zeta;
    first [ apply call_ret_returns
          | by rewrite requests_of_call_ret
          | by eexists ].
Qed.

End Results.

(** ** The encoded bodies *)

Section Encoding.
Context `{Core}.

Lemma sent_sub_New (c : sub.Client.t) (p : stripe.SubParams.t) (st : St) :
  sent (sub.Client.New c (Some p)) st =
  [Some (Params_AppendTo (stripe.SubParams.Params_ p) (sub.Client.New_body p))].
Proof. unfold sent, sub.Client.New. cbv zeta. by rewrite requests_of_call_ret. Qed.

Lemma sent_sub_Update (c : sub.Client.t) (id : string) (p : stripe.SubParams.t) (st : St) :
  sent (sub.Client.Update c id (Some p)) st =
  [Some (Params_AppendTo (stripe.SubParams.Params_ p) (sub.Client.Update_body p))].
Proof. unfold sent, sub.Client.Update. cbv zeta. by rewrite requests_of_call_ret. Qed.

Lemma sent_sub_Cancel (c : sub.Client.t) (id : string) (p : stripe.SubParams.t) (st : St) :
  sent (sub.Client.Cancel c id (Some p)) st =
  [Some (Params_AppendTo (stripe.SubParams.Params_ p) (sub.Client.Cancel_body p))].
Proof. unfold sent, sub.Client.Cancel. cbv zeta. by rewrite requests_of_call_ret. Qed.

Lemma sent_plan_New (c : plan.Client.t) (p : stripe.PlanParams.t) (st : St) :
  sent (plan.Client.New c (Some p)) st =
  [Some (Params_AppendTo (stripe.PlanParams.Params_ p) (plan.Client.New_body p))].
Proof. unfold sent, plan.Client.New. cbv zeta. by rewrite requests_of_call_ret. Qed.

Lemma New_body_unset (p : stripe.SubParams.t) :
  optional_unset p ->
  sub.Client.New_body p = {[ "plan" := [stripe.SubParams.Plan p] ]}.
Proof.
  intros (Ht & Hc & Hco & Hte & Hq & Hf & _).
  unfold sub.Client.New_body. by rewrite Ht, Hc, Hco, Hte, Hq, Hf.
Qed.

Lemma Update_body_plan_alone (p : stripe.SubParams.t) :
  only_plan_set p ->
  sub.Client.Update_body p = {[ "plan" := [stripe.SubParams.Plan p] ]}.
Proof.
  intros (Hp & Hn & Ht & Hc & Hco & Hte & Hq & Hf & _).
  unfold sub.Client.Update_body.
  rewrite (nonempty_true _ Hp), Hn, Ht, Hc, Hco, Hte, Hq, Hf. simpl.
  apply Add_empty.
Qed.

(** C2. With Token, Card, Coupon, TrialEnd, Quantity and FeePercent at their
    zero value and no shared params set, the body New sends holds exactly the
    one key "plan"; with only Plan set, so does the body Update sends. *)
Theorem body_only_plan
    (c : sub.Client.t) (id : string) (p : stripe.SubParams.t) (st : St) :
  (optional_unset p ->
   exists body : Values,
     sent (sub.Client.New c (Some p)) st = [Some body] /\
     dom body = {[ "plan" ]} /\
     body !! "plan" = Some [stripe.SubParams.Plan p]) /\
  (only_plan_set p ->
   exists body : Values,
     sent (sub.Client.Update c id (Some p)) st = [Some body] /\
     dom body = {[ "plan" ]} /\
     body !! "plan" = Some [stripe.SubParams.Plan p]).
Proof.
  split.
  - intros Hu. exists {[ "plan" := [stripe.SubParams.Plan p] ]}.
    rewrite sent_sub_New, (New_body_unset p Hu).
    destruct Hu as (_ & _ & _ & _ & _ & _ & ->).
    split; [done|]. split; [apply dom_singleton_L | apply lookup_singleton_eq].
  - intros Ho. exists {[ "plan" := [stripe.SubParams.Plan p] ]}.
    rewrite sent_sub_Update, (Update_body_plan_alone p Ho).
    destruct Ho as (_ & _ & _ & _ & _ & _ & _ & _ & ->).
    split; [done|]. split; [apply dom_singleton_L | apply lookup_singleton_eq].
Qed.

Lemma lookup_if_Add_ne (c : bool) (k k' v : string) (b : Values) :
  k <> k' -> (if c then url.Add k v b else b) !! k' = b !! k'.
Proof. intros Hk. destruct c; [by apply lookup_Add_ne | done]. Qed.

Lemma lookup_if_Add_eq (c : bool) (k v : string) (b : Values) :
  b !! k = None ->
  (if c then url.Add k v b else b) !! k = if c then Some [v] else None.
Proof. intros Hb. destruct c; [|done]. by rewrite lookup_Add_eq, Hb. Qed.

Lemma set_Card_same (p : stripe.SubParams.t) :
  set_Card (stripe.SubParams.Card p) p = p.
Proof. by destruct p. Qed.

Lemma New_body_token (p : stripe.SubParams.t) :
  stripe.SubParams.Token p <> "" ->
  sub.Client.New_body p = sub.Client.New_body (set_Card None p) /\
  sub.Client.New_body p !! "card" = Some [stripe.SubParams.Token p].
Proof.
  intros Ht. unfold sub.Client.New_body. simpl.
  rewrite (nonempty_true _ Ht). split; [done|].
  rewrite !lookup_if_Add_ne by done.
  by rewrite lookup_Add_eq, lookup_singleton_ne.
Qed.

Lemma Update_body_token (p : stripe.SubParams.t) :
  stripe.SubParams.Token p <> "" ->
  sub.Client.Update_body p = sub.Client.Update_body (set_Card None p) /\
  sub.Client.Update_body p !! "card" = Some [stripe.SubParams.Token p].
Proof.
  intros Ht. unfold sub.Client.Update_body. simpl.
  rewrite (nonempty_true _ Ht). split; [done|].
  rewrite !lookup_if_Add_ne by done.
  rewrite lookup_Add_eq, !lookup_if_Add_ne by done.
  by rewrite lookup_empty.
Qed.

(** C3. With a non-empty Token, New and Update add the one key "card" with
    the token as its value and build the body they would build without a
    card bundle, whatever [Card] holds; shared params that leave the key
    "card" alone keep that value in the body that is sent. *)
Theorem token_short_circuits
    (c : sub.Client.t) (id : string) (p : stripe.SubParams.t) (st : St) :
  stripe.SubParams.Token p <> "" ->
  (sub.Client.New_body p = sub.Client.New_body (set_Card None p) /\
   sub.Client.New_body p !! "card" = Some [stripe.SubParams.Token p] /\
   sent (sub.Client.New c (Some p)) st = sent (sub.Client.New c (Some (set_Card None p))) st) /\
  (sub.Client.Update_body p = sub.Client.Update_body (set_Card None p) /\
   sub.Client.Update_body p !! "card" = Some [stripe.SubParams.Token p] /\
   sent (sub.Client.Update c id (Some p)) st =
     sent (sub.Client.Update c id (Some (set_Card None p))) st) /\
  (preserves ["card"] (Params_AppendTo (stripe.SubParams.Params_ p)) ->
   (exists body : Values,
      sent (sub.Client.New c (Some p)) st = [Some body] /\
      body !! "card" = Some [stripe.SubParams.Token p]) /\
   (exists body : Values,
      sent (sub.Client.Update c id (Some p)) st = [Some body] /\
      body !! "card" = Some [stripe.SubParams.Token p])).
Proof.
  intros Ht.
  destruct (New_body_token p Ht) as [Hn1 Hn2].
  destruct (Update_body_token p Ht) as [Hu1 Hu2].
  split; [|split].
  - repeat split; try done. rewrite !sent_sub_New. by rewrite Hn1.
  - repeat split; try done. rewrite !sent_sub_Update. by rewrite Hu1.
  - intros Hshared. split.
    + eexists. rewrite sent_sub_New. split; [reflexivity|].
      rewrite Hshared by set_solver. done.
    + eexists. rewrite sent_sub_Update. split; [reflexivity|].
      rewrite Hshared by set_solver. done.
Qed.

Lemma card_step_New (keys : list string) (p : stripe.SubParams.t) (b : Values)
    (k : string) :
  New_expansion_leaves keys p ->
  k ∈ keys -> k <> "card" ->
  (if stripe.nonempty (stripe.SubParams.Token p)
   then url.Add "card" (stripe.SubParams.Token p) b
   else match stripe.SubParams.Card p with
        | Some card => CardParams_AppendDetails card b true
        | None => b
        end) !! k = b !! k.
Proof.
  intros Hcard Hk Hne.
  destruct (stripe.nonempty _) eqn:Et; [by apply lookup_Add_ne|].
  destruct (stripe.SubParams.Card p) as [card|] eqn:Ec; [|done].
  by apply (Hcard card Et Ec).
Qed.

Lemma card_step_Update (keys : list string) (p : stripe.SubParams.t) (b : Values)
    (k : string) :
  Update_expansion_leaves keys p ->
  k ∈ keys -> k <> "card" ->
  (if stripe.nonempty (stripe.SubParams.Token p)
   then url.Add "card" (stripe.SubParams.Token p) b
   else match stripe.SubParams.Card p with
        | Some card =>
          if stripe.nonempty (CardParams_Token card)
          then url.Add "card" (CardParams_Token card) b
          else CardParams_AppendDetails card b true
        | None => b
        end) !! k = b !! k.
Proof.
  intros Hcard Hk Hne.
  destruct (stripe.nonempty _) eqn:Et; [by apply lookup_Add_ne|].
  destruct (stripe.SubParams.Card p) as [card|] eqn:Ec; [|done].
  destruct (stripe.nonempty (CardParams_Token card)) eqn:Ect; [by apply lookup_Add_ne|].
  by apply (Hcard card Et Ec Ect).
Qed.

Ltac in_keys :=
  unfold sub_Update_keys, sub_New_keys, plan_New_keys; apply list_elem_of_In; simpl; tauto.

Lemma New_body_numbers (p : stripe.SubParams.t) :
  New_expansion_leaves sub_New_keys p ->
  encodes (sub.Client.New_body p) "trial_end" (0 <? stripe.SubParams.TrialEnd p)
    (strconv.FormatInt (stripe.SubParams.TrialEnd p)) /\
  encodes (sub.Client.New_body p) "quantity" (0 <? stripe.SubParams.Quantity p)%N
    (strconv.FormatUint (stripe.SubParams.Quantity p)) /\
  encodes (sub.Client.New_body p) "application_fee_percent"
    (SFltb (S754_zero false) (stripe.SubParams.FeePercent p))
    (strconv.FormatFloat (stripe.SubParams.FeePercent p) 2).
Proof.
  intros Hcard. unfold encodes, sub.Client.New_body. repeat split.
  - rewrite !lookup_if_Add_ne by done.
    rewrite lookup_if_Add_eq; [done|].
    rewrite lookup_if_Add_ne by done.
    rewrite (card_step_New sub_New_keys) by (done || in_keys). done.
  - rewrite lookup_if_Add_ne by done.
    rewrite lookup_if_Add_eq; [done|].
    rewrite !lookup_if_Add_ne by done.
    rewrite (card_step_New sub_New_keys) by (done || in_keys). done.
  - rewrite lookup_if_Add_eq; [done|].
    rewrite !lookup_if_Add_ne by done.
    rewrite (card_step_New sub_New_keys) by (done || in_keys). done.
Qed.

Lemma Update_body_numbers (p : stripe.SubParams.t) :
  Update_expansion_leaves sub_Update_keys p ->
  encodes (sub.Client.Update_body p) "trial_end" (0 <? stripe.SubParams.TrialEnd p)
    (strconv.FormatInt (stripe.SubParams.TrialEnd p)) /\
  encodes (sub.Client.Update_body p) "quantity" (0 <? stripe.SubParams.Quantity p)%N
    (strconv.FormatUint (stripe.SubParams.Quantity p)) /\
  encodes (sub.Client.Update_body p) "application_fee_percent"
    (SFltb (S754_zero false) (stripe.SubParams.FeePercent p))
    (strconv.FormatFloat (stripe.SubParams.FeePercent p) 2) /\
  encodes (sub.Client.Update_body p) "prorate" (stripe.SubParams.NoProrate p) "false".
Proof.
  intros Hcard. unfold encodes, sub.Client.Update_body. repeat split.
  - rewrite !lookup_if_Add_ne by done.
    rewrite lookup_if_Add_eq; [done|].
    rewrite lookup_if_Add_ne by done.
    rewrite (card_step_Update sub_Update_keys) by (done || in_keys).
    by rewrite !lookup_if_Add_ne.
  - rewrite lookup_if_Add_ne by done.
    rewrite lookup_if_Add_eq; [done|].
    rewrite !lookup_if_Add_ne by done.
    rewrite (card_step_Update sub_Update_keys) by (done || in_keys).
    by rewrite !lookup_if_Add_ne.
  - rewrite lookup_if_Add_eq; [done|].
    rewrite !lookup_if_Add_ne by done.
    rewrite (card_step_Update sub_Update_keys) by (done || in_keys).
    by rewrite !lookup_if_Add_ne.
  - rewrite !lookup_if_Add_ne by done.
    rewrite (card_step_Update sub_Update_keys) by (done || in_keys).
    rewrite lookup_if_Add_eq; [done|].
    by rewrite lookup_if_Add_ne.
Qed.

Lemma Cancel_body_bool (p : stripe.SubParams.t) :
  encodes (sub.Client.Cancel_body p) "at_period_end" (stripe.SubParams.EndCancel p) "true".
Proof. unfold encodes, sub.Client.Cancel_body. by rewrite lookup_if_Add_eq. Qed.

Lemma plan_New_body_numbers (p : stripe.PlanParams.t) :
  encodes (plan.Client.New_body p) "amount" true
    (strconv.FormatUint (stripe.PlanParams.Amount p)) /\
  encodes (plan.Client.New_body p) "interval_count" (0 <? stripe.PlanParams.IntervalCount p)%N
    (strconv.FormatUint (stripe.PlanParams.IntervalCount p)) /\
  encodes (plan.Client.New_body p) "trial_period_days" (0 <? stripe.PlanParams.TrialPeriod p)%N
    (strconv.FormatUint (stripe.PlanParams.TrialPeriod p)).
Proof.
  unfold encodes, plan.Client.New_body. repeat split.
  - rewrite !lookup_if_Add_ne by done. by simplify_map_eq.
  - rewrite !lookup_if_Add_ne by done.
    rewrite lookup_if_Add_eq; [done|]. by simplify_map_eq.
  - rewrite lookup_if_Add_ne by done.
    rewrite lookup_if_Add_eq; [done|].
    rewrite lookup_if_Add_ne by done. by simplify_map_eq.
Qed.

Lemma adds_last_Add (k v : string) (b : Values) : adds_last (url.Add k v b) k v.
Proof. exists (default [] (b !! k)). apply lookup_Add_eq. Qed.

Lemma adds_last_if_Add_ne (c : bool) (k k' v v' : string) (b : Values) :
  k' <> k -> adds_last b k v -> adds_last (if c then url.Add k' v' b else b) k v.
Proof. intros Hk [prev Hb]. exists prev. by rewrite lookup_if_Add_ne. Qed.

(** Whatever the card bundle wrote before them, the trial end, the quantity
    and the fee are the last values New and Update of the subscription
    client add under their keys. *)
Lemma sub_bodies_add_last (p : stripe.SubParams.t) :
  ((0 <? stripe.SubParams.TrialEnd p) = true ->
   adds_last (sub.Client.New_body p) "trial_end"
     (strconv.FormatInt (stripe.SubParams.TrialEnd p)) /\
   adds_last (sub.Client.Update_body p) "trial_end"
     (strconv.FormatInt (stripe.SubParams.TrialEnd p))) /\
  ((0 <? stripe.SubParams.Quantity p)%N = true ->
   adds_last (sub.Client.New_body p) "quantity"
     (strconv.FormatUint (stripe.SubParams.Quantity p)) /\
   adds_last (sub.Client.Update_body p) "quantity"
     (strconv.FormatUint (stripe.SubParams.Quantity p))) /\
  (SFltb (S754_zero false) (stripe.SubParams.FeePercent p) = true ->
   adds_last (sub.Client.New_body p) "application_fee_percent"
     (strconv.FormatFloat (stripe.SubParams.FeePercent p) 2) /\
   adds_last (sub.Client.Update_body p) "application_fee_percent"
     (strconv.FormatFloat (stripe.SubParams.FeePercent p) 2)).
Proof.
  unfold sub.Client.New_body, sub.Client.Update_body. cbv zeta.
  split; [|split]; intros ->; split;
    repeat first [ apply adds_last_Add | apply adds_last_if_Add_ne; [done|] ].
Qed.

(** C7, as amended. In the body each operation builds, TrialEnd, Quantity,
    Amount, IntervalCount and TrialPeriod are encoded as the base-10 numeral
    of the field, at_period_end as "true" and prorate as "false", and a
    FeePercent above zero as [FormatFloat] with precision 2, which for every
    finite FeePercent has exactly two digits after the point. These values
    are the ones New of the plan client and Cancel put under their keys, and
    the last ones New and Update of the subscription client add under
    theirs; they are what the body that is sent holds under these keys
    wherever the helpers of the root package that write into it as well (the
    shared params, and the card bundle when one is expanded) leave these
    keys alone. *)
Theorem numeric_encoding
    (sc : sub.Client.t) (pc : plan.Client.t) (id : string)
    (sp : stripe.SubParams.t) (pp : stripe.PlanParams.t) (st : St) :
  (sent (plan.Client.New pc (Some pp)) st =
     [Some (Params_AppendTo (stripe.PlanParams.Params_ pp) (plan.Client.New_body pp))] /\
   encodes (plan.Client.New_body pp) "amount" true
     (strconv.FormatUint (stripe.PlanParams.Amount pp)) /\
   encodes (plan.Client.New_body pp) "interval_count"
     (0 <? stripe.PlanParams.IntervalCount pp)%N
     (strconv.FormatUint (stripe.PlanParams.IntervalCount pp)) /\
   encodes (plan.Client.New_body pp) "trial_period_days"
     (0 <? stripe.PlanParams.TrialPeriod pp)%N
     (strconv.FormatUint (stripe.PlanParams.TrialPeriod pp))) /\
  (sent (sub.Client.Cancel sc id (Some sp)) st =
     [Some (Params_AppendTo (stripe.SubParams.Params_ sp) (sub.Client.Cancel_body sp))] /\
   encodes (sub.Client.Cancel_body sp) "at_period_end" (stripe.SubParams.EndCancel sp)
     "true") /\
  (sent (sub.Client.New sc (Some sp)) st =
     [Some (Params_AppendTo (stripe.SubParams.Params_ sp) (sub.Client.New_body sp))] /\
   sent (sub.Client.Update sc id (Some sp)) st =
     [Some (Params_AppendTo (stripe.SubParams.Params_ sp) (sub.Client.Update_body sp))] /\
   ((0 <? stripe.SubParams.TrialEnd sp) = true ->
    adds_last (sub.Client.New_body sp) "trial_end"
      (strconv.FormatInt (stripe.SubParams.TrialEnd sp)) /\
    adds_last (sub.Client.Update_body sp) "trial_end"
      (strconv.FormatInt (stripe.SubParams.TrialEnd sp))) /\
   ((0 <? stripe.SubParams.Quantity sp)%N = true ->
    adds_last (sub.Client.New_body sp) "quantity"
      (strconv.FormatUint (stripe.SubParams.Quantity sp)) /\
    adds_last (sub.Client.Update_body sp) "quantity"
      (strconv.FormatUint (stripe.SubParams.Quantity sp))) /\
   (SFltb (S754_zero false) (stripe.SubParams.FeePercent sp) = true ->
    adds_last (sub.Client.New_body sp) "application_fee_percent"
      (strconv.FormatFloat (stripe.SubParams.FeePercent sp) 2) /\
    adds_last (sub.Client.Update_body sp) "application_fee_percent"
      (strconv.FormatFloat (stripe.SubParams.FeePercent sp) 2))) /\
  (preserves sub_New_keys (Params_AppendTo (stripe.SubParams.Params_ sp)) ->
   New_expansion_leaves sub_New_keys sp ->
   exists body : Values,
     sent (sub.Client.New sc (Some sp)) st = [Some body] /\
     encodes body "trial_end" (0 <? stripe.SubParams.TrialEnd sp)
       (strconv.FormatInt (stripe.SubParams.TrialEnd sp)) /\
     encodes body "quantity" (0 <? stripe.SubParams.Quantity sp)%N
       (strconv.FormatUint (stripe.SubParams.Quantity sp)) /\
     encodes body "application_fee_percent"
       (SFltb (S754_zero false) (stripe.SubParams.FeePercent sp))
       (strconv.FormatFloat (stripe.SubParams.FeePercent sp) 2)) /\
  (preserves sub_Update_keys (Params_AppendTo (stripe.SubParams.Params_ sp)) ->
   Update_expansion_leaves sub_Update_keys sp ->
   exists body : Values,
     sent (sub.Client.Update sc id (Some sp)) st = [Some body] /\
     encodes body "trial_end" (0 <? stripe.SubParams.TrialEnd sp)
       (strconv.FormatInt (stripe.SubParams.TrialEnd sp)) /\
     encodes body "quantity" (0 <? stripe.SubParams.Quantity sp)%N
       (strconv.FormatUint (stripe.SubParams.Quantity sp)) /\
     encodes body "application_fee_percent"
       (SFltb (S754_zero false) (stripe.SubParams.FeePercent sp))
       (strconv.FormatFloat (stripe.SubParams.FeePercent sp) 2) /\
     encodes body "prorate" (stripe.SubParams.NoProrate sp) "false") /\
  (preserves ["at_period_end"] (Params_AppendTo (stripe.SubParams.Params_ sp)) ->
   exists body : Values,
     sent (sub.Client.Cancel sc id (Some sp)) st = [Some body] /\
     encodes body "at_period_end" (stripe.SubParams.EndCancel sp) "true") /\
  (preserves plan_New_keys (Params_AppendTo (stripe.PlanParams.Params_ pp)) ->
   exists body : Values,
     sent (plan.Client.New pc (Some pp)) st = [Some body] /\
     encodes body "amount" true (strconv.FormatUint (stripe.PlanParams.Amount pp)) /\
     encodes body "interval_count" (0 <? stripe.PlanParams.IntervalCount pp)%N
       (strconv.FormatUint (stripe.PlanParams.IntervalCount pp)) /\
     encodes body "trial_period_days" (0 <? stripe.PlanParams.TrialPeriod pp)%N
       (strconv.FormatUint (stripe.PlanParams.TrialPeriod pp))) /\
  (forall n : N, parse_uint (strconv.FormatUint n) = Some n) /\
  (forall z : Z, parse_int (strconv.FormatInt z) = Some z) /\
  (forall f : spec_float,
     finite f = true -> two_decimals (strconv.FormatFloat f 2) = true).
Proof.
  destruct (plan_New_body_numbers pp) as (Hp1 & Hp2 & Hp3).
  pose proof (Cancel_body_bool sp) as Hc.
  destruct (sub_bodies_add_last sp) as (Ht & Hq & Hf).
  split; [|split; [|split; [|split; [|split; [|split; [|split; [|split; [|split]]]]]]]].
  - rewrite sent_plan_New. done.
  - rewrite sent_sub_Cancel. done.
  - rewrite sent_sub_New, sent_sub_Update. done.
  - intros Hshared Hcard.
    destruct (New_body_numbers sp Hcard) as (Hn1 & Hn2 & Hn3).
    eexists. rewrite sent_sub_New. split; [reflexivity|].
    unfold encodes in *. rewrite !Hshared by in_keys. done.
  - intros Hshared Hcard.
    destruct (Update_body_numbers sp Hcard) as (Hu1 & Hu2 & Hu3 & Hu4).
    eexists. rewrite sent_sub_Update. split; [reflexivity|].
    unfold encodes in *. rewrite !Hshared by in_keys. done.
  - intros Hshared.
    eexists. rewrite sent_sub_Cancel. split; [reflexivity|].
    unfold encodes in *. rewrite Hshared by in_keys. done.
  - intros Hshared.
    eexists. rewrite sent_plan_New. split; [reflexivity|].
    unfold encodes in *. rewrite !Hshared by in_keys. done.
  - apply FormatUint_parse.
  - apply FormatInt_parse.
  - apply FormatFloat_two_decimals.
Qed.

End Encoding.

(** ** The list iterator *)

Section Iteration.
Context `{Core}.

(** The iterator after one buffered item was handed out. *)
Lemma Next_buffered (it : stripe.Iter.t) (x : stripe.iface) (st : St) :
  stripe.Iter.err it = None ->
  stripe.Iter.values it !! stripe.Iter.cur it = Some x ->
  stripe.Iter.Next it st =
  (Ret ((x, None),
        {| stripe.Iter.query := stripe.Iter.query it; stripe.Iter.qs := stripe.Iter.qs it;
           stripe.Iter.params := stripe.Iter.params it;
           stripe.Iter.values := stripe.Iter.values it;
           stripe.Iter.cur := S (stripe.Iter.cur it);
           stripe.Iter.meta := stripe.Iter.meta it; stripe.Iter.err := None |}), st).
Proof. intros He Hx. unfold stripe.Iter.Next. by rewrite He, Hx. Qed.

Lemma Next_pending (it : stripe.Iter.t) (e : error) (st : St) :
  stripe.Iter.err it = Some e ->
  stripe.Iter.Next it st = (Ret ((stripe.INil, Some e), it), st).
Proof. intros He. unfold stripe.Iter.Next. by rewrite He. Qed.

Lemma Next_fetch_fail (it : stripe.Iter.t) (items : list stripe.iface)
    (m : stripe.ListMeta) (e : error) (st st' : St) :
  stripe.Iter.err it = None ->
  stripe.Iter.values it !! stripe.Iter.cur it = None ->
  stripe.Iter.more it = true ->
  stripe.Iter.query it (stripe.Iter.next_qs it) st = (Ret (items, m, Some e), st') ->
  stripe.Iter.Next it st =
  (Ret ((stripe.INil, Some e),
        {| stripe.Iter.query := stripe.Iter.query it; stripe.Iter.qs := stripe.Iter.next_qs it;
           stripe.Iter.params := stripe.Iter.params it;
           stripe.Iter.values := stripe.Iter.values it;
           stripe.Iter.cur := stripe.Iter.cur it;
           stripe.Iter.meta := stripe.Iter.meta it; stripe.Iter.err := Some e |}), st').
Proof.
  intros He Hx Hm Hq. unfold stripe.Iter.Next. rewrite He, Hx, Hm.
  unfold bind. by rewrite Hq.
Qed.

Lemma Next_fetch_ok (it : stripe.Iter.t) (x : stripe.iface) (items : list stripe.iface)
    (m : stripe.ListMeta) (st st' : St) :
  stripe.Iter.err it = None ->
  stripe.Iter.values it !! stripe.Iter.cur it = None ->
  stripe.Iter.more it = true ->
  stripe.Iter.query it (stripe.Iter.next_qs it) st = (Ret (x :: items, m, None), st') ->
  stripe.Iter.Next it st =
  (Ret ((x, None),
        {| stripe.Iter.query := stripe.Iter.query it; stripe.Iter.qs := stripe.Iter.next_qs it;
           stripe.Iter.params := stripe.Iter.params it;
           stripe.Iter.values := x :: items;
           stripe.Iter.cur := 1;
           stripe.Iter.meta := Some m; stripe.Iter.err := None |}), st').
Proof.
  intros He Hx Hm Hq. unfold stripe.Iter.Next. rewrite He, Hx, Hm.
  unfold bind. by rewrite Hq.
Qed.

Lemma repeat_next_pending (it : stripe.Iter.t) (e : error) (n : nat) (st : St) :
  stripe.Iter.err it = Some e ->
  repeat_next stripe.Iter.Next n it st =
  (Ret (replicate n (stripe.INil, Some e), it), st).
Proof.
  intros He. induction n as [|n IH]; simpl; [done|].
  unfold bind at 1. rewrite (Next_pending it e st He). simpl.
  unfold bind. by rewrite IH.
Qed.

Lemma drop_cons_lookup {A : Type} (l : list A) (i : nat) (x : A) (r : list A) :
  drop i l = x :: r -> l !! i = Some x /\ drop (S i) l = r.
Proof.
  intros Hd.
  assert (Hx : l !! i = Some x).
  { rewrite <- (Nat.add_0_r i), <- lookup_drop, Hd. done. }
  split; [done|].
  rewrite (drop_S l x i Hx) in Hd. congruence.
Qed.

Lemma drop_nil_lookup {A : Type} (l : list A) (i : nat) :
  drop i l = [] -> l !! i = None.
Proof.
  intros Hd. apply lookup_ge_None.
  destruct (decide (length l <= i)%nat) as [|Hn]; [done|].
  assert (Hl : length (drop i l) = O) by (by rewrite Hd).
  rewrite length_drop in Hl. lia.
Qed.

(** Buffered items come out first, then the error of the failed fetch, again
    and again, with no further fetch. *)
Lemma Iter_drain_then_error (rest : list stripe.iface) (it : stripe.Iter.t)
    (items : list stripe.iface) (m : stripe.ListMeta) (e : error) (n : nat) (st st' : St) :
  stripe.Iter.err it = None ->
  drop (stripe.Iter.cur it) (stripe.Iter.values it) = rest ->
  stripe.Iter.more it = true ->
  stripe.Iter.query it (stripe.Iter.next_qs it) st = (Ret (items, m, Some e), st') ->
  exists it',
    repeat_next stripe.Iter.Next (length rest + S n) it st =
      (Ret (map (fun x => (x, None)) rest ++ replicate (S n) (stripe.INil, Some e), it'), st') /\
    stripe.Iter.err it' = Some e /\
    stripe.Iter.Stop it' = true.
Proof.
  revert it. induction rest as [|x rest IH]; intros it He Hd Hm Hq.
  - apply drop_nil_lookup in Hd.
    eexists. simpl. unfold bind at 1.
    rewrite (Next_fetch_fail it items m e st st' He Hd Hm Hq). simpl.
    unfold bind. rewrite repeat_next_pending with (e := e) by done.
    simpl. split; [reflexivity|]. split; [done|]. reflexivity.
  - apply drop_cons_lookup in Hd as [Hx Hd].
    set (it1 := {| stripe.Iter.query := stripe.Iter.query it; stripe.Iter.qs := stripe.Iter.qs it;
           stripe.Iter.params := stripe.Iter.params it;
           stripe.Iter.values := stripe.Iter.values it;
           stripe.Iter.cur := S (stripe.Iter.cur it);
           stripe.Iter.meta := stripe.Iter.meta it; stripe.Iter.err := None |}).
    destruct (IH it1) as (it' & Hrun & He' & Hs'); try done.
    exists it'. split; [|done].
    simpl. unfold bind at 1. rewrite (Next_buffered it x st He Hx). simpl.
    fold it1. unfold bind. by rewrite Hrun.
Qed.

Lemma sub_Next_item (it it' : stripe.Iter.t) (x : Sub) (st st' : St) :
  stripe.Iter.Next it st = (Ret ((stripe.ISub x, None), it'), st') ->
  sub.Iter.Next {| sub.Iter.Iter := it |} st =
  (Ret ((Some x, None), {| sub.Iter.Iter := it' |}), st').
Proof. intros E. unfold sub.Iter.Next, bind. simpl. by rewrite E. Qed.

Lemma sub_Next_error (it it' : stripe.Iter.t) (x : stripe.iface) (e : error) (st st' : St) :
  stripe.Iter.Next it st = (Ret ((x, Some e), it'), st') ->
  sub.Iter.Next {| sub.Iter.Iter := it |} st =
  (Ret ((None, Some e), {| sub.Iter.Iter := it' |}), st').
Proof. intros E. unfold sub.Iter.Next, bind. simpl. by rewrite E. Qed.

Lemma sub_repeat_next_pending (it : stripe.Iter.t) (e : error) (n : nat) (st : St) :
  stripe.Iter.err it = Some e ->
  repeat_next sub.Iter.Next n {| sub.Iter.Iter := it |} st =
  (Ret (replicate n (None, Some e), {| sub.Iter.Iter := it |}), st).
Proof.
  intros He. induction n as [|n IH]; simpl; [done|].
  unfold bind at 1.
  rewrite (sub_Next_error it it stripe.INil e st st (Next_pending it e st He)). simpl.
  unfold bind. by rewrite IH.
Qed.

Lemma sub_drain_then_error (subs : list Sub) (it : stripe.Iter.t)
    (items : list stripe.iface) (m : stripe.ListMeta) (e : error) (n : nat) (st st' : St) :
  stripe.Iter.err it = None ->
  drop (stripe.Iter.cur it) (stripe.Iter.values it) = map stripe.ISub subs ->
  stripe.Iter.more it = true ->
  stripe.Iter.query it (stripe.Iter.next_qs it) st = (Ret (items, m, Some e), st') ->
  exists i',
    repeat_next sub.Iter.Next (length subs + S n) {| sub.Iter.Iter := it |} st =
      (Ret (map (fun x => (Some x, None)) subs ++ replicate (S n) (None, Some e), i'), st') /\
    sub.Iter.Stop i' = true.
Proof.
  revert it. induction subs as [|x subs IH]; intros it He Hd Hm Hq.
  - apply drop_nil_lookup in Hd.
    eexists. simpl. unfold bind at 1.
    rewrite (sub_Next_error _ _ _ _ _ _ (Next_fetch_fail it items m e st st' He Hd Hm Hq)).
    simpl. unfold bind. rewrite sub_repeat_next_pending with (e := e) by done.
    simpl. split; reflexivity.
  - apply drop_cons_lookup in Hd as [Hx Hd].
    set (it1 := {| stripe.Iter.query := stripe.Iter.query it; stripe.Iter.qs := stripe.Iter.qs it;
           stripe.Iter.params := stripe.Iter.params it;
           stripe.Iter.values := stripe.Iter.values it;
           stripe.Iter.cur := S (stripe.Iter.cur it);
           stripe.Iter.meta := stripe.Iter.meta it; stripe.Iter.err := None |}).
    destruct (IH it1) as (i' & Hrun & Hs'); try done.
    exists i'. split; [|done].
    simpl. unfold bind at 1.
    rewrite (sub_Next_item _ _ _ _ _ (Next_buffered it (stripe.ISub x) st He Hx)). simpl.
    fold it1. unfold bind. by rewrite Hrun.
Qed.

(** C5. When the fetch of the next page fails, the items still buffered from
    the pages fetched before are handed out first and unchanged; the Next
    call that runs the fetch returns its error; every further Next call
    returns that same error without another fetch; and Stop is true from
    then on. This holds of the iterator of the root package and of the
    subscription iterator that wraps it. *)
Theorem fetch_failure_is_terminal
    (it : stripe.Iter.t) (subs : list Sub) (items : list stripe.iface)
    (m : stripe.ListMeta) (e : error) (n : nat) (st st' : St) :
  stripe.Iter.err it = None ->
  stripe.Iter.more it = true ->
  stripe.Iter.query it (stripe.Iter.next_qs it) st = (Ret (items, m, Some e), st') ->
  let rest := drop (stripe.Iter.cur it) (stripe.Iter.values it) in
  (exists it',
     repeat_next stripe.Iter.Next (length rest + S n) it st =
       (Ret (map (fun x => (x, None)) rest ++ replicate (S n) (stripe.INil, Some e), it'), st') /\
     stripe.Iter.err it' = Some e /\
     stripe.Iter.Stop it' = true /\
     forall k st1,
       repeat_next stripe.Iter.Next k it' st1 =
         (Ret (replicate k (stripe.INil, Some e), it'), st1)) /\
  (rest = map stripe.ISub subs ->
   exists i',
     repeat_next sub.Iter.Next (length subs + S n) {| sub.Iter.Iter := it |} st =
       (Ret (map (fun x => (Some x, None)) subs ++ replicate (S n) (None, Some e), i'), st') /\
     sub.Iter.Stop i' = true).
Proof.
  intros He Hm Hq rest. split.
  - destruct (Iter_drain_then_error rest it items m e n st st' He eq_refl Hm Hq)
      as (it' & Hrun & He' & Hs').
    exists it'. repeat split; try done.
    intros k st1. by apply repeat_next_pending.
  - intros Hrest. by apply (sub_drain_then_error subs it items m e n st st').
Qed.


Lemma body_limit_two (cust : string) :
  stripe.ListParams_AppendTo (stripe.SubListParams.ListParams_ (limit_two cust)) ∅ =
  {[ "limit" := ["2"] ]}.
Proof. reflexivity. Qed.

(** C1. A list iterator made with [ListParams{Limit: 2}] over a backend that
    serves three subscriptions, two on the first page and one on the second
    (requested with the second item as cursor), hands out the first, the
    second and the third item on three successive Next calls; Stop is false
    until then and true after the third item. *)
Theorem three_items_two_pages
    (c : sub.Client.t) (cust : string) (s1 s2 s3 : Sub) (m1 m2 : stripe.ListMeta)
    (w1 w2 : World) (st : St) :
  let path := "/customers/" +:+ cust +:+ "/subscriptions" in
  let body : Values := {[ "limit" := ["2"] ]} in
  stripe.Call (sub.Client.B c) "GET" path (sub.Client.Key c) (Some body)
    stripe.KSubList stripe.SubList_zero (world st) = ((sub_page m1 [s1; s2], None), w1) ->
  stripe.HasMore m1 = true ->
  stripe.Call (sub.Client.B c) "GET" path (sub.Client.Key c)
    (Some (url.Set_ "starting_after" (Sub_ID s2) body))
    stripe.KSubList stripe.SubList_zero w1 = ((sub_page m2 [s3], None), w2) ->
  stripe.HasMore m2 = false ->
  exists it0 it1 it2 it3 st1 st3,
    sub.Client.List c (Some (limit_two cust)) = Ret it0 /\
    sub.Iter.Next it0 st = (Ret ((Some s1, None), it1), st1) /\
    sub.Iter.Next it1 st1 = (Ret ((Some s2, None), it2), st1) /\
    sub.Iter.Next it2 st1 = (Ret ((Some s3, None), it3), st3) /\
    sub.Iter.Stop it0 = false /\ sub.Iter.Stop it1 = false /\ sub.Iter.Stop it2 = false /\
    sub.Iter.Stop it3 = true /\
    world st1 = w1 /\ world st3 = w2.
Proof.
  intros path body H1 Hm1 H2 Hm2.
  unfold sub.Client.List. rewrite body_limit_two. fold body.
  eexists _, _, _, _, _, _. split; [reflexivity|].
  split.
  { apply sub_Next_item.
    erewrite Next_fetch_ok; [reflexivity|..]; try reflexivity.
    unfold stripe.Iter.next_qs. simpl.
    unfold sub.Client.list_query. rewrite call_ret. simpl. fold path.
    rewrite H1. reflexivity. }
  split.
  { apply sub_Next_item. erewrite Next_buffered; reflexivity. }
  split.
  { apply sub_Next_item.
    erewrite Next_fetch_ok; [reflexivity|..]; try reflexivity.
    - exact Hm1.
    - unfold stripe.Iter.next_qs. simpl.
      unfold sub.Client.list_query. rewrite call_ret. simpl. fold path.
      rewrite H2. reflexivity. }
  unfold sub.Iter.Stop, stripe.Iter.Stop, stripe.Iter.more. simpl.
  rewrite Hm1, Hm2. done.
Qed.

End Iteration.

(** ** Event values *)

Lemma descend_Reaches (m : gmap string stripe.value) (k : string) (keys : list string)
    (v : stripe.value) :
  Reaches m (k :: keys) v -> stripe.descend (stripe.index m k) keys = Ret v.
Proof.
  intros HR. remember (k :: keys) as ks eqn:E. revert k keys E.
  induction HR as [m k0 | m k0 m' keys0 v Hi HR IH]; intros k keys [= -> <-].
  - reflexivity.
  - rewrite Hi. destruct keys0 as [|k1 keys1]; [inversion HR|].
    simpl. by apply IH.
Qed.

Lemma descend_Blocked (m : gmap string stripe.value) (k : string) (keys : list string) :
  Blocked m (k :: keys) ->
  stripe.descend (stripe.index m k) keys = Panic TypeAssertion.
Proof.
  intros HB. remember (k :: keys) as ks eqn:E. revert k keys E.
  induction HB as [m k0 k1 keys0 Hn | m k0 m' keys0 Hi HB IH]; intros k keys [= -> <-].
  - simpl. destruct (stripe.index m k) eqn:Ei; try reflexivity.
    by destruct (Hn m0).
  - rewrite Hi. destruct keys0 as [|k1 keys1]; [inversion HB|].
    simpl. by apply IH.
Qed.

Lemma getValue_Reaches (m : gmap string stripe.value) (keys : list string)
    (v : stripe.value) :
  Reaches m keys v ->
  stripe.getValue m keys =
  match v with
  | stripe.VNil => Ret ""
  | stripe.VString s => Ret s
  | _ => Panic TypeAssertion
  end.
Proof.
  intros HR. destruct keys as [|k keys]; [inversion HR|].
  unfold stripe.getValue. rewrite (descend_Reaches m k keys v HR). by destruct v.
Qed.

Lemma getValue_Blocked (m : gmap string stripe.value) (keys : list string) :
  Blocked m keys -> stripe.getValue m keys = Panic TypeAssertion.
Proof.
  intros HB. destruct keys as [|k keys]; [inversion HB|].
  unfold stripe.getValue. by rewrite (descend_Blocked m k keys HB).
Qed.

(** C9. [GetObjValue] and [GetPrevValue] return the empty string when the
    key path reaches nil in their bag, and the string it reaches when it
    reaches one; they panic when the list of keys is empty, when the path is
    blocked at a key that is not the last (absent, or not leading to a
    string-keyed map), and when the value reached is neither nil nor a
    string. *)
Theorem event_value_lookup (e : stripe.Event) (d : stripe.EventData) (keys : list string) :
  stripe.Data e = Some d ->
  (is_panic (stripe.GetObjValue e []) = true /\ is_panic (stripe.GetPrevValue e []) = true) /\
  (Reaches (stripe.Obj d) keys stripe.VNil -> stripe.GetObjValue e keys = Ret "") /\
  (Reaches (stripe.Prev d) keys stripe.VNil -> stripe.GetPrevValue e keys = Ret "") /\
  (forall s, Reaches (stripe.Obj d) keys (stripe.VString s) ->
             stripe.GetObjValue e keys = Ret s) /\
  (forall s, Reaches (stripe.Prev d) keys (stripe.VString s) ->
             stripe.GetPrevValue e keys = Ret s) /\
  (Blocked (stripe.Obj d) keys -> is_panic (stripe.GetObjValue e keys) = true) /\
  (Blocked (stripe.Prev d) keys -> is_panic (stripe.GetPrevValue e keys) = true) /\
  (forall v, Reaches (stripe.Obj d) keys v -> v <> stripe.VNil -> is_string v = false ->
             is_panic (stripe.GetObjValue e keys) = true) /\
  (forall v, Reaches (stripe.Prev d) keys v -> v <> stripe.VNil -> is_string v = false ->
             is_panic (stripe.GetPrevValue e keys) = true).
Proof.
  intros Hd. unfold stripe.GetObjValue, stripe.GetPrevValue. rewrite Hd.
  repeat split.
  - intros HR. by rewrite (getValue_Reaches _ _ _ HR).
  - intros HR. by rewrite (getValue_Reaches _ _ _ HR).
  - intros s HR. by rewrite (getValue_Reaches _ _ _ HR).
  - intros s HR. by rewrite (getValue_Reaches _ _ _ HR).
  - intros HB. by rewrite (getValue_Blocked _ _ HB).
  - intros HB. by rewrite (getValue_Blocked _ _ HB).
  - intros v HR Hn Hs. rewrite (getValue_Reaches _ _ _ HR). by destruct v.
  - intros v HR Hn Hs. rewrite (getValue_Reaches _ _ _ HR). by destruct v.
Qed.

(** ** The bodies, key by key *)

Section Entries.
Context `{Core}.

Lemma nonempty_false_eq (s : string) : stripe.nonempty s = false -> s = "".
Proof.
  unfold stripe.nonempty. destruct (String.eqb_spec s ""); [done | discriminate].
Qed.

Lemma fresh_nil (k : string) : fresh k [].
Proof. unfold fresh. simpl. apply not_elem_of_nil. Qed.

Lemma fresh_cons (k k' : string) (v : list string) (l : list (string * list string)) :
  k <> k' -> fresh k l -> fresh k ((k', v) :: l).
Proof. unfold fresh. simpl. intros Hk Hl. by apply not_elem_of_cons. Qed.

Lemma fresh_app (k : string) (l1 l2 : list (string * list string)) :
  fresh k l1 -> fresh k l2 -> fresh k (l1 ++ l2).
Proof. unfold fresh. rewrite fmap_app. intros H1 H2. by apply not_elem_of_app. Qed.

Lemma fresh_entry (k k' v : string) (c : bool) :
  k <> k' -> fresh k (entry c k' v).
Proof.
  intros Hk. destruct c; simpl; [|apply fresh_nil].
  apply fresh_cons; [done | apply fresh_nil].
Qed.

Lemma Add_fresh (k v : string) (l : list (string * list string)) :
  fresh k l ->
  url.Add k v (list_to_map l) = list_to_map (l ++ [(k, [v])]).
Proof.
  intros Hk. unfold url.Add.
  assert (Hn : (list_to_map l : Values) !! k = None) by by apply not_elem_of_list_to_map.
  rewrite Hn. simpl.
  rewrite list_to_map_app. simpl. rewrite insert_empty.
  by apply insert_union_singleton_r.
Qed.

Lemma if_Add_entry (c : bool) (k v : string) (l : list (string * list string)) :
  fresh k l ->
  (if c then url.Add k v (list_to_map l) else list_to_map l) =
  list_to_map (l ++ entry c k v).
Proof.
  intros Hk. destruct c; simpl; [by apply Add_fresh | by rewrite app_nil_r].
Qed.

End Entries.

Ltac freshness :=
  repeat first [ apply fresh_nil | apply fresh_app | apply fresh_entry; done
               | apply fresh_cons; [done|] ].

Section Bodies.
Context `{Core}.

Lemma sub_New_body_entries (p : stripe.SubParams.t) :
  stripe.SubParams.Token p <> "" \/ stripe.SubParams.Card p = None ->
  sub.Client.New_body p = list_to_map (sub_New_entries p).
Proof.
  intros Hcard. unfold sub.Client.New_body, sub_New_entries, sub_common_entries.
  assert (Hstep :
    (if stripe.nonempty (stripe.SubParams.Token p)
     then url.Add "card" (stripe.SubParams.Token p) {[ "plan" := [stripe.SubParams.Plan p] ]}
     else match stripe.SubParams.Card p with
          | Some card =>
            CardParams_AppendDetails card {[ "plan" := [stripe.SubParams.Plan p] ]} true
          | None => {[ "plan" := [stripe.SubParams.Plan p] ]}
          end) =
    list_to_map ([("plan", [stripe.SubParams.Plan p])] ++
                 entry (stripe.nonempty (stripe.SubParams.Token p)) "card"
                   (stripe.SubParams.Token p))).
  { replace ({[ "plan" := [stripe.SubParams.Plan p] ]} : Values)
      with (list_to_map [("plan", [stripe.SubParams.Plan p])] : Values)
      by (simpl; apply insert_empty).
    destruct Hcard as [Ht | Hc].
    - rewrite (nonempty_true _ Ht). apply Add_fresh. freshness.
    - rewrite Hc. apply if_Add_entry. freshness. }
  cbv zeta. rewrite Hstep.
  rewrite !if_Add_entry by freshness.
  by rewrite <- !app_assoc.
Qed.


Lemma sub_Update_body_entries (p : stripe.SubParams.t) :
  stripe.nonempty (card_token p) = true \/ stripe.SubParams.Card p = None ->
  sub.Client.Update_body p = list_to_map (sub_Update_entries p).
Proof.
  intros Hcard. unfold sub.Client.Update_body, sub_Update_entries, sub_common_entries.
  set (b0 := (list_to_map
                (entry (stripe.nonempty (stripe.SubParams.Plan p)) "plan"
                   (stripe.SubParams.Plan p) ++
                 entry (stripe.SubParams.NoProrate p) "prorate" "false") : Values)).
  assert (Hb0 :
    (if stripe.SubParams.NoProrate p
     then url.Add "prorate" (strconv.FormatBool false)
            (if stripe.nonempty (stripe.SubParams.Plan p)
             then url.Add "plan" (stripe.SubParams.Plan p) ∅ else ∅)
     else if stripe.nonempty (stripe.SubParams.Plan p)
          then url.Add "plan" (stripe.SubParams.Plan p) ∅ else ∅) = b0).
  { unfold b0.
    change (∅ : Values) with (list_to_map [] : Values).
    rewrite (if_Add_entry _ "plan") by freshness.
    rewrite (if_Add_entry _ "prorate") by freshness. done. }
  assert (Hstep :
    (if stripe.nonempty (stripe.SubParams.Token p)
     then url.Add "card" (stripe.SubParams.Token p) b0
     else match stripe.SubParams.Card p with
          | Some card =>
            if stripe.nonempty (CardParams_Token card)
            then url.Add "card" (CardParams_Token card) b0
            else CardParams_AppendDetails card b0 true
          | None => b0
          end) =
    list_to_map ((entry (stripe.nonempty (stripe.SubParams.Plan p)) "plan"
                    (stripe.SubParams.Plan p) ++
                  entry (stripe.SubParams.NoProrate p) "prorate" "false") ++
                 entry (stripe.nonempty (card_token p)) "card" (card_token p))).
  { unfold b0, card_token in *.
    destruct (stripe.nonempty (stripe.SubParams.Token p)) eqn:Et.
    - rewrite Et. apply Add_fresh. freshness.
    - destruct (stripe.SubParams.Card p) as [card|].
      + destruct Hcard as [Hc | Hc]; [|discriminate].
        rewrite Hc. apply Add_fresh. freshness.
      + simpl. by rewrite app_nil_r. }
  cbv zeta. rewrite Hb0, Hstep.
  rewrite !if_Add_entry by freshness.
  by rewrite <- !app_assoc.
Qed.

Lemma plan_New_body_entries (p : stripe.PlanParams.t) :
  plan.Client.New_body p = list_to_map (plan_New_entries p).
Proof.
  unfold plan.Client.New_body, plan_New_entries. cbv zeta.
  change (<["id" := [stripe.PlanParams.ID p]]>
          (<["name" := [stripe.PlanParams.Name p]]>
          (<["amount" := [strconv.FormatUint (stripe.PlanParams.Amount p)]]>
          (<["currency" := [stripe.PlanParams.Currency p]]>
          (<["interval" := [stripe.PlanParams.Interval p]]> ∅)))) : Values)
    with (list_to_map
            [("id", [stripe.PlanParams.ID p]);
             ("name", [stripe.PlanParams.Name p]);
             ("amount", [strconv.FormatUint (stripe.PlanParams.Amount p)]);
             ("currency", [stripe.PlanParams.Currency p]);
             ("interval", [stripe.PlanParams.Interval p])] : Values).
  rewrite !if_Add_entry by freshness.
  by rewrite <- !app_assoc.
Qed.

Lemma plan_Update_body_entries (p : stripe.PlanParams.t) :
  plan.Client.Update_body p = list_to_map (plan_Update_entries p).
Proof.
  unfold plan.Client.Update_body, plan_Update_entries. cbv zeta.
  change (∅ : Values) with (list_to_map [] : Values).
  rewrite !if_Add_entry by freshness. done.
Qed.


Lemma sub_New_entries_lookup (p : stripe.SubParams.t) :
  let m : Values := list_to_map (sub_New_entries p) in
  m !! "plan" = Some [stripe.SubParams.Plan p] /\
  m !! "card" =
    (if stripe.nonempty (stripe.SubParams.Token p)
     then Some [stripe.SubParams.Token p] else None) /\
  m !! "coupon" =
    (if stripe.nonempty (stripe.SubParams.Coupon p)
     then Some [stripe.SubParams.Coupon p] else None) /\
  m !! "trial_end" =
    (if 0 <? stripe.SubParams.TrialEnd p
     then Some [strconv.FormatInt (stripe.SubParams.TrialEnd p)] else None) /\
  m !! "quantity" =
    (if (0 <? stripe.SubParams.Quantity p)%N
     then Some [strconv.FormatUint (stripe.SubParams.Quantity p)] else None) /\
  m !! "application_fee_percent" =
    (if SFltb (S754_zero false) (stripe.SubParams.FeePercent p)
     then Some [strconv.FormatFloat (stripe.SubParams.FeePercent p) 2] else None) /\
  m !! "prorate" = None /\ m !! "at_period_end" = None.
Proof.
  unfold sub_New_entries, sub_common_entries.
  generalize (strconv.FormatFloat (stripe.SubParams.FeePercent p) 2).
  generalize (strconv.FormatUint (stripe.SubParams.Quantity p)).
  generalize (strconv.FormatInt (stripe.SubParams.TrialEnd p)).
  intros s1 s2 s3.
  destruct (stripe.nonempty (stripe.SubParams.Token p)),
    (stripe.nonempty (stripe.SubParams.Coupon p)),
    (0 <? stripe.SubParams.TrialEnd p),
    (0 <? stripe.SubParams.Quantity p)%N,
    (SFltb (S754_zero false) (stripe.SubParams.FeePercent p));
    repeat split; reflexivity.
Qed.


Lemma plan_New_entries_lookup (p : stripe.PlanParams.t) :
  let m : Values := list_to_map (plan_New_entries p) in
  m !! "id" = Some [stripe.PlanParams.ID p] /\
  m !! "name" = Some [stripe.PlanParams.Name p] /\
  m !! "amount" = Some [strconv.FormatUint (stripe.PlanParams.Amount p)] /\
  m !! "currency" = Some [stripe.PlanParams.Currency p] /\
  m !! "interval" = Some [stripe.PlanParams.Interval p] /\
  m !! "interval_count" =
    (if (0 <? stripe.PlanParams.IntervalCount p)%N
     then Some [strconv.FormatUint (stripe.PlanParams.IntervalCount p)] else None) /\
  m !! "trial_period_days" =
    (if (0 <? stripe.PlanParams.TrialPeriod p)%N
     then Some [strconv.FormatUint (stripe.PlanParams.TrialPeriod p)] else None) /\
  m !! "statement_description" =
    (if stripe.nonempty (stripe.PlanParams.Statement p)
     then Some [stripe.PlanParams.Statement p] else None).
Proof.
  unfold plan_New_entries.
  generalize (strconv.FormatUint (stripe.PlanParams.Amount p)).
  generalize (strconv.FormatUint (stripe.PlanParams.IntervalCount p)).
  generalize (strconv.FormatUint (stripe.PlanParams.TrialPeriod p)).
  intros s1 s2 s3.
  destruct (0 <? stripe.PlanParams.IntervalCount p)%N,
    (0 <? stripe.PlanParams.TrialPeriod p)%N,
    (stripe.nonempty (stripe.PlanParams.Statement p));
    repeat split; reflexivity.
Qed.

Lemma FormatUint_inj (a b : N) : strconv.FormatUint a = strconv.FormatUint b -> a = b.
Proof.
  intros E. pose proof (FormatUint_parse a) as Ha. rewrite E, FormatUint_parse in Ha.
  congruence.
Qed.

Lemma FormatInt_inj (a b : Z) : strconv.FormatInt a = strconv.FormatInt b -> a = b.
Proof.
  intros E. pose proof (FormatInt_parse a) as Ha. rewrite E, FormatInt_parse in Ha.
  congruence.
Qed.

Lemma opt_string_inj (a b : string) :
  (if stripe.nonempty a then Some [a] else None) =
  (if stripe.nonempty b then Some [b] else None) -> a = b.
Proof.
  destruct (stripe.nonempty a) eqn:Ea, (stripe.nonempty b) eqn:Eb; try discriminate.
  - congruence.
  - intros _. apply nonempty_false_eq in Ea, Eb. congruence.
Qed.

Lemma opt_uint_inj (a b : N) :
  (if (0 <? a)%N then Some [strconv.FormatUint a] else None) =
  (if (0 <? b)%N then Some [strconv.FormatUint b] else None) -> a = b.
Proof.
  destruct (N.ltb_spec 0 a), (N.ltb_spec 0 b); try discriminate.
  - intros [= E]. by apply FormatUint_inj.
  - intros _. lia.
Qed.

Lemma opt_int_inj (a b : Z) :
  (if 0 <? a then Some [strconv.FormatInt a] else None) =
  (if 0 <? b then Some [strconv.FormatInt b] else None) ->
  Z.max 0 a = Z.max 0 b.
Proof.
  destruct (Z.ltb_spec 0 a), (Z.ltb_spec 0 b); try discriminate.
  - intros [= E]. apply FormatInt_inj in E. lia.
  - intros _. lia.
Qed.

(** X4. The body New of the subscription client sends, when it expands no card
    bundle, holds exactly the listed entries, each key once: the plan always,
    even when empty, and the token, coupon, trial end, quantity and fee only
    when set; it never holds prorate or at_period_end. *)
Theorem sub_New_body_exact (c : sub.Client.t) (p : stripe.SubParams.t) (st : St) :
  stripe.SubParams.Token p <> "" \/ stripe.SubParams.Card p = None ->
  sent (sub.Client.New c (Some p)) st =
    [Some (Params_AppendTo (stripe.SubParams.Params_ p) (list_to_map (sub_New_entries p)))] /\
  NoDup (sub_New_entries p).*1 /\
  sub.Client.New_body p !! "plan" = Some [stripe.SubParams.Plan p] /\
  sub.Client.New_body p !! "prorate" = None /\
  sub.Client.New_body p !! "at_period_end" = None.
Proof.
  intros Hcard. rewrite sent_sub_New, (sub_New_body_entries p Hcard).
  destruct (sub_New_entries_lookup p) as (Hp & _ & _ & _ & _ & _ & Hpr & Hat).
  repeat split; try done.
  unfold sub_New_entries, sub_common_entries.
  destruct (stripe.nonempty (stripe.SubParams.Token p)),
    (stripe.nonempty (stripe.SubParams.Coupon p)),
    (0 <? stripe.SubParams.TrialEnd p),
    (0 <? stripe.SubParams.Quantity p)%N,
    (SFltb (S754_zero false) (stripe.SubParams.FeePercent p));
    apply (bool_decide_unpack _); reflexivity.
Qed.

(** X5. The body Update of the subscription client sends, when it expands no
    card bundle, holds exactly the listed entries, each key once: the plan
    only when non-empty, prorate=false only when NoProrate is set, and as
    card the token of the params or, when that is empty, the token of the
    card bundle. *)
Theorem sub_Update_body_exact
    (c : sub.Client.t) (id : string) (p : stripe.SubParams.t) (st : St) :
  stripe.nonempty (card_token p) = true \/ stripe.SubParams.Card p = None ->
  sent (sub.Client.Update c id (Some p)) st =
    [Some (Params_AppendTo (stripe.SubParams.Params_ p)
             (list_to_map (sub_Update_entries p)))] /\
  NoDup (sub_Update_entries p).*1.
Proof.
  intros Hcard. rewrite sent_sub_Update, (sub_Update_body_entries p Hcard).
  split; [done|].
  unfold sub_Update_entries, sub_common_entries.
  destruct (stripe.nonempty (stripe.SubParams.Plan p)),
    (stripe.SubParams.NoProrate p),
    (stripe.nonempty (card_token p)),
    (stripe.nonempty (stripe.SubParams.Coupon p)),
    (0 <? stripe.SubParams.TrialEnd p),
    (0 <? stripe.SubParams.Quantity p)%N,
    (SFltb (S754_zero false) (stripe.SubParams.FeePercent p));
    apply (bool_decide_unpack _); reflexivity.
Qed.

(** X6. With a plan given, proration left on and no card bundle expanded, Update
    of the subscription client builds the very body New builds. *)
Theorem sub_Update_builds_as_New (p : stripe.SubParams.t) :
  stripe.SubParams.Plan p <> "" ->
  stripe.SubParams.NoProrate p = false ->
  stripe.SubParams.Token p <> "" \/ stripe.SubParams.Card p = None ->
  sub.Client.Update_body p = sub.Client.New_body p.
Proof.
  intros Hp Hn Hcard.
  rewrite (sub_New_body_entries p Hcard).
  rewrite sub_Update_body_entries.
  - unfold sub_Update_entries, sub_New_entries, card_token.
    rewrite (nonempty_true _ Hp), Hn. simpl.
    destruct Hcard as [Ht | Hc].
    + rewrite !(nonempty_true _ Ht). simpl. by rewrite ?(nonempty_true _ Ht).
    + rewrite Hc.
      destruct (stripe.nonempty (stripe.SubParams.Token p)) eqn:Et; simpl;
        by rewrite ?Et.
  - unfold card_token. destruct Hcard as [Ht | Hc]; [left | by right].
    rewrite (nonempty_true _ Ht). by apply nonempty_true.
Qed.

(** X7. The body New of the subscription client builds determines what was
    encoded, up to the zero-value sentinels: equal bodies mean equal plan,
    token, coupon and quantity, equal trial ends once those at or below zero
    are identified, and the same formatted fee. *)
Theorem sub_New_body_lossless (p p' : stripe.SubParams.t) :
  stripe.SubParams.Token p <> "" \/ stripe.SubParams.Card p = None ->
  stripe.SubParams.Token p' <> "" \/ stripe.SubParams.Card p' = None ->
  sub.Client.New_body p = sub.Client.New_body p' ->
  stripe.SubParams.Plan p = stripe.SubParams.Plan p' /\
  stripe.SubParams.Token p = stripe.SubParams.Token p' /\
  stripe.SubParams.Coupon p = stripe.SubParams.Coupon p' /\
  Z.max 0 (stripe.SubParams.TrialEnd p) = Z.max 0 (stripe.SubParams.TrialEnd p') /\
  stripe.SubParams.Quantity p = stripe.SubParams.Quantity p' /\
  (if SFltb (S754_zero false) (stripe.SubParams.FeePercent p)
   then Some (strconv.FormatFloat (stripe.SubParams.FeePercent p) 2) else None) =
  (if SFltb (S754_zero false) (stripe.SubParams.FeePercent p')
   then Some (strconv.FormatFloat (stripe.SubParams.FeePercent p') 2) else None).
Proof.
  intros Hc Hc' E.
  rewrite (sub_New_body_entries p Hc), (sub_New_body_entries p' Hc') in E.
  destruct (sub_New_entries_lookup p) as (H1 & H2 & H3 & H4 & H5 & H6 & _).
  destruct (sub_New_entries_lookup p') as (H1' & H2' & H3' & H4' & H5' & H6' & _).
  cbv zeta in *. rewrite E in H1, H2, H3, H4, H5, H6.
  rewrite H1' in H1. rewrite H2' in H2. rewrite H3' in H3.
  rewrite H4' in H4. rewrite H5' in H5. rewrite H6' in H6.
  repeat split.
  - congruence.
  - symmetry. by apply opt_string_inj.
  - symmetry. by apply opt_string_inj.
  - symmetry. by apply opt_int_inj.
  - symmetry. by apply opt_uint_inj.
  - destruct (SFltb _ (stripe.SubParams.FeePercent p)),
      (SFltb _ (stripe.SubParams.FeePercent p')); congruence.
Qed.

(** X8. The body New of the plan client sends holds exactly the listed entries,
    each key once: id, name, amount, currency and interval always, even when
    empty or zero, and interval_count, trial_period_days and
    statement_description only when set. *)
Theorem plan_New_body_exact (c : plan.Client.t) (p : stripe.PlanParams.t) (st : St) :
  sent (plan.Client.New c (Some p)) st =
    [Some (Params_AppendTo (stripe.PlanParams.Params_ p)
             (list_to_map (plan_New_entries p)))] /\
  NoDup (plan_New_entries p).*1 /\
  {[ "id"; "name"; "amount"; "currency"; "interval" ]} ⊆ dom (plan.Client.New_body p).
Proof.
  rewrite sent_plan_New, plan_New_body_entries.
  destruct (plan_New_entries_lookup p) as (H1 & H2 & H3 & H4 & H5 & _).
  repeat split; try done.
  - unfold plan_New_entries.
    destruct (0 <? stripe.PlanParams.IntervalCount p)%N,
      (0 <? stripe.PlanParams.TrialPeriod p)%N,
      (stripe.nonempty (stripe.PlanParams.Statement p));
      apply (bool_decide_unpack _); reflexivity.
  - intros k Hk. apply elem_of_dom.
    repeat (apply elem_of_union in Hk as [Hk|Hk]);
      apply elem_of_singleton in Hk as ->; eauto.
Qed.

(** X9. The body New of the plan client builds determines every field it reads:
    equal bodies mean equal id, name, amount, currency, interval, interval
    count, trial period and statement. *)
Theorem plan_New_body_lossless (p p' : stripe.PlanParams.t) :
  plan.Client.New_body p = plan.Client.New_body p' ->
  stripe.PlanParams.ID p = stripe.PlanParams.ID p' /\
  stripe.PlanParams.Name p = stripe.PlanParams.Name p' /\
  stripe.PlanParams.Amount p = stripe.PlanParams.Amount p' /\
  stripe.PlanParams.Currency p = stripe.PlanParams.Currency p' /\
  stripe.PlanParams.Interval p = stripe.PlanParams.Interval p' /\
  stripe.PlanParams.IntervalCount p = stripe.PlanParams.IntervalCount p' /\
  stripe.PlanParams.TrialPeriod p = stripe.PlanParams.TrialPeriod p' /\
  stripe.PlanParams.Statement p = stripe.PlanParams.Statement p'.
Proof.
  intros E. rewrite !plan_New_body_entries in E.
  destruct (plan_New_entries_lookup p) as (H1 & H2 & H3 & H4 & H5 & H6 & H7 & H8).
  destruct (plan_New_entries_lookup p') as (H1' & H2' & H3' & H4' & H5' & H6' & H7' & H8').
  cbv zeta in *. rewrite E in H1, H2, H3, H4, H5, H6, H7, H8.
  rewrite H1' in H1. rewrite H2' in H2. rewrite H3' in H3. rewrite H4' in H4.
  rewrite H5' in H5. rewrite H6' in H6. rewrite H7' in H7. rewrite H8' in H8.
  repeat split; try congruence.
  - symmetry. apply FormatUint_inj. congruence.
  - symmetry. by apply opt_uint_inj.
  - symmetry. by apply opt_uint_inj.
  - symmetry. by apply opt_string_inj.
Qed.

(** X10. The body Update of the plan client sends holds the name and the
    statement description, each only when non-empty, and nothing else of the
    params: in particular never the amount, the currency or the interval. *)
Theorem plan_Update_body_exact
    (c : plan.Client.t) (id : string) (p : stripe.PlanParams.t) (st : St) :
  sent (plan.Client.Update c id (Some p)) st =
    [Some (Params_AppendTo (stripe.PlanParams.Params_ p)
             (list_to_map (plan_Update_entries p)))] /\
  dom (plan.Client.Update_body p) ⊆ {[ "name"; "statement_description" ]} /\
  (plan.Client.Update_body p = ∅ <->
   stripe.PlanParams.Name p = "" /\ stripe.PlanParams.Statement p = "").
Proof.
  split; [|split].
  - unfold sent, plan.Client.Update. cbv zeta.
    by rewrite requests_of_call_ret, plan_Update_body_entries.
  - rewrite plan_Update_body_entries. unfold plan_Update_entries.
    destruct (stripe.nonempty (stripe.PlanParams.Name p)),
      (stripe.nonempty (stripe.PlanParams.Statement p)); simpl;
      rewrite ?dom_insert_L, ?dom_empty_L; set_unfold; tauto.
  - rewrite plan_Update_body_entries. unfold plan_Update_entries.
    destruct (stripe.nonempty (stripe.PlanParams.Name p)) eqn:En,
      (stripe.nonempty (stripe.PlanParams.Statement p)) eqn:Es; simpl.
    + split; [intros E; by apply insert_non_empty in E|].
      intros [Hn _]. apply nonempty_false in En. done.
    + split; [intros E; by apply insert_non_empty in E|].
      intros [Hn _]. apply nonempty_false in En. done.
    + split; [intros E; by apply insert_non_empty in E|].
      intros [_ Hs]. apply nonempty_false in Es. done.
    + split; [|done]. intros _. by split; apply nonempty_false_eq.
Qed.

End Bodies.

(** ** Requests, one by one *)

Section Requests.
Context `{Core}.

Lemma endpoint_call_ret {A : Type} (b : stripe.Backend) (method path key : string)
    (body : option Values) (k : stripe.destKind) (v : stripe.destT k)
    (f : stripe.destT k * option error -> A) (st : St) :
  endpoint <$> requests_of (r <- stripe.call b method path key body k v ;; ret (f r)) st =
  [(method, path, key)].
Proof. by rewrite requests_of_call_ret. Qed.

(** X11. Each method of the two clients hands exactly one request to the backend,
    at the endpoint of the operation and under the client's key; the
    subscription methods and New of the plan client, which panic on nil
    params, hand none. *)
Theorem one_request_per_call
    (pc : plan.Client.t) (sc : sub.Client.t) (id : string)
    (pp : stripe.PlanParams.t) (opp : option stripe.PlanParams.t)
    (sp : stripe.SubParams.t) (st : St) :
  let cust := stripe.SubParams.Customer sp in
  (endpoint <$> requests_of (plan.Client.New pc (Some pp)) st =
     [("POST", "/plans", plan.Client.Key pc)] /\
   endpoint <$> requests_of (plan.Client.Get pc id opp) st =
     [("GET", "/plans/" +:+ id, plan.Client.Key pc)] /\
   endpoint <$> requests_of (plan.Client.Update pc id opp) st =
     [("POST", "/plans/" +:+ id, plan.Client.Key pc)] /\
   endpoint <$> requests_of (plan.Client.Del pc id) st =
     [("DELETE", "/plans/" +:+ id, plan.Client.Key pc)]) /\
  (endpoint <$> requests_of (sub.Client.New sc (Some sp)) st =
     [("POST", "/customers/" +:+ cust +:+ "/subscriptions", sub.Client.Key sc)] /\
   endpoint <$> requests_of (sub.Client.Get sc id (Some sp)) st =
     [("GET", "/customers/" +:+ cust +:+ "/subscriptions/" +:+ id, sub.Client.Key sc)] /\
   endpoint <$> requests_of (sub.Client.Update sc id (Some sp)) st =
     [("POST", "/customers/" +:+ cust +:+ "/subscriptions/" +:+ id, sub.Client.Key sc)] /\
   endpoint <$> requests_of (sub.Client.Cancel sc id (Some sp)) st =
     [("DELETE", "/customers/" +:+ cust +:+ "/subscriptions/" +:+ id, sub.Client.Key sc)]) /\
  (requests_of (plan.Client.New pc None) st = [] /\
   requests_of (sub.Client.New sc None) st = [] /\
   requests_of (sub.Client.Get sc id None) st = [] /\
   requests_of (sub.Client.Update sc id None) st = [] /\
   requests_of (sub.Client.Cancel sc id None) st = []).
Proof.
  unfold plan.Client.New, plan.Client.Get, plan.Client.Update, plan.Client.Del,
    sub.Client.New, sub.Client.Get, sub.Client.Update, sub.Client.Cancel.
  cbv zeta.
  repeat split; first [ apply endpoint_call_ret | apply requests_of_raise ].
Qed.

(** X12. The package-level functions hand their one request to the backend under
    the process-wide key, at the same endpoints as the client methods. *)
Theorem package_functions_use_globals
    (g : stripe.Globals) (id : string)
    (pp : stripe.PlanParams.t) (opp : option stripe.PlanParams.t)
    (sp : stripe.SubParams.t) (st : St) :
  let cust := stripe.SubParams.Customer sp in
  (endpoint <$> requests_of (plan.New g (Some pp)) st = [("POST", "/plans", stripe.Key g)] /\
   endpoint <$> requests_of (plan.Get g id opp) st =
     [("GET", "/plans/" +:+ id, stripe.Key g)] /\
   endpoint <$> requests_of (plan.Update g id opp) st =
     [("POST", "/plans/" +:+ id, stripe.Key g)] /\
   endpoint <$> requests_of (plan.Del g id) st =
     [("DELETE", "/plans/" +:+ id, stripe.Key g)]) /\
  (endpoint <$> requests_of (sub.New g (Some sp)) st =
     [("POST", "/customers/" +:+ cust +:+ "/subscriptions", stripe.Key g)] /\
   endpoint <$> requests_of (sub.Get g id (Some sp)) st =
     [("GET", "/customers/" +:+ cust +:+ "/subscriptions/" +:+ id, stripe.Key g)] /\
   endpoint <$> requests_of (sub.Update g id (Some sp)) st =
     [("POST", "/customers/" +:+ cust +:+ "/subscriptions/" +:+ id, stripe.Key g)] /\
   endpoint <$> requests_of (sub.Cancel g id (Some sp)) st =
     [("DELETE", "/customers/" +:+ cust +:+ "/subscriptions/" +:+ id, stripe.Key g)]) /\
  (plan.Client.B (plan.getC g) = stripe.GetBackend g /\
   sub.Client.B (sub.getC g) = stripe.GetBackend g).
Proof.
  unfold plan.New, plan.Get, plan.Update, plan.Del, sub.New, sub.Get, sub.Update, sub.Cancel,
    plan.Client.New, plan.Client.Get, plan.Client.Update, plan.Client.Del,
    sub.Client.New, sub.Client.Get, sub.Client.Update, sub.Client.Cancel.
  cbv zeta.
  repeat split; apply endpoint_call_ret.
Qed.

Lemma append_assoc (a b c : string) : (a +:+ b) +:+ c = a +:+ b +:+ c.
Proof.
  induction a as [|ch a IH]; [done|].
  change (String ch ((a +:+ b) +:+ c) = String ch (a +:+ b +:+ c)). by rewrite IH.
Qed.

(** X13. The plan client addresses one plan by one path: Get, Update and Del of
    an id share the path, different ids give different paths, and no id, not
    even the empty one, gives the path of the collection that New and List
    use. *)
Theorem plan_paths
    (pc : plan.Client.t) (id id' : string)
    (pp : stripe.PlanParams.t) (opp opp' : option stripe.PlanParams.t) (st st' : St) :
  (c_path <$> requests_of (plan.Client.Get pc id opp) st =
     c_path <$> requests_of (plan.Client.Update pc id opp') st' /\
   c_path <$> requests_of (plan.Client.Get pc id opp) st =
     c_path <$> requests_of (plan.Client.Del pc id) st') /\
  (c_path <$> requests_of (plan.Client.Get pc id opp) st =
     c_path <$> requests_of (plan.Client.Get pc id' opp') st' -> id = id') /\
  c_path <$> requests_of (plan.Client.Get pc id opp) st <>
    c_path <$> requests_of (plan.Client.New pc (Some pp)) st' /\
  forall b, c_path <$> requests_of (plan.Client.Get pc id opp) st <>
            c_path <$> requests_of (plan.Client.list_query pc b) st'.
Proof.
  unfold plan.Client.New, plan.Client.Get, plan.Client.Update, plan.Client.Del,
    plan.Client.list_query.
  cbv zeta. rewrite !requests_of_call_ret. cbn [fmap list_fmap c_path].
  split; [done|]. split; [|split].
  - intros [= E]. exact E.
  - simpl. discriminate.
  - intros b. rewrite requests_of_call_ret. simpl. discriminate.
Qed.

(** X14. The subscription client splices the customer and the id into the path
    as they are, without escaping: an id that carries "/subscriptions/"
    addresses the path of another customer's subscription. *)
Theorem sub_paths_unescaped
    (sc : sub.Client.t) (a b x : string) (p p' : stripe.SubParams.t) (st st' : St) :
  stripe.SubParams.Customer p = a ->
  stripe.SubParams.Customer p' = a +:+ "/subscriptions/" +:+ b ->
  c_path <$> requests_of (sub.Client.Get sc (b +:+ "/subscriptions/" +:+ x) (Some p)) st =
  c_path <$> requests_of (sub.Client.Get sc x (Some p')) st'.
Proof.
  intros Ha Hb. unfold sub.Client.Get. cbv zeta.
  rewrite !requests_of_call_ret. cbn [fmap list_fmap c_path]. rewrite Ha, Hb.
  by rewrite !append_assoc.
Qed.


Lemma appends_plan_query_at (P : CallRec -> Prop) (pc : plan.Client.t) (b : Values) :
  (forall body e, P {| c_method := "GET"; c_path := "/plans"; c_key := plan.Client.Key pc;
                       c_body := Some body; c_err := e |}) ->
  appends P (plan.Client.list_query pc b).
Proof.
  intros HP. unfold plan.Client.list_query.
  apply appends_bind; [|intros; apply appends_ret].
  apply appends_call. intros e. apply HP.
Qed.

Lemma appends_sub_query_at (P : CallRec -> Prop) (sc : sub.Client.t)
    (p : stripe.SubListParams.t) (b : Values) :
  (forall body e,
     P {| c_method := "GET";
          c_path := "/customers/" +:+ stripe.SubListParams.Customer p +:+ "/subscriptions";
          c_key := sub.Client.Key sc; c_body := Some body; c_err := e |}) ->
  appends P (sub.Client.list_query sc p b).
Proof.
  intros HP. unfold sub.Client.list_query.
  apply appends_bind; [|intros; apply appends_ret].
  apply appends_call. intros e. apply HP.
Qed.

(** X15. However many Next calls are made on the iterator List returns, every
    page request goes to the one collection path of the list, under the
    client's key, with a body that is not nil: paging changes the body
    only. *)
Theorem list_pages_one_endpoint
    (pc : plan.Client.t) (sc : sub.Client.t)
    (plp : option stripe.PlanListParams.t) (slp : stripe.SubListParams.t)
    (n : nat) (st : St) :
  Forall (fun rq => endpoint rq = ("GET", "/plans", plan.Client.Key pc) /\
                    is_Some (c_body rq))
    (requests_of (repeat_next plan.Iter.Next n (plan.Client.List pc plp)) st) /\
  exists it,
    sub.Client.List sc (Some slp) = Ret it /\
    Forall (fun rq =>
              endpoint rq =
                ("GET",
                 "/customers/" +:+ stripe.SubListParams.Customer slp +:+ "/subscriptions",
                 sub.Client.Key sc) /\
              is_Some (c_body rq))
      (requests_of (repeat_next sub.Iter.Next n it) st).
Proof.
  split.
  - apply appends_requests_of.
    apply (appends_repeat_next _
             (fun i => stripe.Iter.query (plan.Iter.Iter i) = plan.Client.list_query pc)).
    + intros i Hi. apply appends_plan_Next. intros b. rewrite Hi.
      apply appends_plan_query_at. intros body e. split; [done | by eexists].
    + intros i r i' st1 st2 Hi E. apply plan_Next_query in E. congruence.
    + reflexivity.
  - eexists. split; [reflexivity|].
    apply appends_requests_of.
    apply (appends_repeat_next _
             (fun i => stripe.Iter.query (sub.Iter.Iter i) = sub.Client.list_query sc slp)).
    + intros i Hi. apply appends_sub_Next. intros b. rewrite Hi.
      apply appends_sub_query_at. intros body e. split; [done | by eexists].
    + intros i r i' st1 st2 Hi E. apply sub_Next_query in E. congruence.
    + reflexivity.
Qed.

(** X16. The Next methods of the two iterator wrappers add nothing of their own
    to what the wrapped Next does: a returned error is the wrapped error and
    comes with a nil value, a returned value is the wrapped item, and the
    iterator and the backend are left as the wrapped call left them. An item
    of the other resource, or a nil item without an error, makes them
    panic. *)
Theorem iterator_wrappers (i : sub.Iter.t) (j : plan.Iter.t) (st : St) :
  (forall v e i' st',
     sub.Iter.Next i st = (Ret ((v, e), i'), st') ->
     exists x,
       stripe.Iter.Next (sub.Iter.Iter i) st = (Ret ((x, e), sub.Iter.Iter i'), st') /\
       (is_Some e -> v = None) /\
       (forall s, v = Some s -> x = stripe.ISub s /\ e = None)) /\
  (forall v e j' st',
     plan.Iter.Next j st = (Ret ((v, e), j'), st') ->
     exists x,
       stripe.Iter.Next (plan.Iter.Iter j) st = (Ret ((x, e), plan.Iter.Iter j'), st') /\
       (is_Some e -> v = None) /\
       (forall p, v = Some p -> x = stripe.IPlan p /\ e = None)) /\
  (forall x it' st',
     stripe.Iter.Next (sub.Iter.Iter i) st = (Ret ((x, None), it'), st') ->
     (forall s, x <> stripe.ISub s) ->
     sub.Iter.Next i st = (Panic TypeAssertion, st')) /\
  (forall x it' st',
     stripe.Iter.Next (plan.Iter.Iter j) st = (Ret ((x, None), it'), st') ->
     (forall p, x <> stripe.IPlan p) ->
     plan.Iter.Next j st = (Panic TypeAssertion, st')).
Proof.
  unfold sub.Iter.Next, plan.Iter.Next, bind.
  split; [|split; [|split]].
  - intros v e i' st'.
    destruct (stripe.Iter.Next (sub.Iter.Iter i) st) as [[[[x e0] it]|pn] st1]; [|discriminate].
    destruct e0 as [e0|].
    + intros [= <- <- <- <-]. exists x. repeat split; [done | discriminate].
    + destruct x; try discriminate. intros [= <- <- <- <-].
      eexists. repeat split; [by intros [? [=]] | congruence].
  - intros v e j' st'.
    destruct (stripe.Iter.Next (plan.Iter.Iter j) st) as [[[[x e0] it]|pn] st1]; [|discriminate].
    destruct e0 as [e0|].
    + intros [= <- <- <- <-]. exists x. repeat split; [done | discriminate].
    + destruct x; try discriminate. intros [= <- <- <- <-].
      eexists. repeat split; [by intros [? [=]] | congruence].
  - intros x it' st' E Hx. rewrite E.
    destruct x as [| |s]; try reflexivity. by destruct (Hx s).
  - intros x it' st' E Hx. rewrite E.
    destruct x as [|p|]; try reflexivity. by destruct (Hx p).
Qed.

(** X17. Get of the subscription client reads nothing of the params but the
    customer and the shared params, Cancel nothing more than EndCancel
    besides, and Get of the plan client nothing but the shared params: params
    that agree on these get the same request and the same result. *)
Theorem reads_use_few_fields
    (sc : sub.Client.t) (pc : plan.Client.t) (id : string)
    (p p' : stripe.SubParams.t) (pp pp' : stripe.PlanParams.t) (st : St) :
  (stripe.SubParams.Customer p = stripe.SubParams.Customer p' ->
   stripe.SubParams.Params_ p = stripe.SubParams.Params_ p' ->
   sub.Client.Get sc id (Some p) st = sub.Client.Get sc id (Some p') st /\
   (stripe.SubParams.EndCancel p = stripe.SubParams.EndCancel p' ->
    sub.Client.Cancel sc id (Some p) st = sub.Client.Cancel sc id (Some p') st)) /\
  (stripe.PlanParams.Params_ pp = stripe.PlanParams.Params_ pp' ->
   plan.Client.Get pc id (Some pp) st = plan.Client.Get pc id (Some pp') st).
Proof.
  unfold sub.Client.Get, sub.Client.Cancel, sub.Client.Cancel_body, plan.Client.Get.
  split.
  - intros -> ->. split; [done|]. by intros ->.
  - by intros ->.
Qed.

End Requests.

(** ** Event values, further *)

Lemma descend_Ret_Reaches (keys : list string) (m : gmap string stripe.value) (k : string)
    (v : stripe.value) :
  stripe.descend (stripe.index m k) keys = Ret v -> Reaches m (k :: keys) v.
Proof.
  revert m k. induction keys as [|k' keys IH]; intros m k; simpl.
  - intros [= <-]. constructor.
  - destruct (stripe.index m k) as [| | | | |m'] eqn:Ei; try discriminate.
    intros E. apply (Reaches_step m k m'); [done | by apply IH].
Qed.

Lemma descend_Panic_Blocked (keys : list string) (m : gmap string stripe.value) (k : string)
    (p : panic) :
  stripe.descend (stripe.index m k) keys = Panic p ->
  p = TypeAssertion /\ Blocked m (k :: keys).
Proof.
  revert m k. induction keys as [|k' keys IH]; intros m k; simpl; [discriminate|].
  destruct (stripe.index m k) as [| | | | |m'] eqn:Ei;
    try (intros [= <-]; split; [done|]; apply Blocked_here; rewrite Ei; discriminate).
  intros E. destruct (IH m' k' E) as [-> HB].
  split; [done|]. by apply (Blocked_below m k m').
Qed.

(** X1. [getValue] returns exactly when the key path reaches nil or a string,
    with the empty string for nil, and it panics exactly when the list of
    keys is empty, the path is blocked, or the value reached is neither nil
    nor a string. A result of "" therefore does not tell an absent key from a
    null or from an empty string. *)
Theorem getValue_characterised (m : gmap string stripe.value) (keys : list string)
    (s : string) :
  (stripe.getValue m keys = Ret s <->
   exists v, Reaches m keys v /\ (v = stripe.VNil /\ s = "" \/ v = stripe.VString s)) /\
  (is_panic (stripe.getValue m keys) = true <->
   keys = [] \/ Blocked m keys \/
   exists v, Reaches m keys v /\ v <> stripe.VNil /\ is_string v = false).
Proof.
  split; split.
  - destruct keys as [|k keys]; [discriminate|].
    unfold stripe.getValue.
    destruct (stripe.descend (stripe.index m k) keys) as [v|p] eqn:E; [|discriminate].
    apply descend_Ret_Reaches in E.
    destruct v; try discriminate; intros [= <-]; eexists; split; eauto.
  - intros (v & HR & Hv). rewrite (getValue_Reaches m keys v HR).
    by destruct Hv as [[-> ->] | ->].
  - intros Hp. destruct keys as [|k keys]; [by left|]. right.
    unfold stripe.getValue in Hp.
    destruct (stripe.descend (stripe.index m k) keys) as [v|p] eqn:E.
    + apply descend_Ret_Reaches in E.
      destruct v; try discriminate Hp;
        right; eexists; (split; [exact E|]); by split.
    + left. by apply descend_Panic_Blocked in E as [_ HB].
  - intros [-> | [HB | (v & HR & Hn & Hs)]].
    + reflexivity.
    + by rewrite (getValue_Blocked m keys HB).
    + rewrite (getValue_Reaches m keys v HR). by destruct v.
Qed.

Lemma descend_app (ks1 ks2 : list string) (node : stripe.value) :
  stripe.descend node (ks1 ++ ks2) =
  match stripe.descend node ks1 with
  | Ret n => stripe.descend n ks2
  | Panic p => Panic p
  end.
Proof.
  revert node. induction ks1 as [|k ks1 IH]; intros node; simpl; [done|].
  destruct node; try reflexivity. apply IH.
Qed.

(** X2. Looking a path up in a bag is looking its tail up in the map its head
    reaches: when the keys [ks1] reach a string-keyed map, [getValue] on
    [ks1 ++ ks2] is [getValue] on that map with [ks2]. *)
Theorem getValue_nested (m m' : gmap string stripe.value) (ks1 ks2 : list string) :
  Reaches m ks1 (stripe.VMap m') -> ks2 <> [] ->
  stripe.getValue m (ks1 ++ ks2) = stripe.getValue m' ks2.
Proof.
  intros HR Hne.
  destruct ks1 as [|k ks1]; [inversion HR|].
  apply descend_Reaches in HR.
  destruct ks2 as [|k2 ks2]; [done|].
  simpl. unfold stripe.getValue. by rewrite descend_app, HR.
Qed.

(** X3. Storing under a key and looking up: a string stored under [k] is what
    [getValue] returns for [k]; a map stored under [k] answers the longer
    paths through [k]; and paths starting at another key are not affected. *)
Theorem getValue_insert (m m' : gmap string stripe.value) (k k' : string)
    (s : string) (v : stripe.value) (keys : list string) :
  stripe.getValue (<[k := stripe.VString s]> m) [k] = Ret s /\
  (keys <> [] -> stripe.getValue (<[k := stripe.VMap m']> m) (k :: keys) =
                 stripe.getValue m' keys) /\
  (k <> k' -> stripe.getValue (<[k := v]> m) (k' :: keys) = stripe.getValue m (k' :: keys)) /\
  stripe.getValue (delete k m) [k] = Ret "".
Proof.
  unfold stripe.getValue, stripe.index. repeat split.
  - by rewrite lookup_insert_eq.
  - intros Hne. rewrite lookup_insert_eq. simpl.
    destruct keys as [|k2 keys]; [done|]. reflexivity.
  - intros Hk. by rewrite lookup_insert_ne.
  - by rewrite lookup_delete_eq.
Qed.

(** ** The properties at work in the concrete setting *)

#[local] Existing Instance fixture.core.

(** The scripted list of three subscriptions, read two per page. *)
Lemma three_items_two_pages_witness :
  exists it0 it1 it2 it3 st1 st3,
    sub.Client.List (fixture.sub_client (fixture.paging false)) (Some (limit_two "cus_1")) =
      Ret it0 /\
    sub.Iter.Next it0 fixture.st0 = (Ret ((Some "sub_1", None), it1), st1) /\
    sub.Iter.Next it1 st1 = (Ret ((Some "sub_2", None), it2), st1) /\
    sub.Iter.Next it2 st1 = (Ret ((Some "sub_3", None), it3), st3) /\
    sub.Iter.Stop it0 = false /\ sub.Iter.Stop it1 = false /\ sub.Iter.Stop it2 = false /\
    sub.Iter.Stop it3 = true /\
    world st1 = 1%nat /\ world st3 = 2%nat.
Proof.
  apply (@three_items_two_pages fixture.core
           (fixture.sub_client (fixture.paging false)) "cus_1" "sub_1" "sub_2" "sub_3"
           {| stripe.TotalCount := 3; stripe.HasMore := true |}
           {| stripe.TotalCount := 3; stripe.HasMore := false |}
           1%nat 2%nat fixture.st0); reflexivity.
Defined.

(** Params with only the plan set, sent by New and by Update. *)
Lemma body_only_plan_witness :
  (exists body : Values,
     sent (sub.Client.New (fixture.sub_client fixture.refusing) (Some fixture.only_plan))
       fixture.st0 = [Some body] /\
     dom body = {[ "plan" ]} /\
     body !! "plan" = Some ["gold"]) /\
  (exists body : Values,
     sent (sub.Client.Update (fixture.sub_client fixture.refusing) "sub_1"
             (Some fixture.only_plan)) fixture.st0 = [Some body] /\
     dom body = {[ "plan" ]} /\
     body !! "plan" = Some ["gold"]).
Proof.
  destruct (@body_only_plan fixture.core (fixture.sub_client fixture.refusing) "sub_1"
              fixture.only_plan fixture.st0) as [HNew HUpdate].
  split.
  - apply HNew. repeat split; reflexivity.
  - apply HUpdate. repeat split; try reflexivity. discriminate.
Defined.

(** Metadata keys are not the key "card". *)
Lemma metadata_leaves_card (body : Values) (k : string) :
  k ∈ ["card"] ->
  @Params_AppendTo fixture.core [("order", "42")] body !! k = body !! k.
Proof.
  intros Hk. apply list_elem_of_singleton in Hk as ->.
  simpl. by apply lookup_Add_ne.
Qed.

(** Params with a token and a populated card: only the token is sent. *)
Lemma token_short_circuits_witness :
  sub.Client.New_body fixture.full = sub.Client.New_body (set_Card None fixture.full) /\
  sub.Client.Update_body fixture.full = sub.Client.Update_body (set_Card None fixture.full) /\
  (exists body : Values,
     sent (sub.Client.New (fixture.sub_client fixture.refusing) (Some fixture.full))
       fixture.st0 = [Some body] /\
     body !! "card" = Some ["tok_123"]) /\
  (exists body : Values,
     sent (sub.Client.Update (fixture.sub_client fixture.refusing) "sub_1" (Some fixture.full))
       fixture.st0 = [Some body] /\
     body !! "card" = Some ["tok_123"]).
Proof.
  destruct (@token_short_circuits fixture.core (fixture.sub_client fixture.refusing) "sub_1"
              fixture.full fixture.st0)
    as ((HN & _ & _) & (HU & _ & _) & Hsent); [discriminate|].
  destruct (Hsent metadata_leaves_card) as [HsN HsU].
  repeat split; assumption.
Defined.

(** The broken list: the second item still comes out, then the error of the
    second page, three times over. *)
Lemma fetch_failure_is_terminal_witness :
  (exists i st1,
     sub.Client.List (fixture.sub_client (fixture.paging true)) (Some fixture.two_per_page) =
       Ret i /\
     stripe.Iter.Next (sub.Iter.Iter i) fixture.st0 =
       (Ret ((stripe.ISub "sub_1", None), fixture.after_first), st1)) /\
  (exists i' st',
     repeat_next sub.Iter.Next 4 {| sub.Iter.Iter := fixture.after_first |} fixture.st0 =
       (Ret ([(Some "sub_2", None); (None, Some "connection reset");
              (None, Some "connection reset"); (None, Some "connection reset")], i'), st') /\
     sub.Iter.Stop i' = true).
Proof.
  split.
  { exists {| sub.Iter.Iter :=
                stripe.GetIter (Some (stripe.SubListParams.ListParams_ fixture.two_per_page))
                  (Some {[ "limit" := ["2"] ]})
                  (sub.Client.list_query (fixture.sub_client (fixture.paging true))
                     fixture.two_per_page) |},
           (@Build_St fixture.core 1%nat
              [{| c_method := "GET"; c_path := "/customers/cus_1/subscriptions";
                  c_key := "sk_test"; c_body := Some {[ "limit" := ["2"] ]};
                  c_err := None |}]).
    split; reflexivity. }
  edestruct (@fetch_failure_is_terminal fixture.core fixture.after_first ["sub_2"]
               [] stripe.ListMeta_zero "connection reset" 2 fixture.st0)
    as [_ Hsub]; [reflexivity | reflexivity | reflexivity |].
  destruct (Hsub eq_refl) as (i' & Hrun & Hstop).
  eexists i', _. split; [exact Hrun | exact Hstop].
Defined.

(** In the concrete setting the metadata keys are none of the given keys. *)
Lemma metadata_leaves (keys : list string) (ps : list (string * string)) :
  (forall k x, k ∈ keys -> k <> "metadata[" +:+ x +:+ "]") ->
  preserves keys (@Params_AppendTo fixture.core ps).
Proof.
  intros Hkeys.
  induction ps as [|[k0 v0] ps IH] using rev_ind; intros body k Hk; [done|].
  simpl. rewrite fold_left_app. simpl.
  rewrite lookup_Add_ne; [by apply IH|].
  intros E. by apply (Hkeys k k0 Hk).
Qed.

(** In the concrete setting a card expands to the key card or to the key
    card[number], and to no other. *)
Lemma card_expansion_leaves (keys : list string) (card : fixture.Card) :
  "card" ∉ keys -> "card[number]" ∉ keys ->
  preserves keys (fun body => @CardParams_AppendDetails fixture.core card body true).
Proof.
  intros H1 H2 body k Hk. simpl.
  destruct (stripe.nonempty (fixture.card_token card));
    apply lookup_Add_ne; by intros <-.
Qed.

Ltac listed Hk :=
  apply list_elem_of_In in Hk; simpl in Hk;
  repeat (destruct Hk as [Hk | Hk]; [subst; try discriminate|]); try contradiction.

(** The fully populated params and the monthly plan, as they are encoded;
    and params whose card bundle New expands, to the key card. *)
Lemma numeric_encoding_witness :
  (exists body : Values,
     sent (sub.Client.New (fixture.sub_client fixture.refusing) (Some fixture.full))
       fixture.st0 = [Some body] /\
     body !! "trial_end" = Some ["1400000000"] /\
     body !! "quantity" = Some ["3"] /\
     body !! "application_fee_percent" = Some ["12.50"]) /\
  (exists body : Values,
     sent (sub.Client.Update (fixture.sub_client fixture.refusing) "sub_1" (Some fixture.full))
       fixture.st0 = [Some body] /\
     body !! "trial_end" = Some ["1400000000"] /\
     body !! "quantity" = Some ["3"] /\
     body !! "application_fee_percent" = Some ["12.50"] /\
     body !! "prorate" = Some ["false"]) /\
  (exists body : Values,
     sent (sub.Client.Cancel (fixture.sub_client fixture.refusing) "sub_1" (Some fixture.full))
       fixture.st0 = [Some body] /\
     body !! "at_period_end" = Some ["true"]) /\
  (exists body : Values,
     sent (plan.Client.New (fixture.plan_client fixture.refusing) (Some fixture.monthly))
       fixture.st0 = [Some body] /\
     body !! "amount" = Some ["2000"] /\
     body !! "interval_count" = Some ["3"] /\
     body !! "trial_period_days" = Some ["14"]) /\
  (exists body : Values,
     sent (sub.Client.New (fixture.sub_client fixture.refusing)
             (Some fixture.card_with_token)) fixture.st0 = [Some body] /\
     body !! "card" = Some ["tok_999"] /\
     body !! "trial_end" = None /\
     body !! "quantity" = Some ["2"] /\
     body !! "application_fee_percent" = None) /\
  adds_last (sub.Client.New_body fixture.full) "trial_end" "1400000000" /\
  two_decimals "12.50" = true.
Proof.
  assert (Hmeta : forall ps, preserves sub_Update_keys (@Params_AppendTo fixture.core ps)).
  { intros ps. apply metadata_leaves. intros k x Hk E. listed Hk. }
  assert (Hmeta' : forall ps, preserves sub_New_keys (@Params_AppendTo fixture.core ps)).
  { intros ps. apply metadata_leaves. intros k x Hk E. listed Hk. }
  assert (Hcard : forall card,
            preserves sub_Update_keys
              (fun body => @CardParams_AppendDetails fixture.core card body true)).
  { intros card. apply card_expansion_leaves; intros Hk; listed Hk. }
  assert (Hcard' : forall card,
            preserves sub_New_keys
              (fun body => @CardParams_AppendDetails fixture.core card body true)).
  { intros card. apply card_expansion_leaves; intros Hk; listed Hk. }
  destruct (@numeric_encoding fixture.core (fixture.sub_client fixture.refusing)
              (fixture.plan_client fixture.refusing) "sub_1" fixture.full fixture.monthly
              fixture.st0)
    as (_ & _ & (_ & _ & Hlast & _) & HN & HU & HC & HP & _ & _ & Hfloat).
  destruct (@numeric_encoding fixture.core (fixture.sub_client fixture.refusing)
              (fixture.plan_client fixture.refusing) "sub_1" fixture.card_with_token
              fixture.monthly fixture.st0)
    as (_ & _ & _ & HN' & _).
  split; [apply HN; [apply Hmeta' | intros card _ _; apply Hcard']|].
  split; [apply HU; [apply Hmeta | intros card _ _ _; apply Hcard]|].
  split.
  { apply HC. apply metadata_leaves. intros k x Hk E. listed Hk. }
  split.
  { apply HP. apply metadata_leaves. intros k x Hk E. listed Hk. }
  split.
  { destruct HN' as (body & Hs & Ht & Hq & Hf);
      [apply Hmeta' | intros card _ _; apply Hcard' |].
    exists body. split; [exact Hs|].
    split; [|split; [exact Ht | split; [exact Hq | exact Hf]]].
    assert (Hb : body = sub.Client.New_body fixture.card_with_token)
      by (rewrite sent_sub_New in Hs; by injection Hs as <-).
    rewrite Hb. reflexivity. }
  split.
  { by apply Hlast. }
  exact (Hfloat (S754_finite false 25 (-1)) eq_refl).
Defined.

(** An infinite FeePercent is above zero and is written without any decimal
    digit. *)
Lemma fee_percent_infinite :
  exists body : Values,
    sent (sub.Client.New (fixture.sub_client fixture.refusing) (Some fixture.infinite_fee))
      fixture.st0 = [Some body] /\
    body !! "application_fee_percent" = Some ["+Inf"] /\
    two_decimals "+Inf" = false.
Proof.
  eexists. split; [reflexivity|]. split; reflexivity.
Qed.

(** Lookups in the bags of the charge event. *)
Lemma event_value_lookup_witness :
  stripe.GetObjValue fixture.charge_event ["card"; "brand"] = Ret "" /\
  stripe.GetObjValue fixture.charge_event ["refund"] = Ret "" /\
  stripe.GetObjValue fixture.charge_event ["card"; "last4"] = Ret "4242" /\
  stripe.GetPrevValue fixture.charge_event ["amount"] = Ret "" /\
  is_panic (stripe.GetObjValue fixture.charge_event []) = true /\
  is_panic (stripe.GetObjValue fixture.charge_event ["customer"; "email"]) = true /\
  is_panic (stripe.GetObjValue fixture.charge_event ["id"; "prefix"]) = true /\
  is_panic (stripe.GetObjValue fixture.charge_event ["paid"]) = true.
Proof.
  pose (d := {| stripe.Obj :=
                  {[ "id" := stripe.VString "ch_1";
                     "paid" := stripe.VBool true;
                     "refund" := stripe.VNil;
                     "card" := stripe.VMap {[ "last4" := stripe.VString "4242" ]} ]};
                stripe.Prev := ∅ |}).
  pose (card := ({[ "last4" := stripe.VString "4242" ]} : gmap string stripe.value)).
  assert (Hd : stripe.Data fixture.charge_event = Some d) by reflexivity.
  split.
  { destruct (event_value_lookup fixture.charge_event d ["card"; "brand"] Hd)
      as (_ & Hnil & _).
    apply Hnil. apply (Reaches_step _ "card" card); [reflexivity|].
    apply (Reaches_last card "brand"). }
  split.
  { destruct (event_value_lookup fixture.charge_event d ["refund"] Hd) as (_ & Hnil & _).
    apply Hnil. apply (Reaches_last (stripe.Obj d) "refund"). }
  split.
  { destruct (event_value_lookup fixture.charge_event d ["card"; "last4"] Hd)
      as (_ & _ & _ & Hstr & _).
    apply Hstr. apply (Reaches_step _ "card" card); [reflexivity|].
    apply (Reaches_last card "last4"). }
  split.
  { destruct (event_value_lookup fixture.charge_event d ["amount"] Hd)
      as (_ & _ & Hnil & _).
    apply Hnil. apply (Reaches_last (stripe.Prev d) "amount"). }
  split.
  { destruct (event_value_lookup fixture.charge_event d [] Hd) as ((Hempty & _) & _).
    exact Hempty. }
  split.
  { destruct (event_value_lookup fixture.charge_event d ["customer"; "email"] Hd)
      as (_ & _ & _ & _ & _ & Hblocked & _).
    apply Hblocked. apply Blocked_here. intros m'. discriminate. }
  split.
  { destruct (event_value_lookup fixture.charge_event d ["id"; "prefix"] Hd)
      as (_ & _ & _ & _ & _ & Hblocked & _).
    apply Hblocked. apply Blocked_here. intros m'. discriminate. }
  { destruct (event_value_lookup fixture.charge_event d ["paid"] Hd)
      as (_ & _ & _ & _ & _ & _ & _ & Hother & _).
    apply (Hother (stripe.VBool true)).
    - apply (Reaches_last (stripe.Obj d) "paid").
    - discriminate.
    - reflexivity. }
Defined.

(** With nil params the operations of the subscription client and the plan
    client's New panic before any request is made. *)
Lemma nil_params_panic :
  sub.Client.New (fixture.sub_client fixture.refusing) None fixture.st0 =
    (Panic NilDereference, fixture.st0) /\
  sub.Client.Get (fixture.sub_client fixture.refusing) "sub_1" None fixture.st0 =
    (Panic NilDereference, fixture.st0) /\
  sub.Client.Update (fixture.sub_client fixture.refusing) "sub_1" None fixture.st0 =
    (Panic NilDereference, fixture.st0) /\
  sub.Client.Cancel (fixture.sub_client fixture.refusing) "sub_1" None fixture.st0 =
    (Panic NilDereference, fixture.st0) /\
  sub.Client.List (fixture.sub_client fixture.refusing) None = Panic NilDereference /\
  plan.Client.New (fixture.plan_client fixture.refusing) None fixture.st0 =
    (Panic NilDereference, fixture.st0).
Proof. repeat split. Qed.

(** A refused request: Get returns the error of the backend as it is. *)
Lemma backend_error_verbatim_witness :
  sub.Client.Get (fixture.sub_client fixture.refusing) "sub_1" (Some fixture.only_plan)
    fixture.st0 =
    (Ret (Some "", Some "card_declined"),
     {| world := 1%nat;
        calls := [{| c_method := "GET"; c_path := "/customers/cus_1/subscriptions/sub_1";
                     c_key := "sk_test"; c_body := Some ∅;
                     c_err := Some "card_declined" |}] |}) /\
  exists method path key body k v r,
    stripe.Call fixture.refusing method path key body k v 0%nat =
      ((r, Some "card_declined"), 1%nat).
Proof.
  split; [reflexivity|].
  destruct (@backend_error_verbatim fixture.core (fixture.plan_client fixture.refusing)
              (fixture.sub_client fixture.refusing) "sub_1" (Some fixture.monthly)
              (Some fixture.only_plan)) as (_ & _ & _ & _ & _ & HGet & _).
  destruct (HGet fixture.st0 _ _ eq_refl) as (method & path & key & body & k & v & r & HCall & _).
  by exists method, path, key, body, k, v, r.
Defined.

(** A response cut short: New returns the error together with the pointer to
    the plan the backend had decoded by then; a refused request leaves the
    pointer to the zero plan. *)
Lemma resource_pointer_never_nil_witness :
  (exists st',
     plan.Client.New (fixture.plan_client fixture.truncating) (Some fixture.monthly)
       fixture.st0 = (Ret (Some "gold", Some "unexpected end of JSON input"), st') /\
     exists method path key body,
       stripe.Call fixture.truncating method path key body stripe.KPlan
         (@Plan_zero fixture.core) 0%nat =
         (("gold", Some "unexpected end of JSON input"), world st')) /\
  plan.Client.New (fixture.plan_client fixture.refusing) (Some fixture.monthly) fixture.st0 =
    (Ret (Some "", Some "card_declined"),
     snd (plan.Client.New (fixture.plan_client fixture.refusing) (Some fixture.monthly)
            fixture.st0)) /\
  is_Some (Some "" : option string).
Proof.
  destruct (@resource_pointer_never_nil fixture.core (fixture.plan_client fixture.truncating)
              (fixture.sub_client fixture.truncating) "sub_1")
    as (_ & _ & _ & _ & Hdest & _).
  destruct (Hdest (Some fixture.monthly)) as (HNewDest & _).
  destruct (HNewDest fixture.st0 (Some "gold") (Some "unexpected end of JSON input")
              (snd (plan.Client.New (fixture.plan_client fixture.truncating)
                      (Some fixture.monthly) fixture.st0)) eq_refl)
    as (method & path & key & body & d & HCall & Hptr).
  injection Hptr as <-.
  split.
  { eexists. split; [reflexivity|]. exists method, path, key, body. exact HCall. }
  split; [reflexivity|].
  destruct (@resource_pointer_never_nil fixture.core (fixture.plan_client fixture.refusing)
              (fixture.sub_client fixture.refusing) "sub_1") as (Hplan & _).
  destruct (Hplan (Some fixture.monthly)) as (HNew & _).
  exact (HNew fixture.st0 _ _ _ eq_refl).
Defined.

(** The one request of Cancel, and the two page requests of three Next calls. *)
Lemma verbs_and_paths_witness :
  requests_of (sub.Client.Cancel (fixture.sub_client fixture.refusing) "sub_1"
                 (Some fixture.only_plan)) fixture.st0 =
    [{| c_method := "DELETE"; c_path := "/customers/cus_1/subscriptions/sub_1";
        c_key := "sk_test"; c_body := Some ∅; c_err := Some "card_declined" |}] /\
  Forall (request_ok OpDel)
    (requests_of (sub.Client.Cancel (fixture.sub_client fixture.refusing) "sub_1"
                    (Some fixture.only_plan)) fixture.st0) /\
  length (requests_of (repeat_next sub.Iter.Next 3
            {| sub.Iter.Iter := stripe.GetIter (Some (stripe.SubListParams.ListParams_
                                                        fixture.two_per_page))
                                  (Some {[ "limit" := ["2"] ]})
                                  (sub.Client.list_query
                                     (fixture.sub_client (fixture.paging false))
                                     fixture.two_per_page) |}) fixture.st0) = 2%nat /\
  Forall (request_ok OpList)
    (requests_of (repeat_next sub.Iter.Next 3
            {| sub.Iter.Iter := stripe.GetIter (Some (stripe.SubListParams.ListParams_
                                                        fixture.two_per_page))
                                  (Some {[ "limit" := ["2"] ]})
                                  (sub.Client.list_query
                                     (fixture.sub_client (fixture.paging false))
                                     fixture.two_per_page) |}) fixture.st0).
Proof.
  destruct (@verbs_and_paths fixture.core (fixture.plan_client fixture.refusing)
              (fixture.sub_client (fixture.paging false)) "sub_1" None None None
              (Some fixture.two_per_page) 3 fixture.st0)
    as (_ & _ & _ & _ & _ & _ & _ & _ & _ & HList).
  destruct (@verbs_and_paths fixture.core (fixture.plan_client fixture.refusing)
              (fixture.sub_client fixture.refusing) "sub_1" None (Some fixture.only_plan) None
              None 0 fixture.st0)
    as (_ & _ & _ & _ & _ & _ & _ & _ & HCancel & _).
  split; [reflexivity|]. split; [exact HCancel|]. split; [reflexivity|]. exact HList.
Defined.

(** ** The further properties at work in the concrete setting *)

(** The bag of the charge event and the card nested in it. *)
Lemma getValue_characterised_witness :
  stripe.getValue
    {[ "id" := stripe.VString "ch_1"; "refund" := stripe.VNil ]} ["refund"] = Ret "" /\
  stripe.getValue
    {[ "id" := stripe.VString "ch_1"; "refund" := stripe.VNil ]} ["missing"] = Ret "" /\
  is_panic (stripe.getValue
    {[ "id" := stripe.VString "ch_1"; "refund" := stripe.VNil ]} ["id"; "x"]) = true.
Proof.
  pose (m := ({[ "id" := stripe.VString "ch_1"; "refund" := stripe.VNil ]}
               : gmap string stripe.value)).
  split; [|split].
  - destruct (getValue_characterised m ["refund"] "") as [[_ Hret] _].
    apply Hret. exists stripe.VNil. split; [|by left].
    apply (Reaches_last m "refund").
  - destruct (getValue_characterised m ["missing"] "") as [[_ Hret] _].
    apply Hret. exists stripe.VNil. split; [|by left].
    apply (Reaches_last m "missing").
  - destruct (getValue_characterised m ["id"; "x"] "") as [_ [_ Hpanic]].
    apply Hpanic. right. left. apply Blocked_here. intros m'. discriminate.
Defined.

(** The path card, last4 in the bag is the path last4 in the card. *)
Lemma getValue_nested_witness :
  stripe.getValue
    {[ "id" := stripe.VString "ch_1";
       "card" := stripe.VMap {[ "last4" := stripe.VString "4242" ]} ]} ["card"; "last4"] =
  stripe.getValue {[ "last4" := stripe.VString "4242" ]} ["last4"].
Proof.
  pose (card := ({[ "last4" := stripe.VString "4242" ]} : gmap string stripe.value)).
  pose (m := ({[ "id" := stripe.VString "ch_1"; "card" := stripe.VMap card ]}
               : gmap string stripe.value)).
  apply (getValue_nested m card ["card"] ["last4"]).
  - exact (Reaches_last m "card").
  - discriminate.
Defined.

(** Storing a card map and a string, and reading them back. *)
Lemma getValue_insert_witness :
  stripe.getValue (<["card" := stripe.VMap {[ "last4" := stripe.VString "4242" ]}]> ∅)
    ["card"; "last4"] = Ret "4242" /\
  stripe.getValue (<["id" := stripe.VString "ch_1"]> ∅) ["card"; "last4"] =
    stripe.getValue ∅ ["card"; "last4"].
Proof.
  destruct (getValue_insert ∅ {[ "last4" := stripe.VString "4242" ]} "card" "id" "ch_1"
              stripe.VNil ["last4"]) as (_ & Hmap & _ & _).
  destruct (getValue_insert ∅ ∅ "id" "card" "ch_1" (stripe.VString "ch_1") ["last4"])
    as (_ & _ & Hother & _).
  split.
  - rewrite Hmap by discriminate. reflexivity.
  - apply Hother. discriminate.
Defined.

(** The fully populated params: the token is sent, the card bundle is not. *)
Lemma sub_New_body_exact_witness :
  sent (sub.Client.New (fixture.sub_client fixture.refusing) (Some fixture.full)) fixture.st0 =
    [Some (@Params_AppendTo fixture.core [("order", "42")]
             (list_to_map
                [("plan", ["gold"]); ("card", ["tok_123"]); ("coupon", ["SPRING"]);
                 ("trial_end", ["1400000000"]); ("quantity", ["3"]);
                 ("application_fee_percent", ["12.50"])]))].
Proof.
  destruct (@sub_New_body_exact fixture.core (fixture.sub_client fixture.refusing)
              fixture.full fixture.st0) as [Hsent _].
  - left. discriminate.
  - exact Hsent.
Defined.

(** No token in the params, one in the card bundle; an empty plan and a trial
    end in the past are left out. *)
Lemma sub_Update_body_exact_witness :
  sent (sub.Client.Update (fixture.sub_client fixture.refusing) "sub_1"
          (Some fixture.card_with_token)) fixture.st0 =
    [Some (list_to_map [("prorate", ["false"]); ("card", ["tok_999"]); ("quantity", ["2"])])].
Proof.
  destruct (@sub_Update_body_exact fixture.core (fixture.sub_client fixture.refusing) "sub_1"
              fixture.card_with_token fixture.st0) as [Hsent _].
  - left. reflexivity.
  - exact Hsent.
Defined.

(** With only the plan set, Update and New build the same body. *)
Lemma sub_Update_builds_as_New_witness :
  sub.Client.Update_body fixture.only_plan = sub.Client.New_body fixture.only_plan.
Proof.
  apply (@sub_Update_builds_as_New fixture.core fixture.only_plan).
  - discriminate.
  - reflexivity.
  - right. reflexivity.
Defined.

(** A trial end in the past, a fee of minus zero and NoProrate leave the body
    of New as it is without them. *)
Lemma sub_New_body_lossless_witness :
  sub.Client.New_body fixture.only_plan = sub.Client.New_body fixture.past_trial /\
  Z.max 0 0 = Z.max 0 (-3).
Proof.
  assert (E : sub.Client.New_body fixture.only_plan = sub.Client.New_body fixture.past_trial)
    by reflexivity.
  split; [exact E|].
  destruct (@sub_New_body_lossless fixture.core fixture.only_plan fixture.past_trial)
    as (_ & _ & _ & Htrial & _); [by right | by right | exact E | exact Htrial].
Defined.

(** The monthly plan against itself. *)
Lemma plan_New_body_lossless_witness :
  stripe.PlanParams.Amount fixture.monthly = 2000%N /\
  stripe.PlanParams.Interval fixture.monthly = "month".
Proof.
  destruct (@plan_New_body_lossless fixture.core fixture.monthly fixture.monthly eq_refl)
    as (_ & _ & Hamount & _ & Hinterval & _).
  split; [exact Hamount | exact Hinterval].
Defined.

(** Two Get requests with the same path are for the same plan. *)
Lemma plan_paths_witness :
  c_path <$> requests_of (plan.Client.Get (fixture.plan_client fixture.refusing) "gold" None)
               fixture.st0 = ["/plans/gold"] /\
  "gold" = "gold".
Proof.
  split; [reflexivity|].
  destruct (@plan_paths fixture.core (fixture.plan_client fixture.refusing) "gold" "gold"
              fixture.monthly None (Some fixture.monthly) fixture.st0 fixture.st0)
    as (_ & Hinj & _).
  apply Hinj. reflexivity.
Defined.

(** One path, reached from two customers. *)
Lemma sub_paths_unescaped_witness :
  c_path <$> requests_of
               (sub.Client.Get (fixture.sub_client fixture.refusing)
                  "sub_7/subscriptions/sub_9" (Some fixture.only_plan)) fixture.st0 =
  c_path <$> requests_of
               (sub.Client.Get (fixture.sub_client fixture.refusing)
                  "sub_9" (Some fixture.spliced)) fixture.st0.
Proof.
  apply (@sub_paths_unescaped fixture.core (fixture.sub_client fixture.refusing)
           "cus_1" "sub_7" "sub_9" fixture.only_plan fixture.spliced fixture.st0 fixture.st0);
    reflexivity.
Defined.

(** A plan iterator over a page of subscriptions panics on the next item. *)
Lemma iterator_wrappers_witness :
  plan.Iter.Next {| plan.Iter.Iter := fixture.after_first |} fixture.st0 =
    (Panic TypeAssertion, fixture.st0).
Proof.
  destruct (@iterator_wrappers fixture.core
              {| sub.Iter.Iter := fixture.after_first |}
              {| plan.Iter.Iter := fixture.after_first |} fixture.st0)
    as (_ & _ & _ & Hpanic).
  apply (Hpanic (@stripe.ISub fixture.core "sub_2") _ fixture.st0
           (@Next_buffered fixture.core fixture.after_first
              (@stripe.ISub fixture.core "sub_2") fixture.st0 eq_refl eq_refl)).
  discriminate.
Defined.

(** Params that differ in the plan, the trial end and the fee get the same
    answer from Get and from Cancel. *)
Lemma reads_use_few_fields_witness :
  sub.Client.Get (fixture.sub_client fixture.refusing) "sub_1" (Some fixture.only_plan)
    fixture.st0 =
  sub.Client.Get (fixture.sub_client fixture.refusing) "sub_1" (Some fixture.infinite_fee)
    fixture.st0 /\
  sub.Client.Cancel (fixture.sub_client fixture.refusing) "sub_1" (Some fixture.only_plan)
    fixture.st0 =
  sub.Client.Cancel (fixture.sub_client fixture.refusing) "sub_1" (Some fixture.infinite_fee)
    fixture.st0.
Proof.
  destruct (@reads_use_few_fields fixture.core (fixture.sub_client fixture.refusing)
              (fixture.plan_client fixture.refusing) "sub_1"
              fixture.only_plan fixture.infinite_fee fixture.monthly fixture.monthly
              fixture.st0) as [Hsub _].
  destruct (Hsub eq_refl eq_refl) as [HGet HCancel].
  split; [exact HGet | exact (HCancel eq_refl)].
Defined.

(** With neither a name nor a statement, Update of the plan client sends an
    empty body, whatever the amount and the currency of the params. *)
Lemma plan_Update_body_exact_witness :
  plan.Client.Update_body fixture.untouched = ∅ /\
  sent (plan.Client.Update (fixture.plan_client fixture.refusing) "gold"
          (Some fixture.untouched)) fixture.st0 = [Some ∅].
Proof.
  destruct (@plan_Update_body_exact fixture.core (fixture.plan_client fixture.refusing) "gold"
              fixture.untouched fixture.st0) as (Hsent & _ & Hempty).
  split; [apply Hempty; by split | exact Hsent].
Defined.
